(** * A shallow embedding of the plansync backend (Flask + hosted record store)

    Modelled files:
    - [app/routes/plans.py]       : the request handlers and [get_current_user];
    - [app/models/plan.py], [guest.py], [event_task.py], [category.py] :
      the entity accessors;
    - [app/routes/status_codes.py] : the [Codes] enumeration;
    - [app/supabase_client.py]     : the gateway, as the [Runtime] class.

    JSON values and database rows are [jval] and association lists ([dict]);
    a handler is a computation in a state-and-exception monad [M] whose state
    holds the record store, the wall clock read by [datetime.utcnow()] and a
    trace of the calls made (authorisation capability, accessors, gateway). *)

From Stdlib Require Import String Ascii List ZArith Bool Lia Permutation Sorted.
Import ListNotations.
Open Scope string_scope.
Open Scope Z_scope.

(** ** JSON values and Python dictionaries *)

#[local] Set Warnings "-register-all".
Inductive jval : Type :=
| JNull
| JBool (b : bool)
| JInt (z : Z)
| JStr (s : string)
| JList (l : list jval)
| JObj (d : list (string * jval)).

(** A Python [dict] with string keys, in insertion order. *)
Definition dict := list (string * jval).

Fixpoint jeqb (a b : jval) : bool :=
  match a, b with
  | JNull, JNull => true
  | JBool x, JBool y => Bool.eqb x y
  | JInt x, JInt y => Z.eqb x y
  | JStr x, JStr y => String.eqb x y
  | JList xs, JList ys =>
      (fix go (xs ys : list jval) : bool :=
         match xs, ys with
         | [], [] => true
         | x :: xs', y :: ys' => jeqb x y && go xs' ys'
         | _, _ => false
         end) xs ys
  | JObj xs, JObj ys =>
      (fix go (xs ys : list (string * jval)) : bool :=
         match xs, ys with
         | [], [] => true
         | (k, x) :: xs', (k', y) :: ys' => String.eqb k k' && jeqb x y && go xs' ys'
         | _, _ => false
         end) xs ys
  | _, _ => false
  end.

(** [d.get(k)]: the value stored under [k], if any. *)
Fixpoint dget (d : dict) (k : string) : option jval :=
  match d with
  | [] => None
  | (k', v) :: d' => if String.eqb k k' then Some v else dget d' k
  end.

(** [d[k] = v]: replace in place when the key exists, append otherwise. *)
Fixpoint dset (d : dict) (k : string) (v : jval) : dict :=
  match d with
  | [] => [(k, v)]
  | (k', v') :: d' => if String.eqb k k' then (k', v) :: d' else (k', v') :: dset d' k v
  end.

(** [{k: v for k, v in d.items() if v is not None}] *)
Definition drop_none (d : dict) : dict :=
  filter (fun kv => match snd kv with JNull => false | _ => true end) d.

(** Python truthiness of a JSON value. *)
Definition truthy (v : jval) : bool :=
  match v with
  | JNull => false
  | JBool b => b
  | JInt z => negb (Z.eqb z 0)
  | JStr s => negb (String.eqb s "")
  | JList l => match l with [] => false | _ => true end
  | JObj d => match d with [] => false | _ => true end
  end.

(** [v == s] for a Python string [s]. *)
Definition is_str (v : jval) (s : string) : bool :=
  match v with JStr t => String.eqb t s | _ => false end.

(** ** Decimal rendering, for [str(n)] and store-assigned ids *)

Fixpoint digits (fuel n : nat) (acc : string) : string :=
  match fuel with
  | O => acc
  | S f =>
      let acc' := String (ascii_of_nat (48 + n mod 10)) acc in
      if Nat.ltb n 10 then acc' else digits f (n / 10) acc'
  end.

Definition string_of_nat (n : nat) : string := digits (S n) n "".

Definition string_of_Z (z : Z) : string :=
  if z <? 0 then "-" ++ string_of_nat (Z.to_nat (- z)) else string_of_nat (Z.to_nat z).

(** [str(v)] for a JSON value; string escapes inside [repr] are not modelled. *)
Fixpoint py_repr (v : jval) : string :=
  match v with
  | JNull => "None"
  | JBool true => "True"
  | JBool false => "False"
  | JInt z => string_of_Z z
  | JStr s => "'" ++ s ++ "'"
  | JList l =>
      "[" ++ (fix go (l : list jval) : string :=
                match l with
                | [] => ""
                | [x] => py_repr x
                | x :: l' => py_repr x ++ ", " ++ go l'
                end) l ++ "]"
  | JObj d =>
      "{" ++ (fix go (d : list (string * jval)) : string :=
                match d with
                | [] => ""
                | [(k, x)] => "'" ++ k ++ "': " ++ py_repr x
                | (k, x) :: d' => "'" ++ k ++ "': " ++ py_repr x ++ ", " ++ go d'
                end) d ++ "}"
  end.

Definition py_str (v : jval) : string :=
  match v with JStr s => s | _ => py_repr v end.

(** [datetime.isoformat()]: an instant (an integer count of microseconds)
    rendered as a string; only its injectivity matters here. *)
Definition isoformat (t : Z) : string := "@" ++ string_of_Z t.

(** [s.replace('Z', '+00:00')] *)
Fixpoint replace_Z (s : string) : string :=
  match s with
  | EmptyString => EmptyString
  | String c s' => if Ascii.eqb c "Z"%char then "+00:00" ++ replace_Z s' else String c (replace_Z s')
  end.

(** [s.split(' ')] *)
Fixpoint split_space_aux (s : string) (cur : string) : list string :=
  match s with
  | EmptyString => [cur]
  | String c s' =>
      if Ascii.eqb c " "%char then cur :: split_space_aux s' ""
      else split_space_aux s' (cur ++ String c EmptyString)
  end.

Definition split_space (s : string) : list string := split_space_aux s "".

(** ** Status codes ([app/routes/status_codes.py]) *)

Inductive Codes : Type :=
| SUCCESS | ERROR | NOT_FOUND | UNAUTHORISED_ACCESS | SERVICE_NOT_AVAILABLE.

Definition Codes_value (c : Codes) : Z :=
  match c with
  | SUCCESS => 201
  | ERROR => 400
  | NOT_FOUND => 404
  | UNAUTHORISED_ACCESS => 401
  | SERVICE_NOT_AVAILABLE => 500
  end.

(** The second component of a handler's return tuple: either a member of
    [Codes] (the handlers return the member itself, not its [.value]) or an
    integer literal. *)
Inductive status : Type :=
| StCode (c : Codes)
| StInt (z : Z).

Definition status_value (s : status) : Z :=
  match s with StCode c => Codes_value c | StInt z => z end.

(** What a handler returns: [(jsonify(body), status)]. *)
Definition resp : Type := (jval * status)%type.

Definition err (msg : string) : jval := JObj [("error", JStr msg)].

(** ** The record store and its gateway ([app/supabase_client.py])

    [get_table(name)] returns a query builder; each chain
    [select/eq/in_/order/range/insert/update/delete ... .execute()] is one
    [op], and [.execute().data] is the list of rows it returns. *)

Inductive qfilter : Type :=
| FEq (col : string) (v : jval)          (* .eq(col, v) *)
| FIn (col : string) (vs : list jval).   (* .in_(col, vs) *)

Inductive op : Type :=
| OSelect (tbl cols : string) (fs : list qfilter)
          (ord : option (string * bool)) (rng : option (Z * Z))
| OInsert (tbl : string) (payload : jval)
| OUpdate (tbl : string) (payload : jval) (fs : list qfilter)
| ODelete (tbl : string) (fs : list qfilter).

Record DB : Type := mkDB { tables : list (string * list dict); next_id : nat }.

Inductive exn : Type :=
| KeyError (k : string)
| TypeError
| AttributeError
| IndexError
| GatewayError (msg : string)     (* an error of the record store or its client *)
| MarkupError (msg : string)      (* rich.errors.MarkupError *)
| HTTPException (code : Z)        (* werkzeug's HTTP errors: Flask answers [code] *)
| BaseExc (name : string).        (* KeyboardInterrupt, SystemExit, ...: no [Exception] *)

(** [isinstance(e, Exception)] *)
Definition is_exception (e : exn) : bool :=
  match e with BaseExc _ => false | _ => true end.

(** [str(e)]. The messages of Python's own TypeError, AttributeError and
    IndexError name types and operations and hold no square bracket. *)
Definition exn_str (e : exn) : string :=
  match e with
  | KeyError k => "'" ++ k ++ "'"
  | TypeError => "unsupported operand type(s)"
  | AttributeError => "object has no attribute 'get'"
  | IndexError => "list index out of range"
  | GatewayError msg | MarkupError msg => msg
  | HTTPException code => string_of_Z code
  | BaseExc name => name
  end.

Inductive res (A : Type) : Type :=
| Ok (a : A)
| Raise (e : exn).
Arguments Ok {A} a.
Arguments Raise {A} e.

(** [user.user] as returned by [get_auth().get_user(token)]. *)
Record user : Type := mkUser { uid : string }.

(** The external collaborators: the gateway's query execution, the auth
    capability [get_auth().get_user(token)] (already collapsed to
    [user.user if user else None]), Python's [datetime.fromisoformat], and
    rich's [print] (imported by every model file as [print]), which renders
    console markup and can raise. *)
Class Runtime : Type := {
  rt_exec : op -> DB -> res (list dict) * DB;
  rt_get_user : string -> res (option user);
  rt_fromisoformat : string -> option Z;
  rt_print : string -> res unit
}.

(** *** rich's console markup, as [rich.print] renders it

    [rich.markup.render] finds the tags with its regular expression [RE_TAGS]:
    some backslashes, a [\[], a character of [a-z#/@], then the characters up to the first []]
    with no [\[] among them. An odd number of backslashes before the tag
    escapes it. An opening tag is pushed on a stack; [\[/name]] pops the most
    recent open tag called [name] and [\[/]] the most recent one; when there
    is none, rich raises MarkupError. The text before [=] is the tag's name;
    names are compared as written (rich first normalises style names, so
    [\[b]] and [\[/bold]] match there but not here), and the parameters of
    [\[@...]] tags, which rich evaluates when they close, are not checked. *)

Inductive mstate : Type :=
| MText (bs : nat)                 (* plain text after [bs] backslashes *)
| MOpen (bs : nat)                 (* just after a [\[] *)
| MTag (bs : nat) (acc : list ascii). (* inside a tag; [acc] reversed *)

Definition tag_start (c : ascii) : bool :=
  ((Nat.leb 97 (nat_of_ascii c)) && (Nat.leb (nat_of_ascii c) 122))
  || Ascii.eqb c "#"%char || Ascii.eqb c "/"%char || Ascii.eqb c "@"%char.

Fixpoint leading_bs (acc : list ascii) : nat :=
  match acc with c :: acc' => if Ascii.eqb c "\"%char then S (leading_bs acc') else O | [] => O end.

Fixpoint before_eq (t : list ascii) : list ascii :=
  match t with c :: t' => if Ascii.eqb c "="%char then [] else c :: before_eq t' | [] => [] end.

Fixpoint drop_spaces (t : list ascii) : list ascii :=
  match t with c :: t' => if Ascii.eqb c " "%char then drop_spaces t' else t | [] => [] end.

(** [str.strip()], for spaces *)
Definition strip (t : list ascii) : list ascii := rev (drop_spaces (rev (drop_spaces t))).

Fixpoint list_ascii_eqb (a b : list ascii) : bool :=
  match a, b with
  | [], [] => true
  | x :: a', y :: b' => Ascii.eqb x y && list_ascii_eqb a' b'
  | _, _ => false
  end.

(** [pop_style]: remove the most recent open tag called [name] (top first). *)
Fixpoint pop_style (name : list ascii) (stack : list (list ascii)) : option (list (list ascii)) :=
  match stack with
  | [] => None
  | t :: st => if list_ascii_eqb t name then Some st
               else match pop_style name st with Some st' => Some (t :: st') | None => None end
  end.

(** One complete tag, preceded by [bs] backslashes; [None] is MarkupError. *)
Definition markup_tag (bs : nat) (tag : list ascii) (stack : list (list ascii))
  : option (list (list ascii)) :=
  if Nat.odd bs then Some stack else
  match before_eq tag with
  | c :: rest =>
      if Ascii.eqb c "/"%char then
        match strip rest with
        | [] => match stack with [] => None | _ :: st => Some st end
        | name => pop_style name stack
        end
      else Some ((c :: rest) :: stack)
  | [] => Some stack
  end.

Fixpoint markup_ok_aux (s : string) (m : mstate) (stack : list (list ascii)) : bool :=
  match s with
  | EmptyString => true
  | String c s' =>
      match m with
      | MText bs =>
          if Ascii.eqb c "\"%char then markup_ok_aux s' (MText (S bs)) stack
          else if Ascii.eqb c "["%char then markup_ok_aux s' (MOpen bs) stack
          else markup_ok_aux s' (MText 0) stack
      | MOpen bs =>
          if tag_start c then markup_ok_aux s' (MTag bs [c]) stack
          else if Ascii.eqb c "["%char then markup_ok_aux s' (MOpen 0) stack
          else if Ascii.eqb c "\"%char then markup_ok_aux s' (MText 1) stack
          else markup_ok_aux s' (MText 0) stack
      | MTag bs acc =>
          if Ascii.eqb c "]"%char then
            match markup_tag bs (rev acc) stack with
            | Some st => markup_ok_aux s' (MText 0) st
            | None => false
            end
          else if Ascii.eqb c "["%char then markup_ok_aux s' (MOpen (leading_bs acc)) stack
          else markup_ok_aux s' (MTag bs (c :: acc)) stack
      end
  end.

(** Whether rich renders [s] without MarkupError. *)
Definition markup_ok (s : string) : bool := markup_ok_aux s (MText 0) [].

(** [rich.print(s)] *)
Definition rich_print (s : string) : res unit :=
  if markup_ok s then Ok tt else Raise (MarkupError ("closing tag in " ++ s ++ " doesn't match any open tag")).

(** *** An in-memory record store behind the gateway *)

Fixpoint table (ts : list (string * list dict)) (name : string) : list dict :=
  match ts with
  | [] => []
  | (n, rows) :: ts' => if String.eqb n name then rows else table ts' name
  end.

Fixpoint set_table (ts : list (string * list dict)) (name : string) (rows : list dict)
  : list (string * list dict) :=
  match ts with
  | [] => [(name, rows)]
  | (n, r) :: ts' =>
      if String.eqb n name then (n, rows) :: ts' else (n, r) :: set_table ts' name rows
  end.

Definition filter_ok (r : dict) (f : qfilter) : bool :=
  match f with
  | FEq c v => match dget r c with Some x => jeqb x v | None => false end
  | FIn c vs => match dget r c with Some x => existsb (jeqb x) vs | None => false end
  end.

Definition row_matches (fs : list qfilter) (r : dict) : bool := forallb (filter_ok r) fs.

Definition jcmp (a b : option jval) : comparison :=
  match a, b with
  | Some (JInt x), Some (JInt y) => Z.compare x y
  | Some (JStr x), Some (JStr y) => String.compare x y
  | _, _ => Eq
  end.

(** [.order(col, desc=...)]: a stable insertion sort on the column. *)
Fixpoint insert_row (c : string) (desc : bool) (x : dict) (rows : list dict) : list dict :=
  match rows with
  | [] => [x]
  | y :: ys =>
      let before := if desc then jcmp (dget x c) (dget y c) =? Gt
                    else jcmp (dget x c) (dget y c) =? Lt in
      if before then x :: y :: ys else y :: insert_row c desc x ys
  end
where "a =? b" := (match a, b with Gt, Gt | Lt, Lt | Eq, Eq => true | _, _ => false end).

Definition sort_rows (c : string) (desc : bool) (rows : list dict) : list dict :=
  fold_left (fun acc x => insert_row c desc x acc) rows [].

Definition apply_updates (r : dict) (u : dict) : dict :=
  fold_left (fun r kv => dset r (fst kv) (snd kv)) u r.

Definition rows_of_payload (p : jval) : option (list dict) :=
  match p with
  | JObj d => Some [d]
  | JList l =>
      fold_right (fun v acc => match v, acc with
                               | JObj d, Some ds => Some (d :: ds)
                               | _, _ => None end) (Some []) l
  | _ => None
  end.

(** The store assigns an [id] to each inserted row that has none. *)
Fixpoint assign_ids (n : nat) (rows : list dict) : list dict * nat :=
  match rows with
  | [] => ([], n)
  | r :: rs =>
      let r' := match dget r "id" with
                | Some _ => r
                | None => ("id", JStr (string_of_nat n)) :: r
                end in
      let (rs', n') := assign_ids (S n) rs in (r' :: rs', n')
  end.

(** The row of [tbl] whose [id] is [r[fk]], embedded by [.select]: the
    listed columns, or all of them; [null] when there is none. *)
Definition embed_one (ts : list (string * list dict)) (tbl fk : string)
  (cols : option (list string)) (r : dict) : jval :=
  match dget r fk with
  | Some v =>
      match filter (row_matches [FEq "id" v]) (table ts tbl) with
      | e :: _ =>
          JObj (match cols with
                | Some cs => map (fun c => (c, match dget e c with Some x => x | None => JNull end)) cs
                | None => e
                end)
      | [] => JNull
      end
  | None => JNull
  end.

(** The columns of [.select(cols)], for the column lists the code uses:
    [*], one column, or every column plus a to-one embedded row. *)
Definition select_cols (ts : list (string * list dict)) (cols : string) (r : dict) : dict :=
  if String.eqb cols "*, event_categories(name, icon)" then
    app r [("event_categories", embed_one ts "event_categories" "category_id" (Some ["name"; "icon"]) r)]
  else if String.eqb cols "*, guests!guest_relationships_related_guest_id_fkey(*)" then
    app r [("guests", embed_one ts "guests" "related_guest_id" None r)]
  else if String.eqb cols "*, guests!guest_relationships_primary_guest_id_fkey(*)" then
    app r [("guests", embed_one ts "guests" "primary_guest_id" None r)]
  else if String.eqb cols "guest_id" then
    [("guest_id", match dget r "guest_id" with Some x => x | None => JNull end)]
  else r.
Arguments select_cols ts cols r /.

(** [select("*")] returns the rows as stored. *)
Definition select_rows (ts : list (string * list dict)) (cols : string) (rows : list dict) : list dict :=
  if String.eqb cols "*" then rows else map (select_cols ts cols) rows.

(** The foreign keys of the schema in the models' docstrings, as
    (child table, column, parent table). Deleting a parent row deletes the
    child rows that refer to it (ON DELETE CASCADE), as the docstring of
    [Guest.delete] and the specification's data model describe. *)
Definition fk_cascades : list (string * string * string) :=
  [("guests", "plan_id", "plans"); ("guest_phones", "guest_id", "guests");
   ("guest_relationships", "plan_id", "plans");
   ("guest_relationships", "primary_guest_id", "guests");
   ("guest_relationships", "related_guest_id", "guests");
   ("event_tasks", "plan_id", "plans")].

(** [r[col]] is the id of one of the rows in [gone]. *)
Definition refers (col : string) (gone : list dict) (r : dict) : bool :=
  match dget r col with
  | Some v => existsb (fun g => match dget g "id" with Some i => jeqb v i | None => false end) gone
  | None => false
  end.

(** The cascade of deleting [gone] from [tbl]; [fuel] bounds its depth (the
    longest chain of foreign keys, plans to guests to phones, has two links). *)
Fixpoint cascade (fuel : nat) (tbl : string) (gone : list dict)
  (ts : list (string * list dict)) : list (string * list dict) :=
  match fuel with
  | O => ts
  | S f =>
      fold_left (fun ts' (fk : string * string * string) =>
        let '(child, col, parent) := fk in
        if String.eqb parent tbl then
          match filter (refers col gone) (table ts' child) with
          | [] => ts'
          | hit => cascade f child hit
                     (set_table ts' child (filter (fun x => negb (refers col gone x)) (table ts' child)))
          end
        else ts') fk_cascades ts
  end.

Arguments cascade : simpl never.

(** The tables a cascade from [tbl] may reach. *)
Fixpoint cascade_tables (fuel : nat) (tbl : string) : list string :=
  match fuel with
  | O => []
  | S f =>
      flat_map (fun (fk : string * string * string) =>
                  let '(child, _, parent) := fk in
                  if String.eqb parent tbl then child :: cascade_tables f child else [])
               fk_cascades
  end.

Definition mem_exec (o : op) (d : DB) : res (list dict) * DB :=
  match o with
  | OSelect tbl cols fs ord rng =>
      let rows := filter (row_matches fs) (table (tables d) tbl) in
      let rows := match ord with Some (c, desc) => sort_rows c desc rows | None => rows end in
      let rows := match rng with
                  | Some (a, b) => firstn (Z.to_nat (b - a + 1)) (skipn (Z.to_nat a) rows)
                  | None => rows
                  end in
      (Ok (select_rows (tables d) cols rows), d)
  | OInsert tbl p =>
      match rows_of_payload p with
      | Some rs =>
          let (rs', n') := assign_ids (next_id d) rs in
          (Ok rs', mkDB (set_table (tables d) tbl (app (table (tables d) tbl) rs')) n')
      | None => (Raise (GatewayError "invalid insert payload"), d)
      end
  | OUpdate tbl p fs =>
      match p with
      | JObj u =>
          let t := table (tables d) tbl in
          (Ok (map (fun r => apply_updates r u) (filter (row_matches fs) t)),
           mkDB (set_table (tables d) tbl
                   (map (fun r => if row_matches fs r then apply_updates r u else r) t))
                (next_id d))
      | _ => (Raise (GatewayError "invalid update payload"), d)
      end
  | ODelete tbl fs =>
      let t := table (tables d) tbl in
      let gone := filter (row_matches fs) t in
      (Ok gone,
       mkDB (cascade 3 tbl gone (set_table (tables d) tbl (filter (fun r => negb (row_matches fs r)) t)))
            (next_id d))
  end.

Definition mem_runtime (get_user : string -> res (option user))
  (fromiso : string -> option Z) : Runtime :=
  {| rt_exec := mem_exec; rt_get_user := get_user; rt_fromisoformat := fromiso;
     rt_print := rich_print |}.

(** ** The state-and-exception monad *)

Inductive event : Type :=
| EvAuth (token : string)       (* get_auth().get_user(token) *)
| EvCall (accessor : string)    (* an entity accessor is entered *)
| EvExec (o : op).              (* a gateway query is executed *)

Record St : Type := mkSt { st_db : DB; st_now : Z; st_trace : list event }.

Definition M (A : Type) : Type := St -> res A * St.

Definition ret {A} (a : A) : M A := fun s => (Ok a, s).

Definition bind {A B} (m : M A) (k : A -> M B) : M B :=
  fun s => match m s with
           | (Ok a, s') => k a s'
           | (Raise e, s') => (Raise e, s')
           end.

Definition raise {A} (e : exn) : M A := fun s => (Raise e, s).

(** [try: m except ...: h e]; effects of [m] before the raise stay. *)
Definition try_except {A} (m : M A) (h : exn -> M A) : M A :=
  fun s => match m s with
           | (Ok a, s') => (Ok a, s')
           | (Raise e, s') => h e s'
           end.

Notation "x <- m ;; k" := (bind m (fun x => k))
  (at level 61, m at next level, right associativity).
Notation "m ;;; k" := (bind m (fun _ => k))
  (at level 61, right associativity).

Definition record (ev : event) : M unit :=
  fun s => (Ok tt, mkSt (st_db s) (st_now s) (ev :: st_trace s)).

Definition utcnow : M Z := fun s => (Ok (st_now s), s).

Section WithRuntime.
Context {RT : Runtime}.

(** [get_table(tbl)....execute().data] *)
Definition execute (o : op) : M (list dict) :=
  fun s => let (r, d') := rt_exec o (st_db s) in
           (r, mkSt d' (st_now s) (EvExec o :: st_trace s)).

Definition auth_get_user (token : string) : M (option user) :=
  record (EvAuth token) ;;; (fun s => (rt_get_user token, s)).

(** [print(text)], rich's *)
Definition print (text : string) : M unit := fun s => (rt_print text, s).

End WithRuntime.

(** An accessor method is entered (traced) and runs its body. *)
Definition entry {A} (name : string) (body : M A) : M A :=
  record (EvCall name) ;;; body.

(** The try-wrapped accessor methods: entered, then
    [try: body except Exception as e: print(f"{msg}{e}"); return default].
    An exception that is no [Exception] passes through, and so does one
    raised by the [print]. *)
Definition except_print {RT : Runtime} {A} (msg : string) (default : A) (e : exn) : M A :=
  if is_exception e then print (msg ++ exn_str e) ;;; ret default else raise e.

Definition accessor {RT : Runtime} {A} (name msg : string) (default : A) (body : M A) : M A :=
  entry name (try_except body (except_print msg default)).

(** ** Python helpers over the monad *)

Fixpoint mapM {A B} (f : A -> M B) (l : list A) : M (list B) :=
  match l with
  | [] => ret []
  | x :: l' => y <- f x ;; ys <- mapM f l' ;; ret (y :: ys)
  end.

Fixpoint foldM {A B} (f : B -> A -> M B) (acc : B) (l : list A) : M B :=
  match l with
  | [] => ret acc
  | x :: l' => acc' <- f acc x ;; foldM f acc' l'
  end.

(** [d[k]] on a row *)
Definition subscript (d : dict) (k : string) : M jval :=
  match dget d k with Some v => ret v | None => raise (KeyError k) end.

(** [v.get(k)] and [v.get(k, default)] on a JSON value *)
Definition obj_get_def (v : jval) (k : string) (default : jval) : M jval :=
  match v with
  | JObj d => ret (match dget d k with Some x => x | None => default end)
  | _ => raise AttributeError
  end.

Definition obj_get (v : jval) (k : string) : M jval := obj_get_def v k JNull.

(** [kwargs.get(k, default)] *)
Definition kw (kwargs : dict) (k : string) (default : jval) : jval :=
  match dget kwargs k with Some x => x | None => default end.

(** [for x in v]: a list, the keys of a dict, the characters of a string. *)
Definition py_iter (v : jval) : M (list jval) :=
  match v with
  | JList l => ret l
  | JObj d => ret (map (fun kv => JStr (fst kv)) d)
  | JStr s => ret (map (fun c => JStr (String c EmptyString)) (list_ascii_of_string s))
  | _ => raise TypeError
  end.

(** [response.data[0] if response.data else None] *)
Definition first_row (rows : list dict) : option dict :=
  match rows with r :: _ => Some r | [] => None end.

(** Truthiness of a row dict. *)
Definition row_truthy (r : dict) : bool := match r with [] => false | _ => true end.

(** [x + y] on JSON numbers (Python booleans count as 0 and 1). *)
Definition py_add (x y : jval) : M jval :=
  let num v := match v with
               | JInt z => Some z
               | JBool b => Some (if b then 1 else 0)
               | _ => None end in
  match num x, num y with
  | Some a, Some b => ret (JInt (a + b))
  | _, _ => raise TypeError
  end.

(** ** Entity accessors ([app/models/plan.py]) *)

Module Plan.

Definition create {RT : Runtime} (user_id : string) (title : jval) (event_date : Z)
  (kwargs : dict) : M (option dict) :=
  accessor "Plan.create" "Error creating a plan: " None (
    let data := drop_none
      [("user_id", JStr user_id); ("title", title);
       ("event_date", JStr (isoformat event_date));
       ("description", kw kwargs "description" JNull);
       ("location", kw kwargs "location" JNull);
       ("category_id", kw kwargs "category_id" JNull);
       ("budget", kw kwargs "budget" JNull);
       ("guest_count", kw kwargs "guest_count" (JInt 0));
       ("status", kw kwargs "status" (JStr "planned"));
       ("is_public", kw kwargs "is_public" (JBool false))] in
    rows <- execute (OInsert "plans" (JObj data)) ;;
    ret (first_row rows)).

Definition get_by_id {RT : Runtime} (plan_id : string) : M (option dict) :=
  accessor "Plan.get_by_id" "Error getting plan: " None (
    rows <- execute (OSelect "plans" "*" [FEq "id" (JStr plan_id)] None None) ;;
    ret (first_row rows)).

Definition get_user_plans {RT : Runtime} (user_id : string) (limit offset : Z) : M (list dict) :=
  accessor "Plan.get_user_plans" "Error getting user plans: " [] (
    execute (OSelect "plans" "*, event_categories(name, icon)"
               [FEq "user_id" (JStr user_id)] (Some ("event_date", true))
               (Some (offset, offset + limit - 1)))).

(** [updates['updated_at'] = ...] also mutates the caller's dict; no handler
    reads its argument again after the call, so the copy is not modelled. *)
Definition update {RT : Runtime} (plan_id : string) (updates : jval) : M (option dict) :=
  accessor "Plan.update" "Error updating plan: " None (
    t <- utcnow ;;
    match updates with
    | JObj u =>
        rows <- execute (OUpdate "plans" (JObj (dset u "updated_at" (JStr (isoformat t))))
                          [FEq "id" (JStr plan_id)]) ;;
        ret (first_row rows)
    | _ => raise TypeError
    end).

Definition delete {RT : Runtime} (plan_id : string) : M bool :=
  accessor "Plan.delete" "Error deleting plan: " false (
    rows <- execute (ODelete "plans" [FEq "id" (JStr plan_id)]) ;;
    ret (negb (Nat.eqb (length rows) 0))).

End Plan.

(** ** Entity accessors ([app/models/guest.py]) *)

(** [phones_by_guest]: phones grouped by [guest_id], keys in first-seen order. *)
Fixpoint group_add (m : list (jval * list dict)) (k : jval) (p : dict)
  : list (jval * list dict) :=
  match m with
  | [] => [(k, [p])]
  | (k', ps) :: m' => if jeqb k' k then (k', app ps [p]) :: m' else (k', ps) :: group_add m' k p
  end.

Fixpoint group_get (m : list (jval * list dict)) (k : jval) : list dict :=
  match m with
  | [] => []
  | (k', ps) :: m' => if jeqb k' k then ps else group_get m' k
  end.

Module Guest.

Definition RSVP_OPTIONS : list string := ["pending"; "confirmed"; "declined"; "maybe"].

Definition add_phone_numbers {RT : Runtime} (guest_id : jval) (phones : jval) : M (list dict) :=
  accessor "Guest.add_phone_numbers" "Error adding phone numbers: " [] (
    ps <- py_iter phones ;;
    phone_data <- mapM (fun phone =>
        n <- obj_get phone "number" ;;
        ty <- obj_get_def phone "type" (JStr "mobile") ;;
        pr <- obj_get_def phone "is_primary" (JBool false) ;;
        ret (JObj [("guest_id", guest_id); ("phone_number", n);
                   ("phone_type", ty); ("is_primary", pr)])) ps ;;
    execute (OInsert "guest_phones" (JList phone_data))).

Definition get_by_id {RT : Runtime} (guest_id : jval) : M (option dict) :=
  accessor "Guest.get_by_id" "Error getting guest: " None (
    rows <- execute (OSelect "guests" "*" [FEq "id" guest_id] None None) ;;
    match first_row rows with
    | Some g =>
        if row_truthy g then
          phones <- execute (OSelect "guest_phones" "*" [FEq "guest_id" guest_id] None None) ;;
          ret (Some (dset g "phone_numbers" (JList (map JObj phones))))
        else ret None
    | None => ret None
    end).

Definition create {RT : Runtime} (plan_id : string) (name : jval) (kwargs : dict)
  : M (option dict) :=
  accessor "Guest.create" "Error creating guest: " None (
    let guest_data := drop_none
      [("plan_id", JStr plan_id); ("name", name);
       ("email", kw kwargs "email" JNull);
       ("phone", kw kwargs "phone" JNull);
       ("rsvp_status", kw kwargs "rsvp_status" (JStr "pending"));
       ("additional_notes", kw kwargs "additional_notes" JNull)] in
    rows <- execute (OInsert "guests" (JObj guest_data)) ;;
    match first_row rows with
    | Some g =>
        if row_truthy g then
          let phones := kw kwargs "phone_numbers" (JList []) in
          (if truthy phones then
             gid <- subscript g "id" ;; add_phone_numbers gid phones ;;; ret tt
           else ret tt) ;;;
          gid <- subscript g "id" ;;
          get_by_id gid
        else ret None
    | None => ret None
    end).

Definition get_plan_guests {RT : Runtime} (plan_id : string) : M (list dict) :=
  accessor "Guest.get_plan_guests" "Error getting plan guests: " [] (
    guests <- execute (OSelect "guests" "*" [FEq "plan_id" (JStr plan_id)] None None) ;;
    guest_ids <- mapM (fun g => subscript g "id") guests ;;
    match guest_ids with
    | [] => ret guests
    | _ =>
        phones <- execute (OSelect "guest_phones" "*" [FIn "guest_id" guest_ids] None None) ;;
        by_guest <- foldM (fun m phone => gid <- subscript phone "guest_id" ;;
                                          ret (group_add m gid phone)) [] phones ;;
        mapM (fun g => gid <- subscript g "id" ;;
                       ret (dset g "phone_numbers" (JList (map JObj (group_get by_guest gid)))))
             guests
    end).

Definition update {RT : Runtime} (guest_id : jval) (updates : jval) : M (option dict) :=
  accessor "Guest.update" "Error updating guest: " None (
    rows <- execute (OUpdate "guests" updates [FEq "id" guest_id]) ;;
    match rows with
    | [] => ret None
    | _ => get_by_id guest_id
    end).

Definition update_rsvp {RT : Runtime} (guest_id : jval) (rsvp_status : jval) : M (option dict) :=
  entry "Guest.update_rsvp" (update guest_id (JObj [("rsvp_status", rsvp_status)])).

Definition mark_invitation_sent {RT : Runtime} (guest_id : jval) : M (option dict) :=
  entry "Guest.mark_invitation_sent" (
    t <- utcnow ;;
    update guest_id (JObj [("is_invitation_sent", JBool true);
                           ("invitation_sent_at", JStr (isoformat t))])).

Definition delete {RT : Runtime} (guest_id : jval) : M bool :=
  accessor "Guest.delete" "Error deleting guest: " false (
    rows <- execute (ODelete "guests" [FEq "id" guest_id]) ;;
    ret (negb (Nat.eqb (length rows) 0))).

Definition search_by_phone {RT : Runtime} (phone_number : jval) : M (list dict) :=
  accessor "Guest.search_by_phone" "Error searching by phone: " [] (
    prows <- execute (OSelect "guest_phones" "guest_id" [FEq "phone_number" phone_number] None None) ;;
    guest_ids <- mapM (fun p => subscript p "guest_id") prows ;;
    match guest_ids with
    | [] => ret []
    | _ =>
        guests <- execute (OSelect "guests" "*" [FIn "id" guest_ids] None None) ;;
        mapM (fun g => gid <- subscript g "id" ;;
                       ph <- execute (OSelect "guest_phones" "*" [FEq "guest_id" gid] None None) ;;
                       ret (dset g "phone_numbers" (JList (map JObj ph)))) guests
    end).

End Guest.

Module GuestRelationship.

Definition create_relationship {RT : Runtime} (plan_id primary_guest_id related_guest_id
  relationship_type notes : jval) : M (option dict) :=
  accessor "GuestRelationship.create_relationship" "Error creating relationship: " None (
    let data := drop_none
      [("plan_id", plan_id); ("primary_guest_id", primary_guest_id);
       ("related_guest_id", related_guest_id);
       ("relationship_type", relationship_type); ("notes", notes)] in
    rows <- execute (OInsert "guest_relationships" (JObj data)) ;;
    ret (first_row rows)).

Definition get_guest_relationships {RT : Runtime} (guest_id : jval) : M (list dict) :=
  accessor "GuestRelationship.get_guest_relationships" "Error getting relationships: " [] (
    primary <- execute (OSelect "guest_relationships"
                          "*, guests!guest_relationships_related_guest_id_fkey(*)"
                          [FEq "primary_guest_id" guest_id] None None) ;;
    related <- execute (OSelect "guest_relationships"
                          "*, guests!guest_relationships_primary_guest_id_fkey(*)"
                          [FEq "related_guest_id" guest_id] None None) ;;
    ret (app primary related)).

End GuestRelationship.

(** ** Entity accessors ([app/models/event_task.py], [app/models/category.py]) *)

Module EventTask.

Definition create_task {RT : Runtime} (plan_id : string) (title : jval) (kwargs : dict)
  : M (option dict) :=
  accessor "EventTask.create_task" "Error creating task: " None (
    let data := drop_none
      [("plan_id", JStr plan_id); ("title", title);
       ("description", kw kwargs "description" JNull);
       ("due_date", kw kwargs "due_date" JNull);
       ("priority", kw kwargs "priority" (JStr "medium"));
       ("assigned_to", kw kwargs "assigned_to" JNull)] in
    rows <- execute (OInsert "event_tasks" (JObj data)) ;;
    ret (first_row rows)).

End EventTask.

Module EventCategory.

Definition get_all {RT : Runtime} : M (list dict) :=
  accessor "EventCategory.get_all" "Error getting categories: " [] (
    execute (OSelect "event_categories" "*" [] (Some ("name", false)) None)).

Definition get_by_id {RT : Runtime} (category_id : jval) : M (option dict) :=
  accessor "EventCategory.get_by_id" "Error getting category: " None (
    rows <- execute (OSelect "event_categories" "*" [FEq "id" category_id] None None) ;;
    ret (first_row rows)).

End EventCategory.

(** ** Request handlers ([app/routes/plans.py]) *)

(** What the request carries for [request.json]: no JSON body (the
    Content-Type is not application/json, e.g. no body at all), a JSON body
    that is empty or does not parse, or a parsed JSON value ([JNull] for a
    literal [null]). *)
Inductive json_body : Type :=
| NoJson
| BadJson
| Json (v : jval).

(** A request: its headers, its body and the query arguments already
    converted with [type=int]. *)
Record request : Type := mkReq {
  headers : list (string * string);
  body : json_body;
  args : list (string * Z)
}.

(** [request.json] (Flask 3): 415 Unsupported Media Type without a JSON
    body, 400 Bad Request for one that does not parse; Flask turns either
    into the answer with that status. *)
Definition request_json (r : request) : M jval :=
  match body r with
  | NoJson => raise (HTTPException 415)
  | BadJson => raise (HTTPException 400)
  | Json v => ret v
  end.

Fixpoint hget {V} (l : list (string * V)) (k : string) : option V :=
  match l with
  | [] => None
  | (k', v) :: l' => if String.eqb k k' then Some v else hget l' k
  end.

(** [data[k]] on a JSON value *)
Definition obj_sub (v : jval) (k : string) : M jval :=
  match v with
  | JObj d => subscript d k
  | _ => raise TypeError
  end.

(** [x - y] on JSON numbers *)
Definition py_sub (x y : jval) : M jval :=
  let num v := match v with
               | JInt z => Some z
               | JBool b => Some (if b then 1 else 0)
               | _ => None end in
  match num x, num y with
  | Some a, Some b => ret (JInt (a - b))
  | _, _ => raise TypeError
  end.

(** [v in ['pending', 'confirmed', 'declined', 'maybe']] *)
Definition in_options (v : jval) (options : list string) : bool :=
  match v with JStr s => existsb (String.eqb s) options | _ => false end.

Section Handlers.
Context {RT : Runtime}.

Definition get_current_user (r : request) : M (option user) :=
  match hget (headers r) "Authorization" with
  | None => ret None
  | Some auth_header =>
      if String.eqb auth_header "" || negb (String.prefix "Bearer " auth_header) then ret None
      else match split_space auth_header with
           | _ :: token :: _ => try_except (auth_get_user token) (fun _ => ret None)
           | _ => raise IndexError
           end
  end.

Definition unauthorized : resp := (err "Unauthorized", StCode UNAUTHORISED_ACCESS).
Definition plan_not_found : resp := (err "Plan not found or unauthorized", StCode NOT_FOUND).

(** [user = get_current_user(); if not user: return ..., Codes.UNAUTHORISED_ACCESS] *)
Definition authenticated (r : request) (k : user -> M resp) : M resp :=
  u <- get_current_user r ;;
  match u with
  | None => ret unauthorized
  | Some user => k user
  end.

(** [plan = Plan.get_by_id(plan_id)
     if not plan or plan['user_id'] != user.id: return ..., Codes.NOT_FOUND] *)
Definition owned_plan (plan_id : string) (user : user) (k : dict -> M resp) : M resp :=
  p <- Plan.get_by_id plan_id ;;
  match p with
  | Some plan =>
      if row_truthy plan then
        owner <- subscript plan "user_id" ;;
        if is_str owner (uid user) then k plan else ret plan_not_found
      else ret plan_not_found
  | None => ret plan_not_found
  end.

Definition get_categories (r : request) : M resp :=
  categories <- EventCategory.get_all ;;
  ret (JObj [("categories", JList (map JObj categories))], StCode SUCCESS).

Definition create_plan (r : request) : M resp :=
  authenticated r (fun user =>
    data <- request_json r ;;
    if negb (truthy data) then ret (err "No data provided", StCode ERROR) else
    title <- obj_get data "title" ;;
    event_date_str <- obj_get data "event_date" ;;
    if negb (truthy title) || negb (truthy event_date_str) then
      ret (err "Title and event_date are required", StCode ERROR)
    else
    match (match event_date_str with
           | JStr s => rt_fromisoformat (replace_Z s)
           | _ => None end) with
    | None => ret (err "Invalid date format. Use ISO format", StCode ERROR)
    | Some event_date =>
        description <- obj_get data "description" ;;
        location <- obj_get data "location" ;;
        category_id <- obj_get data "category_id" ;;
        budget <- obj_get data "budget" ;;
        guest_count <- obj_get_def data "guest_count" (JInt 0) ;;
        status <- obj_get_def data "status" (JStr "planned") ;;
        is_public <- obj_get_def data "is_public" (JBool false) ;;
        plan <- Plan.create (uid user) title event_date
                  [("description", description); ("location", location);
                   ("category_id", category_id); ("budget", budget);
                   ("guest_count", guest_count); ("status", status);
                   ("is_public", is_public)] ;;
        match plan with
        | Some p =>
            if row_truthy p then
              ret (JObj [("message", JStr "Plan created successfully"); ("plan", JObj p)], StInt 201)
            else ret (err "Failed to create plan", StInt 500)
        | None => ret (err "Failed to create plan", StInt 500)
        end
    end).

Definition get_plans (r : request) : M resp :=
  authenticated r (fun user =>
    let limit := match hget (args r) "limit" with Some n => n | None => 50 end in
    let offset := match hget (args r) "offset" with Some n => n | None => 0 end in
    plans <- Plan.get_user_plans (uid user) limit offset ;;
    ret (JObj [("plans", JList (map JObj plans)); ("count", JInt (Z.of_nat (length plans)));
               ("limit", JInt limit); ("offset", JInt offset)], StCode SUCCESS)).

Definition get_plan (r : request) (plan_id : string) : M resp :=
  authenticated r (fun user =>
    p <- Plan.get_by_id plan_id ;;
    match p with
    | Some plan =>
        if row_truthy plan then
          owner <- subscript plan "user_id" ;;
          if is_str owner (uid user) then
            guests <- Guest.get_plan_guests plan_id ;;
            ret (JObj [("plan", JObj plan); ("guests", JList (map JObj guests));
                       ("guests_count", JInt (Z.of_nat (length guests)))], StCode SUCCESS)
          else ret (err "Unauthorized to view this plan", StInt 403)
        else ret (err "Plan not found", StCode NOT_FOUND)
    | None => ret (err "Plan not found", StCode NOT_FOUND)
    end).

Definition update_plan (r : request) (plan_id : string) : M resp :=
  authenticated r (fun user =>
    owned_plan plan_id user (fun plan =>
      data <- request_json r ;;
      if negb (truthy data) then ret (err "No update data provided", StCode ERROR) else
      updated <- Plan.update plan_id data ;;
      match updated with
      | Some u =>
          if row_truthy u then
            ret (JObj [("message", JStr "Plan updated successfully"); ("plan", JObj u)], StCode SUCCESS)
          else ret (err "Failed to update plan", StInt 500)
      | None => ret (err "Failed to update plan", StInt 500)
      end)).

Definition delete_plan (r : request) (plan_id : string) : M resp :=
  authenticated r (fun user =>
    owned_plan plan_id user (fun plan =>
      success <- Plan.delete plan_id ;;
      if negb success then ret (err "Failed to delete plan", StInt 500)
      else ret (JObj [("message", JStr "Plan deleted successfully")], StCode SUCCESS))).

(** [for phone in phone_numbers: if not phone.get('number'): return ...] *)
Fixpoint phone_missing_number (ps : list jval) : M bool :=
  match ps with
  | [] => ret false
  | phone :: ps' =>
      n <- obj_get phone "number" ;;
      if negb (truthy n) then ret true else phone_missing_number ps'
  end.

Definition add_guest (r : request) (plan_id : string) : M resp :=
  authenticated r (fun user =>
    owned_plan plan_id user (fun plan =>
      data <- request_json r ;;
      if negb (truthy data) then ret (err "No guest data provided", StCode ERROR) else
      name <- obj_get data "name" ;;
      if negb (truthy name) then ret (err "Guest name is required", StCode ERROR) else
      phone_numbers0 <- obj_get_def data "phone_numbers" (JList []) ;;
      phone <- obj_get data "phone" ;;
      let phone_numbers :=
        if truthy phone && negb (truthy phone_numbers0)
        then JList [JObj [("number", phone); ("type", JStr "mobile"); ("is_primary", JBool true)]]
        else phone_numbers0 in
      ps <- py_iter phone_numbers ;;
      missing <- phone_missing_number ps ;;
      if missing then ret (err "Phone number is required in phone_numbers", StCode ERROR) else
      email <- obj_get data "email" ;;
      phone' <- obj_get data "phone" ;;
      rsvp_status <- obj_get_def data "rsvp_status" (JStr "pending") ;;
      additional_notes <- obj_get data "additional_notes" ;;
      guest <- Guest.create plan_id name
                 [("email", email); ("phone", phone'); ("rsvp_status", rsvp_status);
                  ("additional_notes", additional_notes); ("phone_numbers", phone_numbers)] ;;
      match guest with
      | Some g =>
          if row_truthy g then
            gc <- subscript plan "guest_count" ;;
            gc' <- py_add gc (JInt 1) ;;
            Plan.update plan_id (JObj [("guest_count", gc')]) ;;;
            ret (JObj [("message", JStr "Guest added successfully"); ("guest", JObj g)], StInt 201)
          else ret (err "Failed to add guest", StInt 500)
      | None => ret (err "Failed to add guest", StInt 500)
      end)).

(** [status = guest.get('rsvp_status', 'pending')
     if status in rsvp_stats: rsvp_stats[status] += 1] *)
Definition rsvp_count (stats : dict) (guest : dict) : M dict :=
  match kw guest "rsvp_status" (JStr "pending") with
  | JStr s =>
      match dget stats s with
      | Some n => n' <- py_add n (JInt 1) ;; ret (dset stats s n')
      | None => ret stats
      end
  | JList _ | JObj _ => raise TypeError
  | _ => ret stats
  end.

Definition get_guests (r : request) (plan_id : string) : M resp :=
  authenticated r (fun user =>
    owned_plan plan_id user (fun plan =>
      guests <- Guest.get_plan_guests plan_id ;;
      rsvp_stats <- foldM rsvp_count
                      [("pending", JInt 0); ("confirmed", JInt 0);
                       ("declined", JInt 0); ("maybe", JInt 0)] guests ;;
      ret (JObj [("guests", JList (map JObj guests));
                 ("count", JInt (Z.of_nat (length guests)));
                 ("rsvp_stats", JObj rsvp_stats)], StCode SUCCESS))).

Definition get_guest (r : request) (plan_id guest_id : string) : M resp :=
  authenticated r (fun user =>
    owned_plan plan_id user (fun plan =>
      guest <- Guest.get_by_id (JStr guest_id) ;;
      match guest with
      | Some g =>
          if row_truthy g then
            gp <- subscript g "plan_id" ;;
            if negb (is_str gp plan_id) then
              ret (err "Guest does not belong to this plan", StCode ERROR)
            else ret (JObj [("guest", JObj g)], StCode SUCCESS)
          else ret (err "Guest not found", StCode NOT_FOUND)
      | None => ret (err "Guest not found", StCode NOT_FOUND)
      end)).

Definition update_guest (r : request) (plan_id guest_id : string) : M resp :=
  authenticated r (fun user =>
    owned_plan plan_id user (fun plan =>
      data <- request_json r ;;
      if negb (truthy data) then ret (err "No update data provided", StCode ERROR) else
      guest <- Guest.update (JStr guest_id) data ;;
      match guest with
      | Some g =>
          if row_truthy g then
            ret (JObj [("message", JStr "Guest updated successfully"); ("guest", JObj g)], StCode SUCCESS)
          else ret (err "Failed to update guest", StInt 500)
      | None => ret (err "Failed to update guest", StInt 500)
      end)).

Definition delete_guest (r : request) (plan_id guest_id : string) : M resp :=
  authenticated r (fun user =>
    owned_plan plan_id user (fun plan =>
      success <- Guest.delete (JStr guest_id) ;;
      if negb success then ret (err "Failed to delete guest", StInt 500) else
      gc <- subscript plan "guest_count" ;;
      gc' <- py_sub gc (JInt 1) ;;
      let floored := match gc' with JInt z => JInt (Z.max 0 z) | v => v end in
      Plan.update plan_id (JObj [("guest_count", floored)]) ;;;
      ret (JObj [("message", JStr "Guest deleted successfully")], StCode SUCCESS))).

Definition update_guest_rsvp (r : request) (plan_id guest_id : string) : M resp :=
  authenticated r (fun user =>
    owned_plan plan_id user (fun plan =>
      data <- request_json r ;;
      rsvp_status <- obj_get data "rsvp_status" ;;
      if negb (truthy rsvp_status)
         || negb (in_options rsvp_status ["pending"; "confirmed"; "declined"; "maybe"]) then
        ret (err "Valid RSVP status required", StCode ERROR)
      else
      guest <- Guest.update_rsvp (JStr guest_id) rsvp_status ;;
      match guest with
      | Some g =>
          if row_truthy g then
            ret (JObj [("message", JStr ("RSVP updated to " ++ py_str rsvp_status));
                       ("guest", JObj g)], StCode SUCCESS)
          else ret (err "Failed to update RSVP", StInt 500)
      | None => ret (err "Failed to update RSVP", StInt 500)
      end)).

Definition send_invitation (r : request) (plan_id guest_id : string) : M resp :=
  authenticated r (fun user =>
    owned_plan plan_id user (fun plan =>
      guest <- Guest.mark_invitation_sent (JStr guest_id) ;;
      match guest with
      | Some g =>
          if row_truthy g then
            ret (JObj [("message", JStr "Invitation marked as sent"); ("guest", JObj g)], StCode SUCCESS)
          else ret (err "Failed to mark invitation", StInt 500)
      | None => ret (err "Failed to mark invitation", StInt 500)
      end)).

Definition add_guest_phone (r : request) (plan_id guest_id : string) : M resp :=
  authenticated r (fun user =>
    owned_plan plan_id user (fun plan =>
      data <- request_json r ;;
      bad <- (if negb (truthy data) then ret true
              else pn <- obj_get data "phone_number" ;; ret (negb (truthy pn))) ;;
      if bad then ret (err "Phone number is required", StCode ERROR) else
      number <- obj_sub data "phone_number" ;;
      phone_type <- obj_get_def data "phone_type" (JStr "mobile") ;;
      is_primary <- obj_get_def data "is_primary" (JBool false) ;;
      phones <- Guest.add_phone_numbers (JStr guest_id)
                  (JList [JObj [("number", number); ("type", phone_type);
                                ("is_primary", is_primary)]]) ;;
      match phones with
      | [] => ret (err "Failed to add phone number", StInt 500)
      | p :: _ =>
          ret (JObj [("message", JStr "Phone number added successfully"); ("phone", JObj p)], StInt 201)
      end)).

Definition create_task (r : request) (plan_id : string) : M resp :=
  authenticated r (fun user =>
    owned_plan plan_id user (fun plan =>
      data <- request_json r ;;
      if negb (truthy data) then ret (err "No task data provided", StCode ERROR) else
      title <- obj_get data "title" ;;
      if negb (truthy title) then ret (err "Task title is required", StCode ERROR) else
      due <- obj_get data "due_date" ;;
      (* try: datetime.fromisoformat(data['due_date'].replace(...)) except: 400 *)
      let due_date := if truthy due then
                        match due with
                        | JStr s => match rt_fromisoformat (replace_Z s) with
                                    | Some t => inr (Some t) | None => inl tt end
                        | _ => inl tt
                        end
                      else inr None in
      match due_date with
      | inl _ => ret (err "Invalid due_date format", StCode ERROR)
      | inr due_date =>
          description <- obj_get data "description" ;;
          priority <- obj_get_def data "priority" (JStr "medium") ;;
          assigned_to <- obj_get data "assigned_to" ;;
          task <- EventTask.create_task plan_id title
                    [("description", description);
                     ("due_date", match due_date with Some t => JStr (isoformat t) | None => JNull end);
                     ("priority", priority); ("assigned_to", assigned_to)] ;;
          match task with
          | Some t =>
              if row_truthy t then
                ret (JObj [("message", JStr "Task created successfully"); ("task", JObj t)], StInt 201)
              else ret (err "Failed to create task", StInt 500)
          | None => ret (err "Failed to create task", StInt 500)
          end
      end)).

(** [len([p for p in plans if p['status'] == s])] *)
Fixpoint count_status (plans : list dict) (s : string) : M Z :=
  match plans with
  | [] => ret 0
  | p :: ps =>
      st <- subscript p "status" ;;
      n <- count_status ps s ;;
      ret (if is_str st s then n + 1 else n)
  end.

(** [sum(p.get('guest_count', 0) for p in plans)] *)
Definition sum_guests (plans : list dict) : M jval :=
  foldM (fun acc p => py_add acc (kw p "guest_count" (JInt 0))) (JInt 0) plans.

(** [category = plan.get('category_id')
     if category: by_category[str(category)] = by_category.get(str(category), 0) + 1] *)
Definition count_category (by_category : dict) (plan : dict) : M dict :=
  let category := kw plan "category_id" JNull in
  if truthy category then
    n <- py_add (kw by_category (py_str category) (JInt 0)) (JInt 1) ;;
    ret (dset by_category (py_str category) n)
  else ret by_category.

Definition get_stats (r : request) : M resp :=
  authenticated r (fun user =>
    plans <- Plan.get_user_plans (uid user) 1000 0 ;;
    upcoming <- count_status plans "planned" ;;
    completed <- count_status plans "completed" ;;
    total_guests <- sum_guests plans ;;
    by_category <- foldM count_category [] plans ;;
    ret (JObj [("stats", JObj [("total_plans", JInt (Z.of_nat (length plans)));
                               ("upcoming_plans", JInt upcoming);
                               ("completed_plans", JInt completed);
                               ("total_guests", total_guests);
                               ("by_category", JObj by_category)])], StCode SUCCESS)).

End Handlers.

(** ** The routes of the blueprint *)

Inductive endpoint : Type :=
| EGetCategories                                   (* GET    /categories *)
| ECreatePlan                                      (* POST   / *)
| EGetPlans                                        (* GET    / *)
| EGetPlan (plan_id : string)                      (* GET    /<plan_id> *)
| EUpdatePlan (plan_id : string)                   (* PUT    /<plan_id> *)
| EDeletePlan (plan_id : string)                   (* DELETE /<plan_id> *)
| EAddGuest (plan_id : string)                     (* POST   /<plan_id>/guests *)
| EGetGuests (plan_id : string)                    (* GET    /<plan_id>/guests *)
| EGetGuest (plan_id guest_id : string)            (* GET    /<plan_id>/guests/<guest_id> *)
| EUpdateGuest (plan_id guest_id : string)         (* PUT    /<plan_id>/guests/<guest_id> *)
| EDeleteGuest (plan_id guest_id : string)         (* DELETE /<plan_id>/guests/<guest_id> *)
| EUpdateRsvp (plan_id guest_id : string)          (* PUT    .../<guest_id>/rsvp *)
| ESendInvitation (plan_id guest_id : string)      (* POST   .../<guest_id>/invite *)
| EAddGuestPhone (plan_id guest_id : string)       (* POST   .../<guest_id>/phones *)
| ECreateTask (plan_id : string)                   (* POST   /<plan_id>/tasks *)
| EGetStats.                                       (* GET    /stats *)

Definition dispatch {RT : Runtime} (e : endpoint) (r : request) : M resp :=
  match e with
  | EGetCategories => get_categories r
  | ECreatePlan => create_plan r
  | EGetPlans => get_plans r
  | EGetPlan p => get_plan r p
  | EUpdatePlan p => update_plan r p
  | EDeletePlan p => delete_plan r p
  | EAddGuest p => add_guest r p
  | EGetGuests p => get_guests r p
  | EGetGuest p g => get_guest r p g
  | EUpdateGuest p g => update_guest r p g
  | EDeleteGuest p g => delete_guest r p g
  | EUpdateRsvp p g => update_guest_rsvp r p g
  | ESendInvitation p g => send_invitation r p g
  | EAddGuestPhone p g => add_guest_phone r p g
  | ECreateTask p => create_task r p
  | EGetStats => get_stats r
  end.

(** The endpoints guarded by [get_current_user] (all but [/categories]). *)
Definition owner_scoped (e : endpoint) : bool :=
  match e with EGetCategories => false | _ => true end.

(** The plan-scoped endpoints and the plan they name. *)
Definition plan_of (e : endpoint) : option string :=
  match e with
  | EGetPlan p | EUpdatePlan p | EDeletePlan p | EAddGuest p | EGetGuests p
  | EGetGuest p _ | EUpdateGuest p _ | EDeleteGuest p _ | EUpdateRsvp p _
  | ESendInvitation p _ | EAddGuestPhone p _ | ECreateTask p => Some p
  | _ => None
  end.

(** ** A concrete runtime and store, for the witnesses and counterexamples *)

Definition toy_get_user (token : string) : res (option user) :=
  if String.eqb token "tok-alice" then Ok (Some (mkUser "alice"))
  else if String.eqb token "tok-bob" then Ok (Some (mkUser "bob"))
  else Ok None.

(** Accepts exactly one ISO-8601 instant; enough for the fixtures. *)
Definition toy_fromisoformat (s : string) : option Z :=
  if String.eqb s "2026-06-01T10:00:00+00:00" then Some 1780308000 else None.

Definition rt0 : Runtime := mem_runtime toy_get_user toy_fromisoformat.

Definition alice_plan : dict :=
  [("id", JStr "p1"); ("user_id", JStr "alice"); ("title", JStr "Wedding");
   ("guest_count", JInt 0); ("status", JStr "planned"); ("category_id", JInt 2)].

Definition bob_plan : dict :=
  [("id", JStr "p2"); ("user_id", JStr "bob"); ("title", JStr "Party");
   ("guest_count", JInt 1); ("status", JStr "completed")].

Definition bob_guest : dict :=
  [("id", JStr "g9"); ("plan_id", JStr "p2"); ("name", JStr "Zed");
   ("rsvp_status", JStr "pending")].

Definition db0 : DB :=
  mkDB [("plans", [alice_plan; bob_plan]); ("guests", [bob_guest]); ("guest_phones", [])] 100.

Definition st0 : St := mkSt db0 5 [].

(** A request with a bearer token and a JSON body. *)
Definition bearer (token : string) (v : jval) : request :=
  mkReq [("Authorization", "Bearer " ++ token)] (Json v) [].

(** A request with a bearer token and no body, as a GET or DELETE sends it. *)
Definition bearer_get (token : string) : request :=
  mkReq [("Authorization", "Bearer " ++ token)] NoJson [].

Definition alice_edit_req : request := bearer "tok-alice" (JObj [("name", JStr "Zoe")]).

Definition alice_guest : dict :=
  [("id", JStr "g1"); ("plan_id", JStr "p1"); ("name", JStr "Ann");
   ("rsvp_status", JStr "pending")].

Definition st1 : St :=
  mkSt (mkDB [("plans", [alice_plan; bob_plan]); ("guests", [alice_guest; bob_guest]);
              ("guest_phones", [])] 100) 5 [].



Definition stored_field (s : St) (tbl id k : string) : option jval :=
  match filter (row_matches [FEq "id" (JStr id)]) (table (tables (st_db s)) tbl) with
  | g :: _ => dget g k
  | [] => None
  end.

(** ** Failure behaviour of the accessors *)

Definition down_runtime : Runtime :=
  {| rt_exec := fun _ d => (Raise (GatewayError "connection refused"), d);
     rt_get_user := toy_get_user; rt_fromisoformat := toy_fromisoformat;
     rt_print := rich_print |}.

(** A gateway interrupted by the user (Ctrl-C while a query waits on the
    network): every query raises KeyboardInterrupt, a BaseException. *)
Definition interrupt_runtime : Runtime :=
  {| rt_exec := fun _ d => (Raise (BaseExc "KeyboardInterrupt"), d);
     rt_get_user := toy_get_user; rt_fromisoformat := toy_fromisoformat;
     rt_print := rich_print |}.

(** PostgreSQL's uuid syntax: 32 hexadecimal digits in groups of 8-4-4-4-12. *)
Definition is_hex (c : ascii) : bool :=
  let n := nat_of_ascii c in
  (Nat.leb 48 n && Nat.leb n 57) || (Nat.leb 97 n && Nat.leb n 102)
  || (Nat.leb 65 n && Nat.leb n 70).

Fixpoint uuid_aux (i : nat) (l : list ascii) : bool :=
  match l with
  | [] => Nat.eqb i 36
  | c :: l' =>
      (if Nat.eqb i 8 || Nat.eqb i 13 || Nat.eqb i 18 || Nat.eqb i 23
       then Ascii.eqb c "-"%char else is_hex c) && uuid_aux (S i) l'
  end.

Definition is_uuid (v : string) : bool := uuid_aux 0 (list_ascii_of_string v).

Definition op_filters (o : op) : list qfilter :=
  match o with
  | OSelect _ _ fs _ _ | OUpdate _ _ fs | ODelete _ fs => fs
  | OInsert _ _ => []
  end.

(** The first [.eq("id", v)] filter whose value is not a uuid. *)
Definition bad_uuid (o : op) : option string :=
  fold_right (fun f acc => match f with
                           | FEq "id" (JStr v) => if is_uuid v then acc else Some v
                           | _ => acc
                           end) None (op_filters o).

(** The store of the deployed service: Supabase's tables are PostgreSQL
    tables whose [id] columns have type uuid, so PostgREST rejects a filter
    on [id] with a value that is not a uuid, and the client raises its
    APIError, whose text quotes the value. Every other query runs as in
    [mem_exec]. *)
Definition pg_runtime : Runtime :=
  {| rt_exec := fun o d =>
       match bad_uuid o with
       | Some v => (Raise (GatewayError ("invalid input syntax for type uuid: " ++ v)), d)
       | None => mem_exec o d
       end;
     rt_get_user := toy_get_user; rt_fromisoformat := toy_fromisoformat;
     rt_print := rich_print |}.

(** ** The figures of the stats endpoint, as the specification words them *)








(** A store for the stats endpoint: three plans of alice's, with two
    statuses, two categories and guest counts 3, 2 and [True], and one of bob's. *)
Definition stats_plan (id date status : string) (owner : string) (gc cat : jval) : dict :=
  [("id", JStr id); ("user_id", JStr owner); ("title", JStr id); ("event_date", JStr date);
   ("status", JStr status); ("guest_count", gc); ("category_id", cat)].

Definition st_stats : St :=
  mkSt (mkDB [("plans", [stats_plan "s1" "2026-07-01" "planned" "alice" (JInt 3) (JInt 1);
                         stats_plan "s2" "2026-08-01" "completed" "alice" (JInt 2) (JInt 2);
                         stats_plan "s3" "2026-09-01" "planned" "alice" (JBool true) (JInt 1);
                         stats_plan "s4" "2026-10-01" "planned" "bob" (JInt 10) (JInt 2)]);
              ("event_categories", [[("id", JInt 1); ("name", JStr "Wedding"); ("icon", JStr "ring")];
                                    [("id", JInt 2); ("name", JStr "Party"); ("icon", JStr "cake")]])]
             100) 5 [].


(** Alice's plan p1 with six guests: one per allowed RSVP status, one
    with no status and one with a status outside the four; g2 has two
    phones. Bob's guest g9 of plan p2 has one. *)
Definition guest_row (id plan : string) (rsvp : option string) : dict :=
  app [("id", JStr id); ("plan_id", JStr plan); ("name", JStr id)]
      match rsvp with Some v => [("rsvp_status", JStr v)] | None => [] end.

Definition phone_row (id gid num : string) : dict :=
  [("id", JStr id); ("guest_id", JStr gid); ("phone_number", JStr num); ("phone_type", JStr "mobile")].

Definition st_guests : St :=
  mkSt (mkDB [("plans", [alice_plan; bob_plan]);
              ("guests", [guest_row "g1" "p1" (Some "pending"); guest_row "g2" "p1" (Some "confirmed");
                          guest_row "g9" "p2" (Some "maybe");
                          guest_row "g3" "p1" (Some "declined"); guest_row "g4" "p1" None;
                          guest_row "g5" "p1" (Some "maybe"); guest_row "g6" "p1" (Some "tentative")]);
              ("guest_phones", [phone_row "h1" "g2" "555-0101"; phone_row "h2" "g9" "555-0109";
                                phone_row "h3" "g2" "555-0102"])] 100) 5 [].

(** Alice adds guest "Bo" to a plan. *)
Definition add_bo_req : request := bearer "tok-alice" (JObj [("name", JStr "Bo")]).

(** Alice sets a plan's guest_count to -1. *)
Definition negative_count_req : request :=
  bearer "tok-alice" (JObj [("guest_count", JInt (-1))]).

(** A body whose rsvp_status is missing or is not one of the four allowed
    values (the spec's wording). *)
Definition rsvp_outside (d : dict) : Prop :=
  match dget d "rsvp_status" with
  | Some (JStr o) => ~ In o Guest.RSVP_OPTIONS
  | _ => True
  end.


(** The token [get_current_user] passes on: [auth_header.split(' ')[1]]. *)
Definition bearer_token (h : string) : string := nth 1 (split_space h) "".

(** A query argument converted with [type=int], or its default. *)
Definition arg_or (r : request) (k : string) (default : Z) : Z :=
  match hget (args r) k with Some n => n | None => default end.

(** The phones of the [guest_phones] table that carry a given [guest_id]. *)
Definition phones_of (ts : list (string * list dict)) (gid : jval) : list dict :=
  filter (row_matches [FEq "guest_id" gid]) (table ts "guest_phones").

(** The guests of a plan as stored, in table order. *)
Definition guests_of (ts : list (string * list dict)) (plan_id : string) : list dict :=
  filter (row_matches [FEq "plan_id" (JStr plan_id)]) (table ts "guests").

(** The phone rows of a guest, and a guest with them attached. *)
Definition with_phones (ts : list (string * list dict)) (g : dict) : dict :=
  dset g "phone_numbers" (JList (map JObj (phones_of ts (kw g "id" JNull)))).

(** How many guests have RSVP status [k] ([pending] when the key is absent). *)
Fixpoint rsvp_tally (guests : list dict) (k : string) : Z :=
  match guests with
  | [] => 0
  | g :: gs => (if is_str (kw g "rsvp_status" (JStr "pending")) k then 1 else 0)
               + rsvp_tally gs k
  end.

(** Rows in the order [.order(c, desc=...)] asks for, pair by pair: no row is
    followed by one that should have come before it. *)
Definition cmp_ok (desc : bool) (a b : option jval) : bool :=
  match jcmp a b, desc with
  | Lt, true | Gt, false => false
  | _, _ => true
  end.

(** Row [x] may come before row [y] in a listing ordered on the text column
    [c] (descending when [desc]): both hold a string there, and [x]'s is not
    smaller (not larger, ascending) than [y]'s. *)
Definition str_key_le (desc : bool) (c : string) (x y : dict) : Prop :=
  match dget x c, dget y c with
  | Some (JStr a), Some (JStr b) =>
      if desc then String.compare a b <> Lt else String.compare a b <> Gt
  | _, _ => False
  end.

Fixpoint ordered_by (c : string) (desc : bool) (rows : list dict) : bool :=
  match rows with
  | x :: ((y :: _) as t) => cmp_ok desc (dget x c) (dget y c) && ordered_by c desc t
  | _ => true
  end.

(** An RSVP status the tally can compare: not a list or an object. *)
Definition rsvp_scalar (g : dict) : bool :=
  match kw g "rsvp_status" (JStr "pending") with
  | JList _ | JObj _ => false
  | _ => true
  end.

(** Fixtures for the properties below. *)
Definition alice_get : request := bearer_get "tok-alice".

Definition st_phone : St :=
  mkSt (mkDB [("plans", [alice_plan]); ("guests", [alice_guest; bob_guest]);
              ("guest_phones", [[("id", JStr "ph1"); ("guest_id", JStr "g1");
                                 ("phone_number", JStr "555")]])] 100) 5 [].

(** * Properties *)

(** ** Basic facts about the monad and the store *)

Lemma dget_dset_eq : forall d k v, dget (dset d k v) k = Some v.
Proof.
  induction d as [|[k' v'] d IH]; intros k v; simpl.
  - rewrite String.eqb_refl; reflexivity.
  - destruct (String.eqb k k') eqn:E; simpl.
    + rewrite E; reflexivity.
    + rewrite E; apply IH.
Qed.

Lemma dget_dset_neq : forall d k k' v,
  String.eqb k' k = false -> dget (dset d k v) k' = dget d k'.
Proof.
  induction d as [|[k0 v0] d IH]; intros k k' v Hne; simpl.
  - rewrite Hne; reflexivity.
  - destruct (String.eqb k k0) eqn:E; simpl.
    + apply String.eqb_eq in E; subst k0. rewrite Hne; reflexivity.
    + destruct (String.eqb k' k0); [reflexivity | apply IH; exact Hne].
Qed.

Lemma table_set_table_eq : forall ts name rows, table (set_table ts name rows) name = rows.
Proof.
  induction ts as [|[n r] ts IH]; intros name rows; simpl.
  - rewrite String.eqb_refl; reflexivity.
  - destruct (String.eqb n name) eqn:E; simpl; rewrite E; [reflexivity | apply IH].
Qed.

Lemma table_set_table_neq : forall ts name name' rows,
  String.eqb name name' = false -> table (set_table ts name rows) name' = table ts name'.
Proof.
  induction ts as [|[n r] ts IH]; intros name name' rows Hne; simpl.
  - rewrite Hne; reflexivity.
  - destruct (String.eqb n name) eqn:E; simpl.
    + apply String.eqb_eq in E; subst n. rewrite Hne; reflexivity.
    + destruct (String.eqb n name'); [reflexivity | apply IH; exact Hne].
Qed.

(** ** C5: no bearer token, no identity and no accessor *)

Lemma get_current_user_no_bearer {RT : Runtime} : forall r s,
  (forall h, hget (headers r) "Authorization" = Some h -> String.prefix "Bearer " h = false) ->
  get_current_user r s = (Ok None, s).
Proof.
  intros r s Hh. unfold get_current_user.
  destruct (hget (headers r) "Authorization") as [h|] eqn:E; [|reflexivity].
  rewrite (Hh h eq_refl), orb_true_r. reflexivity.
Qed.

(** C5: for every owner-scoped endpoint and every request whose
    [Authorization] header is absent or does not start with ["Bearer "], the
    guard returns [None] with the state untouched (so the auth capability is
    not called: no [EvAuth] is traced), and the handler returns
    [Codes.UNAUTHORISED_ACCESS] (value 401), again with the state untouched:
    no accessor is entered and no query is executed. *)
Theorem no_bearer_unauthorized {RT : Runtime} : forall e r s,
  owner_scoped e = true ->
  (forall h, hget (headers r) "Authorization" = Some h -> String.prefix "Bearer " h = false) ->
  get_current_user r s = (Ok None, s) /\
  dispatch e r s = (Ok (err "Unauthorized", StCode UNAUTHORISED_ACCESS), s) /\
  Codes_value UNAUTHORISED_ACCESS = 401.
Proof.
  intros e r s He Hh.
  pose proof (get_current_user_no_bearer r s Hh) as Hg.
  split; [exact Hg|]. split; [|reflexivity].
  destruct e; try discriminate He; simpl;
    unfold create_plan, get_plans, get_plan, update_plan, delete_plan, add_guest,
      get_guests, get_guest, update_guest, delete_guest, update_guest_rsvp,
      send_invitation, add_guest_phone, create_task, get_stats, authenticated, bind;
    rewrite Hg; reflexivity.
Qed.

Lemma no_bearer_unauthorized_witness :
  (owner_scoped ECreatePlan = true /\
   (forall h, hget (headers (mkReq [("Authorization", "Token abc")] NoJson [])) "Authorization"
              = Some h -> String.prefix "Bearer " h = false)) /\
  dispatch (RT := rt0) ECreatePlan (mkReq [("Authorization", "Token abc")] NoJson []) st0
  = (Ok (err "Unauthorized", StCode UNAUTHORISED_ACCESS), st0).
Proof.
  assert (H1 : owner_scoped ECreatePlan = true) by reflexivity.
  assert (H2 : forall h, hget (headers (mkReq [("Authorization", "Token abc")] NoJson []))
                           "Authorization" = Some h -> String.prefix "Bearer " h = false).
  { intros h Hh. simpl in Hh. injection Hh as <-. reflexivity. }
  split; [split; assumption|].
  exact (proj1 (proj2 (no_bearer_unauthorized (RT := rt0) ECreatePlan _ st0 H1 H2))).
Defined.

(** ** C1: existence leakage on [GET /<plan_id>] *)

(** The sibling routes merge the two cases into one [if]: for Bob, Alice's
    plan [p1] and the missing plan [p3] give the same response. *)
Example update_plan_same_response :
  fst (update_plan (RT := rt0) (bearer "tok-bob" (JObj [("title", JStr "x")])) "p1" st0)
  = Ok plan_not_found /\
  fst (update_plan (RT := rt0) (bearer "tok-bob" (JObj [("title", JStr "x")])) "p3" st0)
  = Ok plan_not_found.
Proof. split; reflexivity. Qed.

(** C1 (code_bug): [get_plan] checks existence and ownership separately.
    For Bob, Alice's existing plan [p1] answers 403 "Unauthorized to view
    this plan", while the id [p3], which matches no record, answers
    [Codes.NOT_FOUND] "Plan not found": the two responses differ. *)
Theorem get_plan_reveals_existence :
  fst (get_plan (RT := rt0) (bearer_get "tok-bob") "p1" st0)
  = Ok (err "Unauthorized to view this plan", StInt 403) /\
  fst (get_plan (RT := rt0) (bearer_get "tok-bob") "p3" st0)
  = Ok (err "Plan not found", StCode NOT_FOUND) /\
  fst (get_plan (RT := rt0) (bearer_get "tok-bob") "p1" st0)
  <> fst (get_plan (RT := rt0) (bearer_get "tok-bob") "p3" st0).
Proof.
  split; [reflexivity|]. split; [reflexivity|].
  vm_compute. discriminate.
Qed.

(** ** Frame reasoning: what a computation does to the store *)

Section Frame.
Variable R : DB -> DB -> Prop.
Hypothesis R_refl : forall d, R d d.
Hypothesis R_trans : forall a b c, R a b -> R b c -> R a c.

(** [m] relates the store before and after it, whatever the state. *)
Definition preserves {A} (m : M A) : Prop := forall s, R (st_db s) (st_db (snd (m s))).

Lemma preserves_ret {A} (a : A) : preserves (ret a).
Proof. intro s; apply R_refl. Qed.

Lemma preserves_raise {A} (e : exn) : preserves (A := A) (raise e).
Proof. intro s; apply R_refl. Qed.

Lemma preserves_record ev : preserves (record ev).
Proof. intro s; apply R_refl. Qed.

Lemma preserves_utcnow : preserves utcnow.
Proof. intro s; apply R_refl. Qed.

Lemma preserves_print {RT : Runtime} text : preserves (print text).
Proof. intro s; apply R_refl. Qed.

Lemma preserves_bind {A B} (m : M A) (k : A -> M B) :
  preserves m -> (forall a, preserves (k a)) -> preserves (bind m k).
Proof.
  intros Hm Hk s. unfold bind. specialize (Hm s).
  destruct (m s) as [[a|e] s'] eqn:E; simpl in *.
  - eapply R_trans; [exact Hm | apply Hk].
  - exact Hm.
Qed.

Lemma preserves_try {A} (m : M A) (h : exn -> M A) :
  preserves m -> (forall e, preserves (h e)) -> preserves (try_except m h).
Proof.
  intros Hm Hh s. unfold try_except. specialize (Hm s).
  destruct (m s) as [[a|e] s'] eqn:E; simpl in *.
  - exact Hm.
  - eapply R_trans; [exact Hm | apply Hh].
Qed.

Lemma preserves_mapM {A B} (f : A -> M B) (l : list A) :
  (forall a, preserves (f a)) -> preserves (mapM f l).
Proof.
  intros Hf. induction l as [|x l IH]; simpl.
  - apply preserves_ret.
  - apply preserves_bind; [apply Hf|]. intro y.
    apply preserves_bind; [exact IH|]. intro ys. apply preserves_ret.
Qed.

Lemma preserves_foldM {A B} (f : B -> A -> M B) (l : list A) :
  (forall b a, preserves (f b a)) -> forall acc, preserves (foldM f acc l).
Proof.
  intros Hf. induction l as [|x l IH]; intro acc; simpl.
  - apply preserves_ret.
  - apply preserves_bind; [apply Hf|]. intro acc'. apply IH.
Qed.

(** After [bind m k], the store relates to the store [m] left behind. *)
Lemma bind_tail {A B} (m : M A) (k : A -> M B) s :
  (forall a, preserves (k a)) -> R (st_db (snd (m s))) (st_db (snd (bind m k s))).
Proof.
  intros Hk. unfold bind.
  destruct (m s) as [[a|e] s'] eqn:E; simpl; [apply Hk | apply R_refl].
Qed.

Lemma try_tail {A} (m : M A) (h : exn -> M A) s :
  (forall e, preserves (h e)) -> R (st_db (snd (m s))) (st_db (snd (try_except m h s))).
Proof.
  intros Hh. unfold try_except.
  destruct (m s) as [[a|e] s'] eqn:E; simpl; [apply R_refl | apply Hh].
Qed.

End Frame.

Lemma preserves_eq_any {A} (R : DB -> DB -> Prop) (m : M A) :
  (forall d, R d d) -> preserves eq m -> preserves R m.
Proof. intros Hr Hm s. rewrite <- (Hm s). apply Hr. Qed.

(** Two stores agree on one table. *)
Definition same_table (t : string) (d d' : DB) : Prop :=
  table (tables d) t = table (tables d') t.

Lemma execute_db {RT : Runtime} o s : st_db (snd (execute o s)) = snd (rt_exec o (st_db s)).
Proof. unfold execute. destruct (rt_exec o (st_db s)); reflexivity. Qed.

Lemma execute_res {RT : Runtime} o s : fst (execute o s) = fst (rt_exec o (st_db s)).
Proof. unfold execute. destruct (rt_exec o (st_db s)); reflexivity. Qed.

Lemma preserves_select au iso tbl cols fs ord rng :
  preserves eq (execute (RT := mem_runtime au iso) (OSelect tbl cols fs ord rng)).
Proof. intro s. rewrite execute_db. reflexivity. Qed.

(** A query leaves table [t] as it was unless it writes [t] or, for a
    delete, cascades to [t]. *)
Definition op_table (o : op) : string :=
  match o with
  | OSelect tbl _ _ _ _ | OInsert tbl _ | OUpdate tbl _ _ | ODelete tbl _ => tbl
  end.

Definition op_touches (o : op) (t : string) : bool :=
  match o with
  | OSelect _ _ _ _ _ => false
  | ODelete tbl _ => String.eqb tbl t || existsb (String.eqb t) (cascade_tables 3 tbl)
  | _ => String.eqb (op_table o) t
  end.

Lemma cascade_fold_other f tbl gone t (L : list (string * string * string)) ts :
  (forall ts' child gone', ~ In t (cascade_tables f child) ->
     table (cascade f child gone' ts') t = table ts' t) ->
  ~ In t (flat_map (fun (fk : string * string * string) =>
                      let '(child, _, parent) := fk in
                      if String.eqb parent tbl then child :: cascade_tables f child else []) L) ->
  table (fold_left (fun ts' (fk : string * string * string) =>
           let '(child, col, parent) := fk in
           if String.eqb parent tbl then
             match filter (refers col gone) (table ts' child) with
             | [] => ts'
             | hit => cascade f child hit
                        (set_table ts' child (filter (fun x => negb (refers col gone x)) (table ts' child)))
             end
           else ts') L ts) t = table ts t.
Proof.
  intros IH. revert ts. induction L as [|[[child col] parent] L IHL]; intros ts Hn; [reflexivity|].
  simpl in Hn. rewrite in_app_iff in Hn. simpl.
  rewrite IHL by tauto.
  destruct (String.eqb parent tbl); [|reflexivity].
  simpl in Hn. destruct (filter (refers col gone) (table ts child)); [reflexivity|].
  rewrite IH by tauto. apply table_set_table_neq.
  apply String.eqb_neq. intros ->. tauto.
Qed.

Lemma cascade_other f tbl gone ts t :
  ~ In t (cascade_tables f tbl) -> table (cascade f tbl gone ts) t = table ts t.
Proof.
  revert tbl gone ts. induction f as [|f IH]; intros tbl gone ts Hn; [reflexivity|].
  cbn [cascade]. cbn [cascade_tables] in Hn. apply cascade_fold_other; [|exact Hn].
  intros. apply IH. assumption.
Qed.

Lemma preserves_other_table au iso t o :
  op_touches o t = false ->
  preserves (same_table t) (execute (RT := mem_runtime au iso) o).
Proof.
  intros Hne s. unfold same_table. rewrite execute_db.
  destruct (st_db s) as [ts n]. destruct o; cbn [op_touches op_table] in Hne;
    cbn [snd rt_exec mem_runtime mem_exec tables next_id].
  - reflexivity.
  - destruct (rows_of_payload payload); [|reflexivity].
    destruct (assign_ids n l). simpl. rewrite table_set_table_neq; auto.
  - destruct payload; simpl; try reflexivity. rewrite table_set_table_neq; auto.
  - apply orb_false_iff in Hne as [Hne Hc]. cbn [tables].
    rewrite cascade_other.
    + rewrite table_set_table_neq; auto.
    + intros Hin. rewrite <- Bool.not_true_iff_false in Hc. apply Hc.
      apply existsb_exists. exists t. split; [exact Hin | apply String.eqb_refl].
Qed.

Lemma eq_db_refl : forall d : DB, d = d.
Proof. reflexivity. Qed.

Lemma eq_db_trans : forall a b c : DB, a = b -> b = c -> a = c.
Proof. intros; subst; reflexivity. Qed.

Lemma same_table_refl t : forall d, same_table t d d.
Proof. intro d; reflexivity. Qed.

Lemma same_table_trans t : forall a b c, same_table t a b -> same_table t b c -> same_table t a c.
Proof. unfold same_table; intros a b c H1 H2; congruence. Qed.

(** Decompose a [preserves] goal along the structure of the code. *)
Ltac frame R Hr Ht :=
  repeat (intros; first
    [ apply (preserves_ret R Hr)
    | apply (preserves_raise R Hr)
    | apply (preserves_record R Hr)
    | apply (preserves_utcnow R Hr)
    | apply (preserves_print R Hr)
    | apply (preserves_bind R Ht)
    | apply (preserves_try R Ht)
    | apply (preserves_mapM R Hr Ht)
    | apply (preserves_foldM R Hr Ht)
    | apply (preserves_eq_any R _ _ Hr); apply preserves_select
    | apply preserves_other_table; reflexivity
    | match goal with |- preserves _ (match ?x with _ => _ end) => destruct x end
    | progress unfold subscript, obj_get, obj_get_def, obj_sub, py_add, py_sub,
        py_iter, entry, accessor, except_print, request_json ]).

Ltac frame_eq := frame (@eq DB) eq_db_refl eq_db_trans.
Ltac frame_tbl t := frame (same_table t) (same_table_refl t) (same_table_trans t).

Section MemFrame.
Variables (au : string -> res (option user)) (iso : string -> option Z).
Let RT := mem_runtime au iso.

Lemma Plan_get_by_id_pure pid : preserves eq (Plan.get_by_id (RT := RT) pid).
Proof. unfold Plan.get_by_id. frame_eq. Qed.

Lemma Guest_get_by_id_pure gid : preserves eq (Guest.get_by_id (RT := RT) gid).
Proof. unfold Guest.get_by_id. frame_eq. Qed.

Lemma Guest_get_plan_guests_pure pid : preserves eq (Guest.get_plan_guests (RT := RT) pid).
Proof. unfold Guest.get_plan_guests. frame_eq. Qed.

Lemma Guest_update_plans gid u : preserves (same_table "plans") (Guest.update (RT := RT) gid u).
Proof.
  unfold Guest.update. frame_tbl "plans".
Qed.

Lemma Guest_add_phone_numbers_plans gid ps :
  preserves (same_table "plans") (Guest.add_phone_numbers (RT := RT) gid ps).
Proof. unfold Guest.add_phone_numbers. frame_tbl "plans". Qed.

Lemma Guest_create_plans pid name kwargs :
  preserves (same_table "plans") (Guest.create (RT := RT) pid name kwargs).
Proof.
  unfold Guest.create. frame_tbl "plans".
Qed.

Lemma Guest_delete_plans gid : preserves (same_table "plans") (Guest.delete (RT := RT) gid).
Proof. unfold Guest.delete. frame_tbl "plans". Qed.

Lemma Plan_update_guests pid u : preserves (same_table "guests") (Plan.update (RT := RT) pid u).
Proof. unfold Plan.update. frame_tbl "guests". Qed.

Lemma Plan_update_phones pid u : preserves (same_table "guest_phones") (Plan.update (RT := RT) pid u).
Proof. unfold Plan.update. frame_tbl "guest_phones". Qed.

End MemFrame.

(** ** Running the guard and the ownership check *)

Lemma get_current_user_bearer {RT : Runtime} r tok u s :
  hget (headers r) "Authorization" = Some ("Bearer " ++ tok) ->
  split_space tok = [tok] ->
  rt_get_user tok = Ok (Some u) ->
  get_current_user r s = (Ok (Some u), mkSt (st_db s) (st_now s) (EvAuth tok :: st_trace s)).
Proof.
  intros Hh Hs Hu. unfold get_current_user. rewrite Hh. simpl.
  unfold split_space in Hs. rewrite Hs.
  assert (Hp : String.prefix "" tok = true) by (destruct tok; reflexivity).
  rewrite Hp. unfold try_except, auth_get_user, bind, record. simpl. rewrite Hu. reflexivity.
Qed.

Lemma owned_plan_ok au iso pid u (k : dict -> M resp) ts n now tr p ps :
  filter (row_matches [FEq "id" (JStr pid)]) (table ts "plans") = p :: ps ->
  row_truthy p = true ->
  dget p "user_id" = Some (JStr (uid u)) ->
  owned_plan (RT := mem_runtime au iso) pid u k (mkSt (mkDB ts n) now tr)
  = k p (mkSt (mkDB ts n) now
           (EvExec (OSelect "plans" "*" [FEq "id" (JStr pid)] None None)
            :: EvCall "Plan.get_by_id" :: tr)).
Proof.
  intros Hf Ht Ho. unfold owned_plan, Plan.get_by_id, accessor, entry, bind, record,
    try_except, execute. simpl. rewrite Hf. simpl. rewrite Ht.
  unfold subscript. rewrite Ho. simpl. rewrite String.eqb_refl. reflexivity.
Qed.

Lemma authenticated_ok {RT : Runtime} r (k : user -> M resp) u s s' :
  get_current_user r s = (Ok (Some u), s') -> authenticated r k s = k u s'.
Proof. intros H. unfold authenticated, bind. rewrite H. reflexivity. Qed.

Lemma request_json_bind {A} r v (k : jval -> M A) :
  body r = Json v -> bind (request_json r) k = k v.
Proof. intros H. unfold request_json. rewrite H. reflexivity. Qed.

Lemma dget_truthy d k v : dget d k = Some v -> truthy (JObj d) = true.
Proof. destruct d; [discriminate | reflexivity]. Qed.

(** The except block of an accessor leaves the store and the clock alone. *)
Lemma except_print_db {RT : Runtime} {A} msg (d : A) e s :
  st_db (snd (except_print msg d e s)) = st_db s /\ st_now (snd (except_print msg d e s)) = st_now s.
Proof.
  unfold except_print, print, bind, ret, raise. destruct (is_exception e); [|split; reflexivity].
  destruct (rt_print (msg ++ exn_str e)) as [[]|]; split; reflexivity.
Qed.

(** What [Guest.update] and [Guest.delete] do to the guests table. *)
Lemma Guest_update_db au iso gid u ts n now tr :
  st_db (snd (Guest.update (RT := mem_runtime au iso) gid (JObj u) (mkSt (mkDB ts n) now tr)))
  = mkDB (set_table ts "guests"
            (map (fun x => if row_matches [FEq "id" gid] x then apply_updates x u else x)
                 (table ts "guests"))) n.
Proof.
  unfold Guest.update, accessor, entry, try_except, bind, record, execute. simpl.
  destruct (map (fun r => apply_updates r u) (filter (row_matches [FEq "id" gid]) (table ts "guests"))).
  - reflexivity.
  - match goal with |- context [Guest.get_by_id gid ?s] =>
      pose proof (Guest_get_by_id_pure au iso gid s) as Hp; destruct (Guest.get_by_id gid s) as [[a|e] s'] end;
    simpl in *; [congruence|]. rewrite (proj1 (except_print_db _ _ _ _)). congruence.
Qed.

Ltac not_in_tac :=
  let H := fresh in intros H; vm_compute in H; repeat (destruct H as [H|H]; [discriminate H|]); exact H.

Lemma Guest_delete_db au iso gid ts n now tr :
  table (tables (st_db (snd (Guest.delete (RT := mem_runtime au iso) gid (mkSt (mkDB ts n) now tr)))))
        "guests"
  = filter (fun x => negb (row_matches [FEq "id" gid] x)) (table ts "guests").
Proof.
  unfold Guest.delete, accessor, entry, try_except, bind, record, execute. simpl.
  rewrite cascade_other by not_in_tac. apply table_set_table_eq.
Qed.

(** ** C2: the guest routes check the plan, never the guest's plan *)

Section GuestRoutes.
Variables (au : string -> res (option user)) (iso : string -> option Z).
Variables (r : request) (tok : string) (u : user) (P G : string).
Variables (ts : list (string * list dict)) (n : nat) (now : Z) (tr : list event).
Variables (p : dict) (ps : list dict).
Hypothesis H_header : hget (headers r) "Authorization" = Some ("Bearer " ++ tok).
Hypothesis H_token : split_space tok = [tok].
Hypothesis H_user : au tok = Ok (Some u).
Hypothesis H_plan : filter (row_matches [FEq "id" (JStr P)]) (table ts "plans") = p :: ps.
Hypothesis H_plan_truthy : row_truthy p = true.
Hypothesis H_owner : dget p "user_id" = Some (JStr (uid u)).

Let RT := mem_runtime au iso.
Let s0 := mkSt (mkDB ts n) now tr.
Let s2 := mkSt (mkDB ts n) now
            (EvExec (OSelect "plans" "*" [FEq "id" (JStr P)] None None)
             :: EvCall "Plan.get_by_id" :: EvAuth tok :: tr).

(** Past the guard and the ownership check, a handler runs its body. *)
Lemma enter_owned (k : dict -> M resp) :
  authenticated (RT := RT) r (fun user => owned_plan (RT := RT) P user k) s0 = k p s2.
Proof.
  rewrite (authenticated_ok _ _ u _ _
             (get_current_user_bearer (RT := RT) r tok u s0 H_header H_token H_user)).
  apply (owned_plan_ok au iso P u k ts n now (EvAuth tok :: tr) p ps H_plan H_plan_truthy H_owner).
Qed.

Lemma update_guest_applies d :
  body r = Json (JObj d) -> d <> [] ->
  table (tables (st_db (snd (update_guest (RT := RT) r P G s0)))) "guests"
  = map (fun x => if row_matches [FEq "id" (JStr G)] x then apply_updates x d else x)
        (table ts "guests").
Proof.
  intros Hj Hd. unfold update_guest. rewrite enter_owned. cbv beta zeta.
  rewrite (request_json_bind _ _ _ Hj). destruct d as [|kv d]; [contradiction|]. cbn [truthy negb].
  match goal with |- context [bind ?m ?k ?s] =>
    pose proof (bind_tail (same_table "guests") (same_table_refl _) m k s) as Ht end.
  unfold same_table in Ht. etransitivity; [symmetry; apply Ht|].
  - frame_tbl "guests".
  - unfold s2, RT. rewrite Guest_update_db. simpl. apply table_set_table_eq.
Qed.

Lemma delete_guest_applies :
  table (tables (st_db (snd (delete_guest (RT := RT) r P G s0)))) "guests"
  = filter (fun x => negb (row_matches [FEq "id" (JStr G)] x)) (table ts "guests").
Proof.
  unfold delete_guest. rewrite enter_owned. cbv beta zeta.
  match goal with |- context [bind ?m ?k ?s] =>
    pose proof (bind_tail (same_table "guests") (same_table_refl _) m k s) as Ht end.
  unfold same_table in Ht. etransitivity; [symmetry; apply Ht|].
  - frame_tbl "guests".
  - unfold s2, RT. apply Guest_delete_db.
Qed.

Lemma update_guest_rsvp_applies d v :
  body r = Json (JObj d) -> dget d "rsvp_status" = Some (JStr v) -> In v Guest.RSVP_OPTIONS ->
  table (tables (st_db (snd (update_guest_rsvp (RT := RT) r P G s0)))) "guests"
  = map (fun x => if row_matches [FEq "id" (JStr G)] x
                  then apply_updates x [("rsvp_status", JStr v)] else x)
        (table ts "guests").
Proof.
  intros Hj Hv Hin. unfold update_guest_rsvp. rewrite enter_owned. cbv beta zeta.
  rewrite (request_json_bind _ _ _ Hj). unfold obj_get, obj_get_def. rewrite Hv.
  unfold bind at 1, ret at 1.
  assert (Hok : negb (truthy (JStr v)) || negb (in_options (JStr v) ["pending"; "confirmed"; "declined"; "maybe"]) = false)
    by (simpl in Hin; destruct Hin as [<-|[<-|[<-|[<-|[]]]]]; reflexivity).
  rewrite Hok.
  match goal with |- context [bind ?m ?k ?s] =>
    pose proof (bind_tail (same_table "guests") (same_table_refl _) m k s) as Ht end.
  unfold same_table in Ht. etransitivity; [symmetry; apply Ht|].
  - frame_tbl "guests".
  - unfold s2, RT, Guest.update_rsvp, entry. unfold bind at 1, record. simpl.
    rewrite Guest_update_db. simpl. apply table_set_table_eq.
Qed.

Lemma send_invitation_applies :
  table (tables (st_db (snd (send_invitation (RT := RT) r P G s0)))) "guests"
  = map (fun x => if row_matches [FEq "id" (JStr G)] x
                  then apply_updates x [("is_invitation_sent", JBool true);
                                        ("invitation_sent_at", JStr (isoformat now))]
                  else x)
        (table ts "guests").
Proof.
  unfold send_invitation. rewrite enter_owned. cbv beta zeta.
  match goal with |- context [bind ?m ?k ?s] =>
    pose proof (bind_tail (same_table "guests") (same_table_refl _) m k s) as Ht end.
  unfold same_table in Ht. etransitivity; [symmetry; apply Ht|].
  - frame_tbl "guests".
  - unfold s2, RT, Guest.mark_invitation_sent, entry. unfold bind at 1, record. simpl.
    unfold bind at 1, utcnow. simpl.
    rewrite Guest_update_db. simpl. apply table_set_table_eq.
Qed.

Lemma add_guest_phone_applies d num :
  body r = Json (JObj d) -> dget d "phone_number" = Some num -> truthy num = true ->
  exists row,
    table (tables (st_db (snd (add_guest_phone (RT := RT) r P G s0)))) "guest_phones"
    = app (table ts "guest_phones") [row] /\ dget row "guest_id" = Some (JStr G).
Proof.
  intros Hj Hn Ht. unfold add_guest_phone. rewrite enter_owned. cbv beta zeta.
  rewrite (request_json_bind _ _ _ Hj), (dget_truthy _ _ _ Hn). cbn [negb].
  unfold obj_get, obj_get_def, obj_sub, subscript. rewrite Hn.
  unfold bind at 1 2, ret at 1 2. rewrite Ht. cbn [negb].
  unfold bind at 1 2 3, ret at 1 2 3.
  match goal with |- context [bind ?m ?k ?s] =>
    pose proof (bind_tail (same_table "guest_phones") (same_table_refl _) m k s) as Hb end.
  unfold same_table in Hb.
  eexists. split; [etransitivity; [symmetry; apply Hb|] |].
  - frame_tbl "guest_phones".
  - unfold s2, RT. simpl. apply table_set_table_eq.
  - reflexivity.
Qed.

Lemma row_truthy_dset g k v : row_truthy (dset g k v) = true.
Proof. destruct g as [|[k' v'] g]; simpl; [reflexivity|]. destruct (String.eqb k k'); reflexivity. Qed.

Lemma get_guest_rejects g gs Q :
  filter (row_matches [FEq "id" (JStr G)]) (table ts "guests") = g :: gs ->
  row_truthy g = true -> dget g "plan_id" = Some (JStr Q) -> Q <> P ->
  fst (get_guest (RT := RT) r P G s0)
  = Ok (err "Guest does not belong to this plan", StCode ERROR).
Proof.
  intros Hg Htg Hq Hne. unfold get_guest. rewrite enter_owned. cbv beta zeta.
  unfold s2, RT, Guest.get_by_id, accessor, entry, try_except, bind, record, execute. simpl.
  rewrite Hg. simpl. rewrite Htg. simpl. rewrite row_truthy_dset.
  unfold subscript. rewrite dget_dset_neq by reflexivity. rewrite Hq. simpl.
  apply String.eqb_neq in Hne. rewrite Hne. reflexivity.
Qed.

Lemma rsvp_outside_check d :
  rsvp_outside d ->
  (negb (truthy (kw d "rsvp_status" JNull))
   || negb (in_options (kw d "rsvp_status" JNull) ["pending"; "confirmed"; "declined"; "maybe"]))
  = true.
Proof.
  unfold rsvp_outside, kw. destruct (dget d "rsvp_status") as [v|]; [|reflexivity].
  intros Hv. destruct v; try (rewrite orb_true_r; reflexivity).
  cbn [in_options]. destruct (existsb (String.eqb s) _) eqn:E.
  - exfalso. apply Hv. apply existsb_exists in E as [o [Ho Heq]].
    apply String.eqb_eq in Heq. subst o. exact Ho.
  - rewrite orb_true_r. reflexivity.
Qed.

Lemma update_guest_rsvp_rejects d :
  body r = Json (JObj d) -> rsvp_outside d ->
  update_guest_rsvp (RT := RT) r P G s0 = (Ok (err "Valid RSVP status required", StCode ERROR), s2).
Proof.
  intros Hj Ho. unfold update_guest_rsvp. rewrite enter_owned. cbv beta zeta.
  rewrite (request_json_bind _ _ _ Hj). unfold obj_get, obj_get_def, bind at 1, ret at 1.
  fold (kw d "rsvp_status" JNull). rewrite (rsvp_outside_check d Ho). reflexivity.
Qed.

End GuestRoutes.

(** C2: the guest routes check only that the caller owns the plan named in the
    path. For a caller owning plan [P] and a guest [G] whose [plan_id] is some
    other [Q], the guest update, guest delete, RSVP update, invitation and
    add-phone handlers still act on [G]'s records; only the single-guest GET
    answers 400 "Guest does not belong to this plan". The delete, invitation
    and GET handlers never read the body, so they do so for every body,
    none included; the update, RSVP and add-phone handlers do so for every
    JSON object body that passes their own checks. *)
Theorem guest_routes_ignore_guest_plan
    (au : string -> res (option user)) (iso : string -> option Z)
    (r : request) (tok : string) (u : user) (P G Q : string)
    (ts : list (string * list dict)) (n : nat) (now : Z) (tr : list event)
    (p : dict) (ps : list dict) (g : dict) (gs : list dict) :
  hget (headers r) "Authorization" = Some ("Bearer " ++ tok) ->
  split_space tok = [tok] ->
  au tok = Ok (Some u) ->
  filter (row_matches [FEq "id" (JStr P)]) (table ts "plans") = p :: ps ->
  row_truthy p = true ->
  dget p "user_id" = Some (JStr (uid u)) ->
  filter (row_matches [FEq "id" (JStr G)]) (table ts "guests") = g :: gs ->
  row_truthy g = true ->
  dget g "plan_id" = Some (JStr Q) ->
  Q <> P ->
  let s0 := mkSt (mkDB ts n) now tr in
  let on_G := row_matches [FEq "id" (JStr G)] in
  (forall d, body r = Json (JObj d) -> d <> [] ->
     table (tables (st_db (snd (update_guest (RT := mem_runtime au iso) r P G s0)))) "guests"
     = map (fun x => if on_G x then apply_updates x d else x) (table ts "guests"))
  /\ table (tables (st_db (snd (delete_guest (RT := mem_runtime au iso) r P G s0)))) "guests"
    = filter (fun x => negb (on_G x)) (table ts "guests")
  /\ (forall d v, body r = Json (JObj d) ->
      dget d "rsvp_status" = Some (JStr v) -> In v Guest.RSVP_OPTIONS ->
      table (tables (st_db (snd (update_guest_rsvp (RT := mem_runtime au iso) r P G s0)))) "guests"
      = map (fun x => if on_G x then apply_updates x [("rsvp_status", JStr v)] else x)
            (table ts "guests"))
  /\ table (tables (st_db (snd (send_invitation (RT := mem_runtime au iso) r P G s0)))) "guests"
    = map (fun x => if on_G x
                    then apply_updates x [("is_invitation_sent", JBool true);
                                          ("invitation_sent_at", JStr (isoformat now))]
                    else x) (table ts "guests")
  /\ (forall d num, body r = Json (JObj d) ->
      dget d "phone_number" = Some num -> truthy num = true ->
      exists row,
        table (tables (st_db (snd (add_guest_phone (RT := mem_runtime au iso) r P G s0))))
              "guest_phones" = app (table ts "guest_phones") [row]
        /\ dget row "guest_id" = Some (JStr G))
  /\ fst (get_guest (RT := mem_runtime au iso) r P G s0)
     = Ok (err "Guest does not belong to this plan", StCode ERROR).
Proof.
  intros Hh Htk Hu Hp Hpt Ho Hg Hgt Hq Hne s0 on_G.
  repeat split.
  - intros d Hj Hd. eapply update_guest_applies; eassumption.
  - eapply delete_guest_applies; eassumption.
  - intros d v Hj Hv Hin. eapply update_guest_rsvp_applies; eassumption.
  - eapply send_invitation_applies; eassumption.
  - intros d num Hj Hn Hnt. eapply add_guest_phone_applies; eassumption.
  - eapply get_guest_rejects; eassumption.
Qed.

Lemma guest_routes_ignore_guest_plan_witness :
  body (bearer_get "tok-alice") = NoJson
  /\ table (tables (st_db (snd (delete_guest (RT := rt0) (bearer_get "tok-alice") "p1" "g9" st0))))
           "guests" = []
  /\ table (tables (st_db (snd (send_invitation (RT := rt0) (bearer_get "tok-alice") "p1" "g9" st0))))
           "guests"
     = [apply_updates bob_guest [("is_invitation_sent", JBool true);
                                 ("invitation_sent_at", JStr (isoformat 5))]]
  /\ fst (get_guest (RT := rt0) (bearer_get "tok-alice") "p1" "g9" st0)
     = Ok (err "Guest does not belong to this plan", StCode ERROR)
  /\ table (tables (st_db (snd (update_guest (RT := rt0) alice_edit_req "p1" "g9" st0)))) "guests"
     = [apply_updates bob_guest [("name", JStr "Zoe")]].
Proof.
  destruct (guest_routes_ignore_guest_plan toy_get_user toy_fromisoformat (bearer_get "tok-alice")
              "tok-alice" (mkUser "alice") "p1" "g9" "p2" (tables db0) 100 5 []
              alice_plan [] bob_guest [])
    as [_ [Hdel [_ [Hinv [_ Hget]]]]];
    try reflexivity; try discriminate.
  destruct (guest_routes_ignore_guest_plan toy_get_user toy_fromisoformat alice_edit_req
              "tok-alice" (mkUser "alice") "p1" "g9" "p2" (tables db0) 100 5 []
              alice_plan [] bob_guest [])
    as [Hupd _];
    try reflexivity; try discriminate.
  split; [reflexivity|]. split; [exact (eq_trans Hdel eq_refl)|].
  split; [exact (eq_trans Hinv eq_refl)|]. split; [exact Hget|].
  exact (eq_trans (Hupd [("name", JStr "Zoe")] eq_refl ltac:(discriminate)) eq_refl).
Defined.

(** C7: the generic guest update route forwards the body unchecked. When alice
    (owner of plan p1) sends PUT /p1/guests/g1 with body
    [{"rsvp_status": "bogus"}], a value outside the RSVP options, the handler
    answers success and the stored rsvp_status of g1 becomes "bogus". *)
Theorem update_guest_stores_unlisted_rsvp :
  ~ In "bogus" Guest.RSVP_OPTIONS /\
  let '(res, s) := update_guest (RT := rt0)
                     (bearer "tok-alice" (JObj [("rsvp_status", JStr "bogus")]))
                     "p1" "g1" st1 in
  (exists body, res = Ok (body, StCode SUCCESS))
  /\ stored_field s "guests" "g1" "rsvp_status" = Some (JStr "bogus").
Proof.
  split.
  - simpl. intros [H|[H|[H|[H|[]]]]]; discriminate H.
  - vm_compute. split; [eexists; reflexivity | reflexivity].
Qed.

(** ** Repeated dict updates *)




Lemma apply_updates_cons r k v u :
  apply_updates r ((k, v) :: u) = apply_updates (dset r k v) u.
Proof. reflexivity. Qed.


Lemma apply_updates_other u r k :
  ~ In k (map fst u) -> dget (apply_updates r u) k = dget r k.
Proof.
  revert r. induction u as [|[k0 v0] u IH]; intros r H; [reflexivity|].
  rewrite apply_updates_cons, IH by (simpl in H; tauto).
  apply dget_dset_neq, String.eqb_neq. simpl in H. intros ->. tauto.
Qed.












Lemma row_matches_id_apply g x d :
  ~ In "id" (map fst d) ->
  row_matches [FEq "id" g] (apply_updates x d) = row_matches [FEq "id" g] x.
Proof. intros H. unfold row_matches, filter_ok. simpl. rewrite apply_updates_other by exact H. reflexivity. Qed.

Lemma Plan_update_db au iso P u ts n now tr :
  st_db (snd (Plan.update (RT := mem_runtime au iso) P (JObj u) (mkSt (mkDB ts n) now tr)))
  = mkDB (set_table ts "plans"
            (map (fun x => if row_matches [FEq "id" (JStr P)] x
                           then apply_updates x (dset u "updated_at" (JStr (isoformat now)))
                           else x)
                 (table ts "plans"))) n.
Proof.
  unfold Plan.update, accessor, entry, try_except, bind, record, execute, utcnow, ret. simpl.
  reflexivity.
Qed.




(** ** The stats endpoint *)

Lemma bind_ok {A B} (m : M A) (k : A -> M B) s a s' :
  m s = (Ok a, s') -> bind m k s = k a s'.
Proof. intros H. unfold bind. rewrite H. reflexivity. Qed.

Lemma bind_raise {A B} (m : M A) (k : A -> M B) s e :
  fst (m s) = Raise e -> fst (bind m k s) = Raise e.
Proof. unfold bind. destruct (m s) as [[a|e'] s']; simpl; congruence. Qed.










(** ** Accessors under failure *)

(** The try block of an accessor: a raised [Exception] whose message rich
    prints without error turns into the accessor's default. *)
Lemma accessor_on_raise {RT : Runtime} {A} name msg (d : A) body s e s' :
  body (mkSt (st_db s) (st_now s) (EvCall name :: st_trace s)) = (Raise e, s') ->
  is_exception e = true ->
  rt_print (msg ++ exn_str e) = Ok tt ->
  accessor name msg d body s = (Ok d, s').
Proof.
  intros H He Hp. unfold accessor, entry, bind, record, try_except. simpl. rewrite H.
  unfold except_print. rewrite He. unfold print, bind. rewrite Hp. reflexivity.
Qed.

(** When printing the message raises, or the body raises a BaseException,
    the accessor raises too. *)
Lemma accessor_raises {RT : Runtime} {A} name msg (d : A) body s e s' :
  body (mkSt (st_db s) (st_now s) (EvCall name :: st_trace s)) = (Raise e, s') ->
  is_exception e = false \/ (exists e', rt_print (msg ++ exn_str e) = Raise e') ->
  exists e'', fst (accessor name msg d body s) = Raise e''.
Proof.
  intros H Hc. unfold accessor, entry, bind, record, try_except. simpl. rewrite H.
  unfold except_print. destruct Hc as [He | [e' Hp]].
  - rewrite He. exists e. reflexivity.
  - destruct (is_exception e); [|exists e; reflexivity].
    unfold print, bind. rewrite Hp. exists e'. reflexivity.
Qed.

Lemma accessor_ok {RT : Runtime} {A} name msg (d : A) body s a s' :
  body (mkSt (st_db s) (st_now s) (EvCall name :: st_trace s)) = (Ok a, s') ->
  accessor name msg d body s = (Ok a, s').
Proof. intros H. unfold accessor, entry, bind, record, try_except. simpl. rewrite H. reflexivity. Qed.

(** C4 (refuted): the accessors do not always return normally. With the
    deployed store, [Plan.get_by_id("[/x]")] makes PostgREST reject the
    non-uuid id; the except block prints the error with rich's [print],
    whose text then holds the closing tag [\[/x]] with no open tag, and the
    MarkupError this raises inside the except block escapes the accessor.
    A BaseException such as KeyboardInterrupt is not caught by
    [except Exception] and escapes as well. *)
Theorem accessor_failure_escapes :
  fst (Plan.get_by_id (RT := pg_runtime) "[/x]" st0)
  = Raise (MarkupError ("closing tag in Error getting plan: invalid input syntax for type uuid: [/x] doesn't match any open tag"))
  /\ fst (Plan.get_by_id (RT := interrupt_runtime) "p1" st0) = Raise (BaseExc "KeyboardInterrupt")
  /\ fst (Guest.get_plan_guests (RT := interrupt_runtime) "p1" st0) = Raise (BaseExc "KeyboardInterrupt")
  /\ fst (Plan.delete (RT := interrupt_runtime) "p1" st0) = Raise (BaseExc "KeyboardInterrupt").
Proof. vm_compute. repeat split. Qed.

(** ** What a successful run implies: a weakest-precondition reading *)

Definition wp {A} (m : M A) (Q : A -> St -> Prop) (s : St) : Prop :=
  match m s with
  | (Ok a, s') => Q a s'
  | (Raise _, _) => True
  end.

Lemma wp_bind {A B} (m : M A) (k : A -> M B) Q s :
  wp m (fun a s1 => wp (k a) Q s1) s -> wp (bind m k) Q s.
Proof. unfold wp, bind. destruct (m s) as [[a|e] s1]; auto. Qed.

Lemma wp_ret {A} (a : A) Q s : Q a s -> wp (ret a) Q s.
Proof. auto. Qed.

Lemma wp_raise {A} e (Q : A -> St -> Prop) s : wp (raise e) Q s.
Proof. exact I. Qed.

Lemma wp_frame {A} R (m : M A) Q s :
  preserves R m -> (forall a s', R (st_db s) (st_db s') -> Q a s') -> wp m Q s.
Proof.
  intros Hm HQ. unfold wp. specialize (Hm s).
  destruct (m s) as [[a|e] s']; [apply HQ, Hm | exact I].
Qed.

Lemma wp_run {A} (m : M A) Q s a s' : wp m Q s -> m s = (Ok a, s') -> Q a s'.
Proof. unfold wp. intros H E. rewrite E in H. exact H. Qed.

Lemma get_current_user_pure {RT : Runtime} r : preserves eq (get_current_user r).
Proof.
  intros s. unfold get_current_user.
  destruct (hget (headers r) "Authorization") as [h|]; [|reflexivity].
  destruct (_ || _); [reflexivity|].
  destruct (split_space h) as [|x [|tok rest]]; try reflexivity.
  unfold try_except, auth_get_user, bind, record. simpl.
  destruct (rt_get_user tok); reflexivity.
Qed.

Lemma phone_missing_number_pure ps : preserves eq (phone_missing_number ps).
Proof. induction ps as [|ph ps IH]; simpl; frame_eq; exact IH. Qed.

Lemma Plan_get_by_id_mem au iso P s :
  Plan.get_by_id (RT := mem_runtime au iso) P s
  = (Ok (first_row (filter (row_matches [FEq "id" (JStr P)]) (table (tables (st_db s)) "plans"))),
     mkSt (st_db s) (st_now s)
       (EvExec (OSelect "plans" "*" [FEq "id" (JStr P)] None None)
        :: EvCall "Plan.get_by_id" :: st_trace s)).
Proof. reflexivity. Qed.

Lemma wp_Plan_get_by_id au iso P (Q : option dict -> St -> Prop) s :
  (forall s', st_db s' = st_db s ->
     Q (first_row (filter (row_matches [FEq "id" (JStr P)]) (table (tables (st_db s)) "plans"))) s') ->
  wp (Plan.get_by_id (RT := mem_runtime au iso) P) Q s.
Proof. intros H. unfold wp. rewrite Plan_get_by_id_mem. apply H. reflexivity. Qed.

Lemma wp_Plan_update au iso P u Q s :
  (forall a s', st_db s' = mkDB (set_table (tables (st_db s)) "plans"
                  (map (fun x => if row_matches [FEq "id" (JStr P)] x
                                 then apply_updates x (dset u "updated_at" (JStr (isoformat (st_now s))))
                                 else x)
                       (table (tables (st_db s)) "plans"))) (next_id (st_db s)) -> Q a s') ->
  wp (Plan.update (RT := mem_runtime au iso) P (JObj u)) Q s.
Proof.
  intros H. unfold wp. destruct s as [[ts n] now tr].
  pose proof (Plan_update_db au iso P u ts n now tr) as Hdb.
  destruct (Plan.update P (JObj u) _) as [[a|e] s'] eqn:E; [|exact I].
  apply H. exact Hdb.
Qed.

(** Updating the plans of one id, with a payload that keeps the id, puts the
    updated first row first. *)
Lemma stored_field_after_update P d ts k n' s' :
  ~ In "id" (map fst d) ->
  st_db s' = mkDB (set_table ts "plans"
       (map (fun x => if row_matches [FEq "id" (JStr P)] x then apply_updates x d else x)
            (table ts "plans"))) n' ->
  stored_field s' "plans" P k
  = match filter (row_matches [FEq "id" (JStr P)]) (table ts "plans") with
    | g :: _ => dget (apply_updates g d) k
    | [] => None
    end.
Proof.
  intros Hid Hs. unfold stored_field. rewrite Hs. clear Hs. cbn [tables].
  rewrite table_set_table_eq.
  induction (table ts "plans") as [|x l IH]; [reflexivity|].
  cbn [map filter]. destruct (row_matches [FEq "id" (JStr P)] x) eqn:Hx.
  - rewrite row_matches_id_apply, Hx by exact Hid. reflexivity.
  - rewrite Hx. exact IH.
Qed.

Lemma guest_count_payload_keys v t :
  ~ In "id" (map fst (dset [("guest_count", v)] "updated_at" (JStr t))).
Proof. simpl. intros [H|[H|[]]]; discriminate H. Qed.

Lemma guest_count_payload_get x v t :
  dget (apply_updates x (dset [("guest_count", v)] "updated_at" (JStr t))) "guest_count" = Some v.
Proof.
  simpl. rewrite dget_dset_neq by reflexivity. apply dget_dset_eq.
Qed.

Ltac wp_walk :=
  repeat match goal with
  | |- wp (bind _ _) _ _ => apply wp_bind
  | |- wp (ret _) _ _ => apply wp_ret
  | |- wp (raise _) _ _ => apply wp_raise
  | |- wp (if ?b then _ else _) _ _ => destruct b
  | |- wp (match ?x with _ => _ end) _ _ => destruct x
  end.

(** One step of a walk through a handler that tracks the plans table. *)
Ltac plans_step Hpgc :=
  first
  [ match goal with |- wp (bind _ _) _ _ => apply wp_bind end
  | match goal with |- wp (raise _) _ _ => apply wp_raise end
  | match goal with |- wp (ret _) _ _ =>
      apply wp_ret; cbv beta; try (let H := fresh in intros H; discriminate H) end
  | match goal with |- wp (if ?b then _ else _) _ _ => destruct b end
  | match goal with |- wp (subscript _ _) _ _ => unfold subscript; rewrite ?Hpgc end
  | match goal with |- wp (py_add _ _) _ _ => unfold py_add; cbv beta iota zeta end
  | match goal with |- wp (py_sub _ _) _ _ => unfold py_sub; cbv beta iota zeta end
  | match goal with |- wp (match ?x with _ => _ end) _ _ => destruct x end
  | match goal with |- wp (let _ := _ in _) _ _ => cbv zeta iota end
  | match goal with |- wp (Plan.update _ (JObj _)) _ _ =>
      apply wp_Plan_update; intros ?a ?s ?Hs end
  | apply (wp_frame (same_table "plans"));
    [ first [ apply Guest_create_plans | apply Guest_delete_plans
            | apply preserves_eq_any; [intro; reflexivity | apply phone_missing_number_pure]
            | apply preserves_eq_any; [intro; reflexivity | apply get_current_user_pure]
            | frame_tbl "plans" ]
    | intros ?a ?s ?Hs ] ].

(** A guest-add answered 201 has raised the plan's guest_count by one. *)
Lemma add_guest_increments au iso r P s N x s' :
  stored_field s "plans" P "guest_count" = Some (JInt N) ->
  add_guest (RT := mem_runtime au iso) r P s = (Ok (x, StInt 201), s') ->
  stored_field s' "plans" P "guest_count" = Some (JInt (N + 1)).
Proof.
  intros Hgc Hrun.
  refine (wp_run _ (fun res s' => snd res = StInt 201 ->
                      stored_field s' "plans" P "guest_count" = Some (JInt (N + 1)))
            s _ _ _ Hrun eq_refl).
  unfold stored_field in Hgc.
  remember (table (tables (st_db s)) "plans") as T eqn:HT.
  destruct (filter (row_matches [FEq "id" (JStr P)]) T) as [|p ps] eqn:HF; [discriminate Hgc|].
  rename Hgc into Hpgc.
  unfold add_guest, authenticated. apply wp_bind.
  apply (wp_frame eq); [apply get_current_user_pure|]. intros a s1 E1.
  destruct a as [u|]; [|apply wp_ret; cbv beta; intros H; discriminate H].
  unfold owned_plan. apply wp_bind. apply wp_Plan_get_by_id. intros s2 E2.
  rewrite <- E1, <- HT, HF. cbn [first_row].
  assert (Hcur : same_table "plans" (st_db s) (st_db s2)) by (unfold same_table; congruence).
  clear E1 E2.
  repeat plans_step Hpgc.
  intros _.
  erewrite stored_field_after_update by
    first [apply guest_count_payload_keys | eassumption].
  match goal with |- match filter _ (table (tables (st_db ?sk)) _) with _ => _ end = _ =>
    replace (table (tables (st_db sk)) "plans") with T by (unfold same_table in *; congruence) end.
  rewrite HF. apply guest_count_payload_get.
Qed.

(** A guest-delete answered SUCCESS has lowered the plan's guest_count by one,
    never below zero. *)
Lemma delete_guest_floors au iso r P G s M x s' :
  stored_field s "plans" P "guest_count" = Some (JInt M) ->
  delete_guest (RT := mem_runtime au iso) r P G s = (Ok (x, StCode SUCCESS), s') ->
  stored_field s' "plans" P "guest_count" = Some (JInt (Z.max 0 (M - 1))).
Proof.
  intros Hgc Hrun.
  refine (wp_run _ (fun res s' => snd res = StCode SUCCESS ->
                      stored_field s' "plans" P "guest_count" = Some (JInt (Z.max 0 (M - 1))))
            s _ _ _ Hrun eq_refl).
  unfold stored_field in Hgc.
  remember (table (tables (st_db s)) "plans") as T eqn:HT.
  destruct (filter (row_matches [FEq "id" (JStr P)]) T) as [|p ps] eqn:HF; [discriminate Hgc|].
  rename Hgc into Hpgc.
  unfold delete_guest, authenticated. apply wp_bind.
  apply (wp_frame eq); [apply get_current_user_pure|]. intros a s1 E1.
  destruct a as [u|]; [|apply wp_ret; cbv beta; intros H; discriminate H].
  unfold owned_plan. apply wp_bind. apply wp_Plan_get_by_id. intros s2 E2.
  rewrite <- E1, <- HT, HF. cbn [first_row].
  assert (Hcur : same_table "plans" (st_db s) (st_db s2)) by (unfold same_table; congruence).
  clear E1 E2.
  repeat plans_step Hpgc.
  intros _.
  erewrite stored_field_after_update by
    first [apply guest_count_payload_keys | eassumption].
  match goal with |- match filter _ (table (tables (st_db ?sk)) _) with _ => _ end = _ =>
    replace (table (tables (st_db sk)) "plans") with T by (unfold same_table in *; congruence) end.
  rewrite HF. apply guest_count_payload_get.
Qed.

(** With the in-memory store, a guest-add answered 201 followed by a
    guest-delete answered SUCCESS on the same plan, run one after the other,
    takes guest_count from N to N + 1 and back to N when N >= 0. More generally,
    a successful add stores M + 1 and a successful delete stores max 0 (M - 1)
    for a stored count M, so these two handlers never store a negative count
    when the count was non-negative. *)
Theorem guest_count_round_trip au iso r1 r2 P G s N x1 s1 x2 s2 :
  0 <= N ->
  stored_field s "plans" P "guest_count" = Some (JInt N) ->
  add_guest (RT := mem_runtime au iso) r1 P s = (Ok (x1, StInt 201), s1) ->
  delete_guest (RT := mem_runtime au iso) r2 P G s1 = (Ok (x2, StCode SUCCESS), s2) ->
  stored_field s1 "plans" P "guest_count" = Some (JInt (N + 1))
  /\ stored_field s2 "plans" P "guest_count" = Some (JInt N)
  /\ (forall r Q t M y t',
        stored_field t "plans" Q "guest_count" = Some (JInt M) ->
        add_guest (RT := mem_runtime au iso) r Q t = (Ok (y, StInt 201), t') ->
        stored_field t' "plans" Q "guest_count" = Some (JInt (M + 1)))
  /\ (forall r Q H t M y t',
        stored_field t "plans" Q "guest_count" = Some (JInt M) ->
        delete_guest (RT := mem_runtime au iso) r Q H t = (Ok (y, StCode SUCCESS), t') ->
        stored_field t' "plans" Q "guest_count" = Some (JInt (Z.max 0 (M - 1)))
        /\ 0 <= Z.max 0 (M - 1)).
Proof.
  intros HN Hs Hadd Hdel.
  pose proof (add_guest_increments au iso r1 P s N x1 s1 Hs Hadd) as H1.
  pose proof (delete_guest_floors au iso r2 P G s1 (N + 1) x2 s2 H1 Hdel) as H2.
  split; [exact H1|]. split.
  - rewrite H2. do 2 f_equal. lia.
  - split.
    + intros r Q t M y t'. apply add_guest_increments.
    + intros r Q H t M y t' Ht Hd. split; [exact (delete_guest_floors au iso r Q H t M y t' Ht Hd)|lia].
Qed.

(** Alice adds "Bo" to p1 (guest_count 0 in the fixture), then deletes g1:
    the count goes to 1 and back to 0. *)
Lemma guest_count_round_trip_witness :
  let s1 := snd (add_guest (RT := rt0) add_bo_req "p1" st1) in
  let s2 := snd (delete_guest (RT := rt0) (bearer_get "tok-alice") "p1" "g1" s1) in
  stored_field s1 "plans" "p1" "guest_count" = Some (JInt 1)
  /\ stored_field s2 "plans" "p1" "guest_count" = Some (JInt 0).
Proof.
  cbv zeta.
  destruct (guest_count_round_trip toy_get_user toy_fromisoformat add_bo_req
              (bearer_get "tok-alice") "p1" "g1" st1 0
              (match fst (add_guest (RT := rt0) add_bo_req "p1" st1) with
               | Ok (x, _) => x | Raise _ => JNull end)
              (snd (add_guest (RT := rt0) add_bo_req "p1" st1))
              (match fst (delete_guest (RT := rt0) (bearer_get "tok-alice") "p1" "g1"
                            (snd (add_guest (RT := rt0) add_bo_req "p1" st1))) with
               | Ok (x, _) => x | Raise _ => JNull end)
              (snd (delete_guest (RT := rt0) (bearer_get "tok-alice") "p1" "g1"
                      (snd (add_guest (RT := rt0) add_bo_req "p1" st1)))))
    as [H1 [H2 _]];
    [lia | vm_compute; reflexivity | vm_compute; reflexivity | vm_compute; reflexivity |].
  split; [exact H1 | exact H2].
Defined.

(** C3 (refuted): a handler stores a negative guest_count. The plan-update
    route passes the body to [Plan.update] unchecked, although plan.py leaves
    the validation of the guest count to the calling code. Alice sends
    PUT /p1 with [{"guest_count": -1}]: the handler answers SUCCESS and p1's
    stored guest_count becomes -1. *)
Lemma update_plan_stores_negative_count :
  let '(res, s) := update_plan (RT := rt0) negative_count_req "p1" st1 in
  (exists body, res = Ok (body, StCode SUCCESS))
  /\ stored_field s "plans" "p1" "guest_count" = Some (JInt (-1)).
Proof.
  vm_compute. split; [eexists; reflexivity | reflexivity].
Qed.

(** A rejected RSVP value never reaches the store, whoever asks. *)
Lemma update_guest_rsvp_rejected_pure au iso r P G :
  (forall d, body r = Json (JObj d) -> rsvp_outside d) ->
  preserves eq (update_guest_rsvp (RT := mem_runtime au iso) r P G).
Proof.
  intros Hr. unfold update_guest_rsvp, authenticated.
  apply (preserves_bind eq eq_db_trans); [apply get_current_user_pure|].
  intros [u|]; [|apply (preserves_ret eq eq_db_refl)].
  unfold owned_plan. apply (preserves_bind eq eq_db_trans); [apply Plan_get_by_id_pure|].
  intros [pl|]; [|apply (preserves_ret eq eq_db_refl)].
  destruct (row_truthy pl); [|apply (preserves_ret eq eq_db_refl)].
  apply (preserves_bind eq eq_db_trans); [unfold subscript; frame_eq|].
  intros owner. destruct (is_str owner (uid u)); [|apply (preserves_ret eq eq_db_refl)].
  cbv zeta. intros st. unfold request_json, bind at 1.
  destruct (body r) as [| |v] eqn:Hj; try reflexivity.
  destruct v as [| | | | |d]; try reflexivity.
  unfold ret at 1, obj_get, obj_get_def.
  rewrite (bind_ok _ _ st (kw d "rsvp_status" JNull) st eq_refl).
  rewrite (rsvp_outside_check d (Hr d eq_refl)). reflexivity.
Qed.

(** When the body is a JSON object whose rsvp_status is missing or is not
    one of pending, confirmed, declined, maybe, an authenticated owner of the
    plan gets the validation error ("Valid RSVP status required", Codes.ERROR);
    and for any request whose body, when it is a JSON object, has such a
    value, the handler leaves the record store (so the guest's RSVP)
    unchanged. *)
Theorem rsvp_outside_rejected au iso r tok u P G ts n now tr p ps d :
  hget (headers r) "Authorization" = Some ("Bearer " ++ tok) ->
  split_space tok = [tok] ->
  au tok = Ok (Some u) ->
  filter (row_matches [FEq "id" (JStr P)]) (table ts "plans") = p :: ps ->
  row_truthy p = true ->
  dget p "user_id" = Some (JStr (uid u)) ->
  body r = Json (JObj d) ->
  rsvp_outside d ->
  fst (update_guest_rsvp (RT := mem_runtime au iso) r P G (mkSt (mkDB ts n) now tr))
  = Ok (err "Valid RSVP status required", StCode ERROR)
  /\ (forall r' s,
        (forall d', body r' = Json (JObj d') -> rsvp_outside d') ->
        st_db (snd (update_guest_rsvp (RT := mem_runtime au iso) r' P G s)) = st_db s).
Proof.
  intros Hh Ht Hu Hp Hpt Ho Hj Hd. split.
  - rewrite (update_guest_rsvp_rejects au iso r tok u P G ts n now tr p ps
               Hh Ht Hu Hp Hpt Ho d Hj Hd).
    reflexivity.
  - intros r' s Hr'. symmetry. apply (update_guest_rsvp_rejected_pure au iso r' P G Hr').
Qed.

(** Alice, owner of p1, sends [{"rsvp_status": "bogus"}] for g1. *)
Lemma rsvp_outside_rejected_witness :
  fst (update_guest_rsvp (RT := rt0) (bearer "tok-alice" (JObj [("rsvp_status", JStr "bogus")]))
         "p1" "g1" st1)
  = Ok (err "Valid RSVP status required", StCode ERROR).
Proof.
  destruct (rsvp_outside_rejected toy_get_user toy_fromisoformat
              (bearer "tok-alice" (JObj [("rsvp_status", JStr "bogus")])) "tok-alice"
              (mkUser "alice") "p1" "g1" (tables (st_db st1)) 100 5 [] alice_plan []
              [("rsvp_status", JStr "bogus")])
    as [H _];
    [reflexivity | reflexivity | reflexivity | reflexivity | reflexivity | reflexivity
    | reflexivity | vm_compute; intuition discriminate | exact H].
Defined.

(** C6 (refuted): the RSVP handler has no [if not data] guard, unlike the
    other handlers that read a body. Alice, owner of p1, sends the JSON body
    [null] for guest g1: it has no rsvp_status, yet instead of the
    validation error [data.get] raises AttributeError on [None] (an HTTP
    500); a JSON array body does the same. The store is left unchanged. *)
Lemma rsvp_null_body_crashes :
  fst (update_guest_rsvp (RT := rt0) (bearer "tok-alice" JNull) "p1" "g1" st1)
  = Raise AttributeError
  /\ st_db (snd (update_guest_rsvp (RT := rt0) (bearer "tok-alice" JNull) "p1" "g1" st1))
     = st_db st1
  /\ fst (update_guest_rsvp (RT := rt0) (bearer "tok-alice" (JList [JStr "bogus"])) "p1" "g1" st1)
     = Raise AttributeError.
Proof. split; [|split]; reflexivity. Qed.





(** * Further properties of the handlers and accessors *)

Lemma prefix_app s1 s2 : String.prefix s1 s2 = true -> exists t, s2 = s1 ++ t.
Proof.
  revert s2; induction s1 as [|a s1 IH]; intros s2 H.
  - exists s2; reflexivity.
  - destruct s2 as [|b s2]; [discriminate H|]. simpl in H.
    destruct (Ascii.ascii_dec a b) as [<-|]; [|discriminate H].
    destruct (IH s2 H) as [t ->]. exists t; reflexivity.
Qed.

Lemma split_space_aux_cons t c : exists x l, split_space_aux t c = x :: l.
Proof.
  revert c; induction t as [|a t IH]; intros c; simpl.
  - eauto.
  - destruct (Ascii.eqb a " "%char); eauto.
Qed.

Lemma split_bearer t : split_space ("Bearer " ++ t) = "Bearer" :: split_space t.
Proof. reflexivity. Qed.

(** [get_current_user] never raises: no header, a header that does not start
    with [Bearer ], and any failure of the auth capability all give [None];
    otherwise the user the capability returns for the second word. *)
Theorem get_current_user_never_fails {RT : Runtime} r s :
  fst (get_current_user r s)
  = Ok (match hget (headers r) "Authorization" with
        | Some h =>
            if String.prefix "Bearer " h
            then match rt_get_user (bearer_token h) with Ok u => u | Raise _ => None end
            else None
        | None => None
        end).
Proof.
  unfold get_current_user. destruct (hget (headers r) "Authorization") as [h|]; [|reflexivity].
  destruct (String.prefix "Bearer " h) eqn:Hp.
  - destruct (prefix_app _ _ Hp) as [t ->]. replace (String.eqb ("Bearer " ++ t) "") with false by reflexivity. cbn [orb negb].
    unfold bearer_token. rewrite split_bearer. unfold split_space.
    destruct (split_space_aux_cons t "") as [x [l E]]. rewrite E. cbn [nth].
    unfold try_except, auth_get_user, bind, record. simpl.
    destruct (rt_get_user x); reflexivity.
  - rewrite orb_true_r. reflexivity.
Qed.

(** [GET /categories] is public: the answer does not depend on the request
    (no authorisation is consulted). When the categories query returns rows
    it answers Codes.SUCCESS with them; when the query raises an
    [Exception] whose message rich prints without error it answers
    Codes.SUCCESS with an empty list; when it raises a BaseException, or the
    printed message has an unmatched closing tag, the handler raises. *)
Theorem get_categories_public {RT : Runtime} r r' s :
  let q := OSelect "event_categories" "*" [] (Some ("name", false)) None in
  get_categories r s = get_categories r' s
  /\ (forall cats d', rt_exec q (st_db s) = (Ok cats, d') ->
        fst (get_categories r s) = Ok (JObj [("categories", JList (map JObj cats))], StCode SUCCESS))
  /\ (forall e d', rt_exec q (st_db s) = (Raise e, d') -> is_exception e = true ->
        rt_print ("Error getting categories: " ++ exn_str e) = Ok tt ->
        fst (get_categories r s) = Ok (JObj [("categories", JList [])], StCode SUCCESS))
  /\ (forall e d', rt_exec q (st_db s) = (Raise e, d') ->
        is_exception e = false \/ (exists e', rt_print ("Error getting categories: " ++ exn_str e) = Raise e') ->
        exists e'', fst (get_categories r s) = Raise e'').
Proof.
  cbv zeta. split; [reflexivity|]. unfold get_categories, EventCategory.get_all.
  set (q := OSelect "event_categories" "*" [] (Some ("name", false)) None).
  set (s0 := mkSt (st_db s) (st_now s) (EvCall "EventCategory.get_all" :: st_trace s)).
  split; [|split].
  - intros cats d' Hq.
    assert (Hb : execute q s0 = (Ok cats, mkSt d' (st_now s) (EvExec q :: st_trace s0)))
      by (unfold execute; simpl; rewrite Hq; reflexivity).
    rewrite (bind_ok _ _ _ _ _ (accessor_ok _ _ _ _ s _ _ Hb)). reflexivity.
  - intros e d' Hq He Hp.
    assert (Hb : execute q s0 = (Raise e, mkSt d' (st_now s) (EvExec q :: st_trace s0)))
      by (unfold execute; simpl; rewrite Hq; reflexivity).
    rewrite (bind_ok _ _ _ _ _ (accessor_on_raise _ _ _ _ s _ _ Hb He Hp)). reflexivity.
  - intros e d' Hq Hc.
    assert (Hb : execute q s0 = (Raise e, mkSt d' (st_now s) (EvExec q :: st_trace s0)))
      by (unfold execute; simpl; rewrite Hq; reflexivity).
    destruct (accessor_raises _ _ ([] : list dict) _ s _ _ Hb Hc) as [e'' He].
    exists e''. exact (bind_raise _ _ _ _ He).
Qed.

Lemma insert_row_in c desc x y l : In y (insert_row c desc x l) <-> y = x \/ In y l.
Proof.
  induction l as [|z l IH]; simpl; [intuition congruence|].
  match goal with |- context [if ?b then _ else _] => destruct b end;
    simpl; [intuition congruence|]. rewrite IH. intuition congruence.
Qed.

Lemma sort_rows_in c desc l y : In y (sort_rows c desc l) -> In y l.
Proof.
  unfold sort_rows.
  assert (H : forall acc, In y (fold_left (fun acc x => insert_row c desc x acc) l acc) ->
                          In y acc \/ In y l).
  { induction l as [|x l IH]; intros acc Hin; simpl in *; [auto|].
    destruct (IH _ Hin) as [H|H]; [|auto].
    apply insert_row_in in H. intuition subst; auto. }
  intros Hin. destruct (H [] Hin) as [[]|Hl]. exact Hl.
Qed.

Lemma in_firstn {A} n (l : list A) x : In x (firstn n l) -> In x l.
Proof. intros H. rewrite <- (firstn_skipn n l). apply in_or_app. left. exact H. Qed.

Lemma in_skipn {A} n (l : list A) x : In x (skipn n l) -> In x l.
Proof. intros H. rewrite <- (firstn_skipn n l). apply in_or_app. right. exact H. Qed.

Lemma filter_id_eq c v r :
  row_matches [FEq c (JStr v)] r = true -> dget r c = Some (JStr v).
Proof.
  unfold row_matches, filter_ok. simpl. rewrite andb_true_r.
  destruct (dget r c) as [[]|]; simpl; try discriminate.
  intros H. apply String.eqb_eq in H. subst. reflexivity.
Qed.

Lemma jcmp_antisym a b : jcmp a b = CompOpp (jcmp b a).
Proof.
  destruct a as [[]|], b as [[]|]; try reflexivity; simpl.
  - apply Z.compare_antisym.
  - apply String.compare_antisym.
Qed.

Lemma cmp_ok_after (desc : bool) (x y : option jval) :
  (if desc then match jcmp x y with Gt => true | _ => false end
   else match jcmp x y with Lt => true | _ => false end) = false ->
  cmp_ok desc y x = true.
Proof.
  unfold cmp_ok. rewrite (jcmp_antisym y x).
  destruct desc, (jcmp x y); simpl; congruence.
Qed.

Lemma cmp_ok_before (desc : bool) (x y : option jval) :
  (if desc then match jcmp x y with Gt => true | _ => false end
   else match jcmp x y with Lt => true | _ => false end) = true ->
  cmp_ok desc x y = true.
Proof. unfold cmp_ok. destruct desc, (jcmp x y); simpl; congruence. Qed.

Lemma insert_row_ordered_cons c desc x y l :
  cmp_ok desc (dget y c) (dget x c) = true ->
  ordered_by c desc (y :: l) = true ->
  ordered_by c desc (y :: insert_row c desc x l) = true.
Proof.
  revert y. induction l as [|z zs IH]; intros y Hyx Hl; simpl.
  - rewrite Hyx. reflexivity.
  - cbn [ordered_by] in Hl. apply andb_prop in Hl as [Hyz Hl].
    destruct (if desc then match jcmp (dget x c) (dget z c) with Gt => true | _ => false end
              else match jcmp (dget x c) (dget z c) with Lt => true | _ => false end) eqn:B.
    + cbn [ordered_by]. rewrite Hyx, (cmp_ok_before _ _ _ B), Hl. reflexivity.
    + cbn [ordered_by] in *. rewrite Hyz. cbn [andb].
      apply IH; [apply cmp_ok_after; exact B | exact Hl].
Qed.

Lemma insert_row_ordered c desc x l :
  ordered_by c desc l = true -> ordered_by c desc (insert_row c desc x l) = true.
Proof.
  destruct l as [|y ys]; intros Hl; simpl; [reflexivity|].
  destruct (if desc then match jcmp (dget x c) (dget y c) with Gt => true | _ => false end
            else match jcmp (dget x c) (dget y c) with Lt => true | _ => false end) eqn:B.
  - cbn [ordered_by]. rewrite (cmp_ok_before _ _ _ B). exact Hl.
  - apply insert_row_ordered_cons; [apply cmp_ok_after; exact B | exact Hl].
Qed.

Lemma sort_rows_ordered c desc rows : ordered_by c desc (sort_rows c desc rows) = true.
Proof.
  unfold sort_rows. assert (H : ordered_by c desc [] = true) by reflexivity.
  revert H. generalize (@nil dict) as acc.
  induction rows as [|x xs IH]; intros acc H; simpl; [exact H|].
  apply IH. apply insert_row_ordered. exact H.
Qed.

Lemma ordered_skipn c desc k l :
  ordered_by c desc l = true -> ordered_by c desc (skipn k l) = true.
Proof.
  revert l. induction k as [|k IH]; intros l H; [exact H|].
  destruct l as [|x l]; [reflexivity|]. simpl. apply IH.
  destruct l as [|y l]; [reflexivity|]. cbn [ordered_by] in H.
  apply andb_prop in H as [_ H]. exact H.
Qed.

Lemma ordered_firstn c desc k l :
  ordered_by c desc l = true -> ordered_by c desc (firstn k l) = true.
Proof.
  revert k. induction l as [|x l IH]; intros k H; [destruct k; reflexivity|].
  destruct k as [|k]; [reflexivity|]. cbn [firstn].
  destruct l as [|y l]; [destruct k; reflexivity|].
  cbn [ordered_by] in H. apply andb_prop in H as [Hxy H].
  destruct k as [|k]; [reflexivity|]. cbn [firstn] in *.
  specialize (IH (S k) H). cbn [firstn] in IH.
  cbn [ordered_by]. rewrite Hxy. exact IH.
Qed.

Lemma string_compare_lt_trans a : forall b c,
  String.compare a b = Lt -> String.compare b c = Lt -> String.compare a c = Lt.
Proof.
  induction a as [|x a IH]; intros [|y b] [|z c]; simpl; try discriminate; try reflexivity.
  unfold Ascii.compare.
  destruct (N.compare_spec (N_of_ascii x) (N_of_ascii y)) as [Hxy|Hxy|Hxy];
  destruct (N.compare_spec (N_of_ascii y) (N_of_ascii z)) as [Hyz|Hyz|Hyz];
  destruct (N.compare_spec (N_of_ascii x) (N_of_ascii z)) as [Hxz|Hxz|Hxz];
  intros H1 H2; try discriminate; try reflexivity; try lia.
  apply (IH b c H1 H2).
Qed.

Lemma string_compare_ge_trans a b c :
  String.compare a b <> Lt -> String.compare b c <> Lt -> String.compare a c <> Lt.
Proof.
  intros H1 H2.
  destruct (String.compare a b) eqn:E1; [apply String.compare_eq_iff in E1; subst; exact H2 | congruence |].
  destruct (String.compare b c) eqn:E2; [apply String.compare_eq_iff in E2; subst; rewrite E1; discriminate | congruence |].
  rewrite String.compare_antisym in E1, E2.
  destruct (String.compare b a) eqn:F1; try discriminate.
  destruct (String.compare c b) eqn:F2; try discriminate.
  rewrite String.compare_antisym, (string_compare_lt_trans c b a F2 F1). discriminate.
Qed.

Lemma string_compare_le_trans a b c :
  String.compare a b <> Gt -> String.compare b c <> Gt -> String.compare a c <> Gt.
Proof.
  intros H1 H2 H3.
  rewrite String.compare_antisym in H1, H2, H3.
  apply (string_compare_ge_trans c b a).
  - destruct (String.compare c b); simpl in *; congruence.
  - destruct (String.compare b a); simpl in *; congruence.
  - destruct (String.compare c a); simpl in *; congruence.
Qed.

Lemma str_key_le_trans desc c x y z :
  str_key_le desc c x y -> str_key_le desc c y z -> str_key_le desc c x z.
Proof.
  unfold str_key_le.
  destruct (dget x c) as [[| | |a| |]|]; try contradiction;
  destruct (dget y c) as [[| | |b| |]|]; try contradiction;
  destruct (dget z c) as [[| | |d| |]|]; try contradiction.
  destruct desc; [apply string_compare_ge_trans | apply string_compare_le_trans].
Qed.

(** On rows that all hold a string in column [c], [ordered_by] (a check of
    neighbours) gives the order of every pair. *)
Lemma ordered_strongly c desc rows :
  (forall x, In x rows -> exists v, dget x c = Some (JStr v)) ->
  ordered_by c desc rows = true -> StronglySorted (str_key_le desc c) rows.
Proof.
  induction rows as [|x rows IH]; intros Hs Ho; [constructor|].
  assert (IH' : StronglySorted (str_key_le desc c) rows).
  { apply IH; [intros y Hy; apply Hs; right; exact Hy|].
    destruct rows as [|y rows]; [reflexivity|].
    cbn [ordered_by] in Ho. apply andb_prop in Ho as [_ Ho]. exact Ho. }
  constructor; [exact IH'|].
  destruct rows as [|y rows]; [constructor|].
  cbn [ordered_by] in Ho. apply andb_prop in Ho as [Hxy _].
  assert (Rxy : str_key_le desc c x y).
  { destruct (Hs x (or_introl eq_refl)) as [a Ha].
    destruct (Hs y (or_intror (or_introl eq_refl))) as [b Hb].
    unfold str_key_le, cmp_ok, jcmp in *. rewrite Ha, Hb in *.
    destruct desc, (String.compare a b); congruence. }
  constructor; [exact Rxy|].
  apply StronglySorted_inv in IH' as [_ Hf].
  apply Forall_forall. intros z Hz.
  apply (str_key_le_trans _ _ _ y); [exact Rxy|].
  rewrite Forall_forall in Hf. apply Hf, Hz.
Qed.

Lemma sorted_map_key desc c (f : dict -> dict) l :
  (forall x, In x l -> dget (f x) c = dget x c) ->
  StronglySorted (str_key_le desc c) l -> StronglySorted (str_key_le desc c) (map f l).
Proof.
  induction l as [|x l IH]; intros Hf Hs; simpl; [constructor|].
  apply StronglySorted_inv in Hs as [Hs Hx]. constructor.
  - apply IH; [intros y Hy; apply Hf; right; exact Hy | exact Hs].
  - rewrite Forall_forall in *. intros y Hy. apply in_map_iff in Hy as [z [<- Hz]].
    unfold str_key_le in *. rewrite (Hf x (or_introl eq_refl)), (Hf z (or_intror Hz)).
    apply Hx, Hz.
Qed.

Lemma dget_app_some (r l : dict) k v : dget r k = Some v -> dget (app r l) k = Some v.
Proof.
  induction r as [|[k' w] r IH]; simpl; [discriminate|].
  destruct (String.eqb k k'); [auto | exact IH].
Qed.

(** [GET /] answers an authenticated user with one page of their own plans,
    newest event first: [limit] plans at most (default 50) from position
    [offset] (default 0), each with its category's name and icon embedded;
    [count] is the number returned and the store is not changed. When every
    stored plan has a text [event_date], no plan on the page comes before
    one with a later [event_date]. *)
Theorem get_plans_own_page au iso r tok u ts n now tr :
  hget (headers r) "Authorization" = Some ("Bearer " ++ tok) ->
  split_space tok = [tok] ->
  au tok = Ok (Some u) ->
  0 <= arg_or r "limit" 50 ->
  0 <= arg_or r "offset" 0 ->
  exists plans s',
    get_plans (RT := mem_runtime au iso) r (mkSt (mkDB ts n) now tr)
    = (Ok (JObj [("plans", JList (map JObj plans));
                 ("count", JInt (Z.of_nat (length plans)));
                 ("limit", JInt (arg_or r "limit" 50));
                 ("offset", JInt (arg_or r "offset" 0))], StCode SUCCESS), s')
    /\ st_db s' = mkDB ts n
    /\ plans = map (select_cols ts "*, event_categories(name, icon)")
                 (firstn (Z.to_nat (arg_or r "limit" 50))
                    (skipn (Z.to_nat (arg_or r "offset" 0))
                       (sort_rows "event_date" true
                          (filter (row_matches [FEq "user_id" (JStr (uid u))]) (table ts "plans")))))
    /\ (length plans <= Z.to_nat (arg_or r "limit" 50))%nat
    /\ (forall p, In p plans -> dget p "user_id" = Some (JStr (uid u)))
    /\ ((forall p, In p (table ts "plans") -> exists v, dget p "event_date" = Some (JStr v)) ->
        StronglySorted (str_key_le true "event_date") plans).
Proof.
  intros Hh Ht Hu HL HO. unfold get_plans.
  rewrite (authenticated_ok _ _ u _ _
             (get_current_user_bearer (RT := mem_runtime au iso) r tok u _ Hh Ht Hu)).
  cbv zeta. fold (arg_or r "limit" 50). fold (arg_or r "offset" 0).
  set (L := arg_or r "limit" 50) in *. set (O := arg_or r "offset" 0) in *.
  set (rows := sort_rows "event_date" true
                 (filter (row_matches [FEq "user_id" (JStr (uid u))]) (table ts "plans"))).
  set (page := firstn (Z.to_nat L) (skipn (Z.to_nat O) rows)).
  assert (Hpage : forall p, In p page -> In p (table ts "plans")
                                    /\ dget p "user_id" = Some (JStr (uid u))).
  { intros p Hp. apply in_firstn, in_skipn, sort_rows_in in Hp.
    apply filter_In in Hp as [Hin Hp]. split; [exact Hin|]. apply filter_id_eq. exact Hp. }
  exists (map (select_cols ts "*, event_categories(name, icon)") page). eexists.
  split; [|split; [|split; [reflexivity|split; [|split]]]].
  - unfold Plan.get_user_plans, accessor, entry, try_except, bind, record, execute, ret.
    cbn -[firstn skipn sort_rows filter select_cols].
    replace (O + L - 1 - O + 1) with L by lia. reflexivity.
  - reflexivity.
  - rewrite length_map. apply firstn_le_length.
  - intros p Hp. apply in_map_iff in Hp as [q [<- Hq]]. cbn.
    apply dget_app_some. apply (Hpage q Hq).
  - intros Hd. apply sorted_map_key.
    + intros x Hx. destruct (Hd x (proj1 (Hpage x Hx))) as [v Hv]. cbn.
      rewrite Hv. apply dget_app_some. exact Hv.
    + apply ordered_strongly.
      * intros x Hx. apply Hd, (Hpage x Hx).
      * apply ordered_firstn, ordered_skipn, sort_rows_ordered.
Qed.

(** Induction on JSON values, through the lists and dictionaries they hold. *)
Section JvalInd.
Variable P : jval -> Prop.
Hypothesis P_null : P JNull.
Hypothesis P_bool : forall b, P (JBool b).
Hypothesis P_int : forall z, P (JInt z).
Hypothesis P_str : forall s, P (JStr s).
Hypothesis P_list : forall l, Forall P l -> P (JList l).
Hypothesis P_obj : forall d, Forall (fun kv => P (snd kv)) d -> P (JObj d).

Fixpoint jval_ind' (v : jval) : P v :=
  match v with
  | JNull => P_null
  | JBool b => P_bool b
  | JInt z => P_int z
  | JStr s => P_str s
  | JList l =>
      P_list l ((fix go (l : list jval) : Forall P l :=
                   match l with
                   | [] => Forall_nil _
                   | x :: l' => Forall_cons _ (jval_ind' x) (go l')
                   end) l)
  | JObj d =>
      P_obj d ((fix go (d : list (string * jval)) : Forall (fun kv => P (snd kv)) d :=
                  match d with
                  | [] => Forall_nil _
                  | kv :: d' => Forall_cons _ (jval_ind' (snd kv)) (go d')
                  end) d)
  end.
End JvalInd.

Lemma jeqb_true a b : jeqb a b = true -> a = b.
Proof.
  revert b. induction a as [| b0 | z | s0 | l IH | d IH] using jval_ind';
    intros [| b' | z' | s' | l' | d'] H; simpl in H; try discriminate H.
  - reflexivity.
  - apply Bool.eqb_prop in H. subst. reflexivity.
  - apply Z.eqb_eq in H. subst. reflexivity.
  - apply String.eqb_eq in H. subst. reflexivity.
  - f_equal. revert l' H. induction IH as [|x l Hx Hl IHl]; intros [|y l'] H;
      try discriminate H; [reflexivity|].
    apply andb_prop in H as [H1 H2]. f_equal; [apply Hx, H1 | apply IHl, H2].
  - f_equal. revert d' H. induction IH as [|[k x] d Hx Hd IHd]; intros [|[k' y] d'] H;
      try discriminate H; [reflexivity|].
    apply andb_prop in H as [H H3]. apply andb_prop in H as [H1 H2].
    apply String.eqb_eq in H1. subst k'. simpl in Hx.
    f_equal; [f_equal; apply Hx, H2 | apply IHd, H3].
Qed.

Lemma jeqb_refl a : jeqb a a = true.
Proof.
  induction a as [| b0 | z | s0 | l IH | d IH] using jval_ind'; simpl.
  - reflexivity.
  - apply Bool.eqb_reflx.
  - apply Z.eqb_refl.
  - apply String.eqb_refl.
  - induction IH as [|x l Hx Hl IHl]; [reflexivity|]. rewrite Hx. exact IHl.
  - induction IH as [|[k x] d Hx Hd IHd]; [reflexivity|].
    simpl in Hx. rewrite String.eqb_refl, Hx. exact IHd.
Qed.

Lemma jeqb_eq a b : jeqb a b = true <-> a = b.
Proof. split; [apply jeqb_true | intros ->; apply jeqb_refl]. Qed.

Lemma mapM_pure {A B} (f : A -> M B) (g : A -> B) l s :
  (forall x, In x l -> f x s = (Ok (g x), s)) -> mapM f l s = (Ok (map g l), s).
Proof.
  induction l as [|x l IH]; intros H; [reflexivity|]. simpl.
  rewrite (bind_ok _ _ s (g x) s (H x (or_introl eq_refl))).
  rewrite (bind_ok _ _ s (map g l) s (IH (fun y Hy => H y (or_intror Hy)))).
  reflexivity.
Qed.

Lemma foldM_pure {A B} (f : B -> A -> M B) (g : B -> A -> B) l acc s :
  (forall a x, In x l -> f a x s = (Ok (g a x), s)) -> foldM f acc l s = (Ok (fold_left g l acc), s).
Proof.
  revert acc. induction l as [|x l IH]; intros acc H; [reflexivity|]. simpl.
  rewrite (bind_ok _ _ s (g acc x) s (H acc x (or_introl eq_refl))).
  apply IH. intros a y Hy. apply H. right. exact Hy.
Qed.

Lemma group_get_add m k p k2 :
  group_get (group_add m k p) k2 = if jeqb k k2 then app (group_get m k2) [p] else group_get m k2.
Proof.
  induction m as [|[k' ps] m IH]; simpl; [destruct (jeqb k k2); reflexivity|].
  destruct (jeqb k' k) eqn:E1.
  - apply jeqb_true in E1. subst k'. simpl. destruct (jeqb k k2); reflexivity.
  - simpl. rewrite IH. destruct (jeqb k' k2) eqn:E2, (jeqb k k2) eqn:E3; try reflexivity.
    apply jeqb_true in E2. apply jeqb_true in E3. subst. rewrite jeqb_refl in E1. discriminate E1.
Qed.

Lemma group_get_fold phones m k :
  group_get (fold_left (fun m ph => group_add m (kw ph "guest_id" JNull) ph) phones m) k
  = app (group_get m k) (filter (fun ph => jeqb (kw ph "guest_id" JNull) k) phones).
Proof.
  revert m. induction phones as [|ph phones IH]; intros m; simpl.
  - rewrite app_nil_r. reflexivity.
  - rewrite IH, group_get_add. destruct (jeqb _ k); [|reflexivity].
    rewrite <- app_assoc. reflexivity.
Qed.

Lemma filter_in_eq ids x phones :
  In x ids ->
  filter (fun ph => jeqb (kw ph "guest_id" JNull) x)
         (filter (row_matches [FIn "guest_id" ids]) phones)
  = filter (row_matches [FEq "guest_id" x]) phones.
Proof.
  intros Hx.
  assert (Hrow : forall ph, row_matches [FIn "guest_id" ids] ph = true ->
                 jeqb (kw ph "guest_id" JNull) x = row_matches [FEq "guest_id" x] ph).
  { intros ph. unfold row_matches, filter_ok, kw. simpl.
    destruct (dget ph "guest_id") as [y|]; [rewrite !andb_true_r; reflexivity | discriminate]. }
  assert (Hout : forall ph, row_matches [FIn "guest_id" ids] ph = false ->
                 row_matches [FEq "guest_id" x] ph = false).
  { intros ph. unfold row_matches, filter_ok. simpl.
    destruct (dget ph "guest_id") as [y|]; [|reflexivity].
    rewrite !andb_true_r. intros Hf. destruct (jeqb y x) eqn:E; [|reflexivity].
    apply jeqb_true in E. subst y. exfalso.
    assert (existsb (jeqb x) ids = true) as Ht
      by (apply existsb_exists; exists x; split; [exact Hx | apply jeqb_refl]).
    congruence. }
  induction phones as [|ph phones IH]; [reflexivity|]. cbn [filter].
  destruct (row_matches [FIn "guest_id" ids] ph) eqn:E1.
  - cbn [filter]. rewrite (Hrow ph E1), IH. reflexivity.
  - rewrite (Hout ph E1). exact IH.
Qed.

Lemma fin_has_key ids ph :
  row_matches [FIn "guest_id" ids] ph = true -> dget ph "guest_id" <> None.
Proof. unfold row_matches, filter_ok. simpl. destruct (dget ph "guest_id"); discriminate. Qed.

Lemma execute_select_cols_mem au iso tbl cols fs s :
  execute (RT := mem_runtime au iso) (OSelect tbl cols fs None None) s
  = (Ok (select_rows (tables (st_db s)) cols (filter (row_matches fs) (table (tables (st_db s)) tbl))),
     mkSt (st_db s) (st_now s) (EvExec (OSelect tbl cols fs None None) :: st_trace s)).
Proof. reflexivity. Qed.

Lemma execute_select_mem au iso tbl fs s :
  execute (RT := mem_runtime au iso) (OSelect tbl "*" fs None None) s
  = (Ok (filter (row_matches fs) (table (tables (st_db s)) tbl)),
     mkSt (st_db s) (st_now s) (EvExec (OSelect tbl "*" fs None None) :: st_trace s)).
Proof. reflexivity. Qed.

(** [Guest.get_plan_guests] returns the plan's guests in table order, each
    with [phone_numbers] set to exactly the phones stored under its id, in
    table order; it changes nothing in the store. (Every guest row of the plan
    carries an id, as the store assigns one.) *)
Lemma get_plan_guests_mem au iso P ts n now tr :
  (forall g, In g (guests_of ts P) -> dget g "id" <> None) ->
  exists s', Guest.get_plan_guests (RT := mem_runtime au iso) P (mkSt (mkDB ts n) now tr)
    = (Ok (map (fun g => dset g "phone_numbers" (JList (map JObj (phones_of ts (kw g "id" JNull)))))
               (guests_of ts P)), s')
    /\ st_db s' = mkDB ts n.
Proof.
  intros Hid. unfold Guest.get_plan_guests, accessor, entry, try_except.
  unfold bind at 1. unfold record at 1. cbn [st_db st_now st_trace].
  rewrite (bind_ok _ _ _ _ _ (execute_select_mem au iso _ _ _)). cbn [st_db st_now st_trace tables].
  fold (guests_of ts P).
  remember (guests_of ts P) as G eqn:HG. clear HG.
  match goal with |- context [bind (mapM ?f G) _ ?st] =>
    assert (Hmap : mapM f G st = (Ok (map (fun g => kw g "id" JNull) G), st))
  end.
  { apply mapM_pure. intros g Hg. unfold subscript, kw.
    destruct (dget g "id") eqn:E; [reflexivity | exfalso; exact (Hid g Hg E)]. }
  rewrite (bind_ok _ _ _ _ _ Hmap). clear Hmap.
  destruct (map (fun g => kw g "id" JNull) G) as [|id0 ids'] eqn:HM.
  { apply map_eq_nil in HM. subst G. eexists; split; reflexivity. }
  set (ids := id0 :: ids') in *.
  rewrite (bind_ok _ _ _ _ _ (execute_select_mem au iso _ _ _)). cbn [st_db st_now st_trace tables].
  set (phs := filter (row_matches [FIn "guest_id" ids]) (table ts "guest_phones")).
  match goal with |- context [bind (foldM ?f [] phs) _ ?st] =>
    assert (Hfold : foldM f [] phs st
                    = (Ok (fold_left (fun m ph => group_add m (kw ph "guest_id" JNull) ph) phs []), st))
  end.
  { apply foldM_pure. intros m ph Hph. unfold phs in Hph. apply filter_In in Hph as [_ Hph].
    apply fin_has_key in Hph. unfold subscript, kw.
    destruct (dget ph "guest_id"); [reflexivity | contradiction]. }
  rewrite (bind_ok _ _ _ _ _ Hfold). clear Hfold.
  match goal with |- context [mapM ?f G ?st] =>
    assert (Hlast : mapM f G st
                    = (Ok (map (fun g => dset g "phone_numbers"
                                   (JList (map JObj (phones_of ts (kw g "id" JNull))))) G), st));
    [apply mapM_pure | rewrite Hlast; eexists; split; reflexivity]
  end.
  intros g Hg. unfold subscript.
    destruct (dget g "id") as [v|] eqn:E; [|exfalso; exact (Hid g Hg E)].
    unfold bind, ret. rewrite group_get_fold. cbn [group_get app].
    unfold phs. rewrite filter_in_eq; [unfold kw; rewrite E; reflexivity|].
    replace v with (kw g "id" JNull) by (unfold kw; rewrite E; reflexivity).
    rewrite <- HM. apply (in_map (fun g => kw g "id" JNull) G g Hg).
Qed.

Lemma rsvp_count_fold guests a b c d s :
  forallb rsvp_scalar guests = true ->
  foldM rsvp_count [("pending", JInt a); ("confirmed", JInt b);
                    ("declined", JInt c); ("maybe", JInt d)] guests s
  = (Ok [("pending", JInt (a + rsvp_tally guests "pending"));
         ("confirmed", JInt (b + rsvp_tally guests "confirmed"));
         ("declined", JInt (c + rsvp_tally guests "declined"));
         ("maybe", JInt (d + rsvp_tally guests "maybe"))], s).
Proof.
  revert a b c d. induction guests as [|g gs IH]; intros a b c d Hs.
  - simpl. rewrite !Z.add_0_r. reflexivity.
  - cbn [forallb] in Hs. apply andb_prop in Hs as [Hg Hs].
    cbn [foldM rsvp_tally]. unfold rsvp_scalar in Hg. unfold rsvp_count at 1.
    destruct (kw g "rsvp_status" (JStr "pending")) as [| | |st| |] eqn:Hk;
      try discriminate;
      try (cbn [is_str]; unfold bind, ret at 1; rewrite IH by exact Hs;
           rewrite !Z.add_0_l; reflexivity).
    cbn [is_str].
    destruct (String.eqb st "pending") eqn:E1;
      [apply String.eqb_eq in E1; subst st; cbn; rewrite IH by exact Hs;
       rewrite <- Z.add_assoc; reflexivity|].
    destruct (String.eqb st "confirmed") eqn:E2;
      [apply String.eqb_eq in E2; subst st; cbn; rewrite IH by exact Hs;
       rewrite <- Z.add_assoc; reflexivity|].
    destruct (String.eqb st "declined") eqn:E3;
      [apply String.eqb_eq in E3; subst st; cbn; rewrite IH by exact Hs;
       rewrite <- Z.add_assoc; reflexivity|].
    destruct (String.eqb st "maybe") eqn:E4;
      [apply String.eqb_eq in E4; subst st; cbn; rewrite IH by exact Hs;
       rewrite <- Z.add_assoc; reflexivity|].
    cbn [dget]. rewrite E1, E2, E3, E4. unfold bind, ret at 1. rewrite IH by exact Hs.
    rewrite !Z.add_0_l. reflexivity.
Qed.

Lemma kw_with_phones ts g k d :
  String.eqb k "phone_numbers" = false -> kw (with_phones ts g) k d = kw g k d.
Proof. intros Hk. unfold kw, with_phones. rewrite dget_dset_neq by exact Hk. reflexivity. Qed.

Lemma rsvp_tally_with_phones ts gs k :
  rsvp_tally (map (with_phones ts) gs) k = rsvp_tally gs k.
Proof.
  induction gs as [|g gs IH]; simpl; [reflexivity|].
  rewrite kw_with_phones by reflexivity. rewrite IH. reflexivity.
Qed.

Lemma rsvp_scalar_with_phones ts gs :
  forallb rsvp_scalar (map (with_phones ts) gs) = forallb rsvp_scalar gs.
Proof.
  induction gs as [|g gs IH]; simpl; [reflexivity|].
  unfold rsvp_scalar at 1. rewrite kw_with_phones by reflexivity. rewrite IH. reflexivity.
Qed.

Lemma has_ids_in gs :
  forallb (fun g => match dget g "id" with Some _ => true | None => false end) gs = true ->
  forall g, In g gs -> dget g "id" <> None.
Proof.
  intros H g Hg. rewrite forallb_forall in H. specialize (H g Hg).
  destruct (dget g "id"); [discriminate | discriminate H].
Qed.

Section OwnerRoutes.
Variables (au : string -> res (option user)) (iso : string -> option Z).
Variables (r : request) (tok : string) (u : user) (P : string).
Variables (ts : list (string * list dict)) (n : nat) (now : Z) (tr : list event).
Variables (p : dict) (ps : list dict).
Hypothesis H_header : hget (headers r) "Authorization" = Some ("Bearer " ++ tok).
Hypothesis H_token : split_space tok = [tok].
Hypothesis H_user : au tok = Ok (Some u).
Hypothesis H_plan : filter (row_matches [FEq "id" (JStr P)]) (table ts "plans") = p :: ps.
Hypothesis H_plan_truthy : row_truthy p = true.
Hypothesis H_owner : dget p "user_id" = Some (JStr (uid u)).

Let RT := mem_runtime au iso.
Let s0 := mkSt (mkDB ts n) now tr.

Let enter k := enter_owned au iso r tok u P ts n now tr p ps
                 H_header H_token H_user H_plan H_plan_truthy H_owner k.

(** [get_guests] answers the plan's owner with the plan's guests, each with
    its phones attached, their number, and for each of the four RSVP statuses
    the number of guests whose [rsvp_status] (default [pending]) is that
    status; statuses outside the four are not counted anywhere. It changes
    nothing in the store. This holds when every guest row has an id and no
    status is a list or an object. *)
Theorem get_guests_report :
  forallb (fun g => match dget g "id" with Some _ => rsvp_scalar g | None => false end)
          (guests_of ts P) = true ->
  exists s',
    get_guests (RT := RT) r P s0
    = (Ok (JObj [("guests", JList (map JObj (map (with_phones ts) (guests_of ts P))));
                 ("count", JInt (Z.of_nat (length (guests_of ts P))));
                 ("rsvp_stats", JObj [("pending", JInt (rsvp_tally (guests_of ts P) "pending"));
                                      ("confirmed", JInt (rsvp_tally (guests_of ts P) "confirmed"));
                                      ("declined", JInt (rsvp_tally (guests_of ts P) "declined"));
                                      ("maybe", JInt (rsvp_tally (guests_of ts P) "maybe"))])],
           StCode SUCCESS), s')
    /\ st_db s' = mkDB ts n.
Proof.
  intros Hg.
  assert (Hid : forall g, In g (guests_of ts P) -> dget g "id" <> None).
  { apply has_ids_in. rewrite forallb_forall in *. intros g Hin. specialize (Hg g Hin).
    destruct (dget g "id"); [reflexivity | discriminate]. }
  assert (Hsc : forallb rsvp_scalar (guests_of ts P) = true).
  { rewrite forallb_forall in *. intros g Hin. specialize (Hg g Hin).
    destruct (dget g "id"); [exact Hg | discriminate]. }
  unfold get_guests. rewrite enter. cbv beta.
  destruct (get_plan_guests_mem au iso P ts n now
              (EvExec (OSelect "plans" "*" [FEq "id" (JStr P)] None None)
               :: EvCall "Plan.get_by_id" :: EvAuth tok :: tr) Hid) as [s3 [E Hdb]].
  rewrite (bind_ok _ _ _ _ _ E).
  fold (with_phones ts).
  rewrite (bind_ok _ _ _ _ _ (rsvp_count_fold _ 0 0 0 0 s3
             (eq_trans (rsvp_scalar_with_phones ts _) Hsc))).
  rewrite !rsvp_tally_with_phones, length_map. cbn [Z.add].
  exists s3. split; [reflexivity | exact Hdb].
Qed.

(** [get_plan] answers the plan's owner with the first stored row of that id,
    the plan's guests with their phones attached, and [guests_count], the
    number of those guests. It changes nothing in the store. (Every guest row
    of the plan carries an id.) *)
Theorem get_plan_owner_view :
  (forall g, In g (guests_of ts P) -> dget g "id" <> None) ->
  exists s',
    get_plan (RT := RT) r P s0
    = (Ok (JObj [("plan", JObj p);
                 ("guests", JList (map JObj (map (with_phones ts) (guests_of ts P))));
                 ("guests_count", JInt (Z.of_nat (length (guests_of ts P))))],
           StCode SUCCESS), s')
    /\ st_db s' = mkDB ts n.
Proof.
  intros Hid. unfold get_plan.
  rewrite (authenticated_ok _ _ u _ _
             (get_current_user_bearer (RT := RT) r tok u s0 H_header H_token H_user)).
  assert (Hp : Plan.get_by_id (RT := RT) P (mkSt (st_db s0) (st_now s0) (EvAuth tok :: st_trace s0))
                = (Ok (Some p), mkSt (mkDB ts n) now
                     (EvExec (OSelect "plans" "*" [FEq "id" (JStr P)] None None)
                      :: EvCall "Plan.get_by_id" :: EvAuth tok :: tr))).
  { unfold Plan.get_by_id, accessor, entry, try_except, bind, record, execute. simpl.
    rewrite H_plan. reflexivity. }
  rewrite (bind_ok _ _ _ _ _ Hp). rewrite H_plan_truthy.
  unfold subscript. rewrite H_owner. unfold bind at 1, ret at 1. cbn [is_str].
  rewrite String.eqb_refl.
  destruct (get_plan_guests_mem au iso P ts n now
              (EvExec (OSelect "plans" "*" [FEq "id" (JStr P)] None None)
               :: EvCall "Plan.get_by_id" :: EvAuth tok :: tr) Hid) as [s3 [E Hdb]].
  rewrite (bind_ok _ _ _ _ _ E). fold (with_phones ts). rewrite length_map.
  exists s3. split; [reflexivity | exact Hdb].
Qed.

(** [add_guest_phone] run by the plan's owner with a falsy JSON body
    ([null], [{}], [\[\]], [0], [false], an empty string), or an object body
    whose [phone_number] is missing or falsy, answers
    [('Phone number is required', Codes.ERROR)] and changes nothing in the
    store. *)
Theorem add_guest_phone_requires_number G :
  ((exists v, body r = Json v /\ truthy v = false)
   \/ exists d, body r = Json (JObj d) /\ truthy (kw d "phone_number" JNull) = false) ->
  exists s',
    add_guest_phone (RT := RT) r P G s0 = (Ok (err "Phone number is required", StCode ERROR), s')
    /\ st_db s' = mkDB ts n.
Proof.
  intros H. unfold add_guest_phone. rewrite enter. cbv beta zeta.
  destruct H as [[v [Hb H]] | [d [Hj Hn]]].
  - rewrite (request_json_bind _ _ _ Hb).
    rewrite H. cbn [negb]. unfold bind at 1, ret at 1. eexists; split; reflexivity.
  - rewrite (request_json_bind _ _ _ Hj). destruct d as [|kv d]; [eexists; split; reflexivity|].
    cbn [truthy negb]. unfold obj_get, obj_get_def. unfold kw in Hn.
    unfold bind, ret. cbv beta iota. rewrite Hn. cbn [negb].
    eexists; split; reflexivity.
Qed.

(** [create_task] run by the plan's owner with an object body that has a
    truthy [title] and a truthy [due_date] that is not a string, or a string
    that [datetime.fromisoformat] rejects once a trailing [Z] is rewritten,
    answers [('Invalid due_date format', Codes.ERROR)] and creates no task:
    the store is unchanged. *)
Theorem create_task_bad_due_date d :
  body r = Json (JObj d) -> d <> [] ->
  truthy (kw d "title" JNull) = true ->
  truthy (kw d "due_date" JNull) = true ->
  match kw d "due_date" JNull with JStr s => iso (replace_Z s) = None | _ => True end ->
  exists s',
    create_task (RT := RT) r P s0 = (Ok (err "Invalid due_date format", StCode ERROR), s')
    /\ st_db s' = mkDB ts n.
Proof.
  intros Hj Hd Ht Hdue Hiso. unfold create_task. rewrite enter. cbv beta zeta.
  rewrite (request_json_bind _ _ _ Hj). destruct d as [|kv d]; [contradiction|]. cbn [truthy negb].
  unfold obj_get, obj_get_def. unfold kw in Ht, Hdue, Hiso.
  unfold bind at 1, ret at 1. rewrite Ht. cbn [negb].
  unfold bind at 1, ret at 1. rewrite Hdue.
  destruct (match dget (kv :: d) "due_date" with Some x => x | None => JNull end);
    try (eexists; split; reflexivity).
  unfold RT; cbn [rt_fromisoformat mem_runtime]. rewrite Hiso.
  eexists; split; reflexivity.
Qed.

End OwnerRoutes.


Lemma insert_row_perm c desc x l : Permutation (insert_row c desc x l) (x :: l).
Proof.
  induction l as [|y l IH]; simpl; [reflexivity|].
  match goal with |- context [if ?b then _ else _] => destruct b end; [reflexivity|].
  eapply perm_trans; [apply perm_skip; exact IH | apply perm_swap].
Qed.

Lemma sort_rows_perm c desc l : Permutation (sort_rows c desc l) l.
Proof.
  unfold sort_rows. rewrite <- (app_nil_r l) at 2. generalize (@nil dict) as acc.
  induction l as [|x l IH]; intros acc; simpl; [reflexivity|].
  eapply perm_trans; [apply IH|].
  eapply perm_trans; [apply Permutation_app_head, insert_row_perm|].
  apply Permutation_sym, Permutation_middle.
Qed.

(** With a store that runs every query, [GET /categories] answers every
    caller, signed in or not, with all stored categories, each exactly as
    often as stored; the store is unchanged. When every stored category has
    a text [name], the list is in ascending [name] order: no category comes
    before one with a smaller name. *)
Theorem get_categories_sorted au iso r ts n now tr :
  exists cats s',
    get_categories (RT := mem_runtime au iso) r (mkSt (mkDB ts n) now tr)
    = (Ok (JObj [("categories", JList (map JObj cats))], StCode SUCCESS), s')
    /\ st_db s' = mkDB ts n
    /\ Permutation cats (table ts "event_categories")
    /\ ((forall c, In c (table ts "event_categories") -> exists v, dget c "name" = Some (JStr v)) ->
        StronglySorted (str_key_le false "name") cats).
Proof.
  exists (sort_rows "name" false (table ts "event_categories")). eexists.
  split; [|split; [|split]].
  - unfold get_categories, EventCategory.get_all, accessor, entry, try_except, bind,
      record, execute, ret. cbn -[sort_rows filter].
    assert (Hf : forall l, filter (row_matches []) l = l)
      by (induction l as [|x l IH]; simpl; [reflexivity | rewrite IH; reflexivity]).
    rewrite Hf. reflexivity.
  - reflexivity.
  - apply sort_rows_perm.
  - intros Hn. apply ordered_strongly; [|apply sort_rows_ordered].
    intros x Hx. apply Hn. apply (Permutation_in _ (sort_rows_perm _ _ _) Hx).
Qed.

Lemma dget_drop_none_none l k : dget l k = None -> dget (drop_none l) k = None.
Proof.
  unfold drop_none. induction l as [|[k' v] l IH]; simpl; intros H; [reflexivity|].
  destruct (String.eqb k k') eqn:E; [discriminate|].
  destruct v; simpl; try rewrite E; apply IH; exact H.
Qed.

(** With a store that runs every query, [Plan.create] appends one row to the
    plans table: the fields it is given, without the [None] ones, under an id
    the store assigns; it returns that row. *)
Lemma Plan_create_mem au iso user_id title event_date kwargs ts n now tr :
  let row := ("id", JStr (string_of_nat n)) :: drop_none
      [("user_id", JStr user_id); ("title", title);
       ("event_date", JStr (isoformat event_date));
       ("description", kw kwargs "description" JNull);
       ("location", kw kwargs "location" JNull);
       ("category_id", kw kwargs "category_id" JNull);
       ("budget", kw kwargs "budget" JNull);
       ("guest_count", kw kwargs "guest_count" (JInt 0));
       ("status", kw kwargs "status" (JStr "planned"));
       ("is_public", kw kwargs "is_public" (JBool false))] in
  exists s',
    Plan.create (RT := mem_runtime au iso) user_id title event_date kwargs
      (mkSt (mkDB ts n) now tr) = (Ok (Some row), s')
    /\ st_db s' = mkDB (set_table ts "plans" (app (table ts "plans") [row])) (S n).
Proof.
  intros row. unfold Plan.create, accessor, entry, try_except, bind, record, execute, ret.
  cbn -[drop_none set_table table string_of_nat].
  match goal with |- context [dget (drop_none ?l) "id"] =>
    rewrite (dget_drop_none_none l "id") by reflexivity end.
  eexists; split; reflexivity.
Qed.

(** [POST /] by a signed-in user with an object body that has a truthy
    [title] and a non-empty [event_date] string that [datetime.fromisoformat]
    accepts
    answers 201 with the new plan and appends exactly that row to the plans
    table. The row has a fresh store-assigned id, the caller's id as
    [user_id] whatever the body says, the body's title and the parsed date. *)
Theorem create_plan_sets_owner au iso r tok u ts n now tr d es t :
  hget (headers r) "Authorization" = Some ("Bearer " ++ tok) ->
  split_space tok = [tok] ->
  au tok = Ok (Some u) ->
  body r = Json (JObj d) -> d <> [] ->
  truthy (kw d "title" JNull) = true ->
  kw d "event_date" JNull = JStr es -> es <> "" ->
  iso (replace_Z es) = Some t ->
  exists row s',
    create_plan (RT := mem_runtime au iso) r (mkSt (mkDB ts n) now tr)
    = (Ok (JObj [("message", JStr "Plan created successfully"); ("plan", JObj row)], StInt 201), s')
    /\ st_db s' = mkDB (set_table ts "plans" (app (table ts "plans") [row])) (S n)
    /\ dget row "id" = Some (JStr (string_of_nat n))
    /\ dget row "user_id" = Some (JStr (uid u))
    /\ dget row "title" = Some (kw d "title" JNull)
    /\ dget row "event_date" = Some (JStr (isoformat t)).
Proof.
  intros Hh Htk Hu Hj Hd Ht He Hne Hiso. unfold create_plan.
  rewrite (authenticated_ok _ _ u _ _
             (get_current_user_bearer (RT := mem_runtime au iso) r tok u _ Hh Htk Hu)).
  cbv zeta. rewrite (request_json_bind _ _ _ Hj). destruct d as [|kv d]; [contradiction|]. cbn [truthy negb].
  unfold obj_get, obj_get_def. unfold kw in Ht, He |- *.
  unfold bind at 1 2 3 4 5 6 7 8 9 10, ret. cbv beta iota. rewrite Ht, He. cbn [negb orb truthy].
  apply String.eqb_neq in Hne. rewrite Hne. cbn [negb].
  cbn [rt_fromisoformat mem_runtime]. rewrite Hiso. cbv iota. cbn [st_db st_now st_trace].
  match goal with |- context [Plan.create ?a ?b ?c ?k (mkSt (mkDB ts n) now ?tr')] =>
    destruct (Plan_create_mem au iso a b c k ts n now tr') as [s' [E Hdb]] end.
  unfold bind. rewrite E. cbv beta iota.
  destruct (match dget (kv :: d) "title" with Some x => x | None => JNull end) eqn:Et;
    try discriminate Ht;
    (eexists; exists s'; split; [reflexivity|]; split; [exact Hdb|];
     split; [reflexivity|]; split; [reflexivity|]; split; reflexivity).
Qed.

(** [Guest.create] without phone numbers appends one row to the guests table:
    the fields given, without the [None] ones, [rsvp_status] defaulting to
    [pending], under a fresh id the store assigns. It returns that row as
    [Guest.get_by_id] reads it back, with [phone_numbers] set to the phones
    stored under the new id. (No older guest row carries that id.) *)
Theorem Guest_create_round_trip au iso P name kwargs ts n now tr :
  let g := ("id", JStr (string_of_nat n)) :: drop_none
      [("plan_id", JStr P); ("name", name);
       ("email", kw kwargs "email" JNull);
       ("phone", kw kwargs "phone" JNull);
       ("rsvp_status", kw kwargs "rsvp_status" (JStr "pending"));
       ("additional_notes", kw kwargs "additional_notes" JNull)] in
  truthy (kw kwargs "phone_numbers" (JList [])) = false ->
  filter (row_matches [FEq "id" (JStr (string_of_nat n))]) (table ts "guests") = [] ->
  exists s',
    Guest.create (RT := mem_runtime au iso) P name kwargs (mkSt (mkDB ts n) now tr)
    = (Ok (Some (dset g "phone_numbers"
                   (JList (map JObj (phones_of ts (JStr (string_of_nat n))))))), s')
    /\ st_db s' = mkDB (set_table ts "guests" (app (table ts "guests") [g])) (S n).
Proof.
  intros g Hph Hfresh.
  unfold Guest.create, accessor, entry, try_except, bind, record, execute, ret.
  cbn -[drop_none set_table table string_of_nat filter Guest.get_by_id Guest.add_phone_numbers kw].
  match goal with |- context [dget (drop_none ?l) "id"] =>
    rewrite (dget_drop_none_none l "id") by reflexivity end.
  cbn [row_truthy]. rewrite Hph. unfold subscript. cbn [dget String.eqb Ascii.eqb Bool.eqb].
  fold g.
  unfold Guest.get_by_id, accessor, entry, try_except, bind, record, execute, ret.
  cbn -[drop_none set_table table string_of_nat filter kw].
  rewrite table_set_table_eq, filter_app, Hfresh.
  assert (Hg : row_matches [FEq "id" (JStr (string_of_nat n))] g = true).
  { unfold row_matches, forallb, filter_ok, g. cbn [dget String.eqb Ascii.eqb Bool.eqb].
    rewrite jeqb_refl. reflexivity. }
  cbn [app filter]. rewrite Hg. cbn [first_row]. unfold g at 1. cbn [row_truthy].
  cbn [st_db tables]. rewrite table_set_table_neq by reflexivity.
  eexists; split; reflexivity.
Qed.

Lemma mapM_db {A B} (f : A -> M B) (g : A -> B) (D : DB) l :
  (forall x s, In x l -> st_db s = D -> exists s', f x s = (Ok (g x), s') /\ st_db s' = D) ->
  forall s, st_db s = D -> exists s', mapM f l s = (Ok (map g l), s') /\ st_db s' = D.
Proof.
  intros H. induction l as [|x l IH]; intros s Hs; [exists s; split; [reflexivity | exact Hs]|].
  simpl. destruct (H x s (or_introl eq_refl) Hs) as [s1 [E1 H1]].
  rewrite (bind_ok _ _ _ _ _ E1).
  destruct (IH (fun y s' Hy => H y s' (or_intror Hy)) s1 H1) as [s2 [E2 H2]].
  rewrite (bind_ok _ _ _ _ _ E2). exists s2. split; [reflexivity | exact H2].
Qed.

Lemma filter_fin_nil c rows : filter (row_matches [FIn c []]) rows = [].
Proof.
  induction rows as [|x rows IH]; [reflexivity|]. simpl.
  unfold row_matches at 1. simpl. destruct (dget x c); simpl; exact IH.
Qed.

(** [Guest.search_by_phone] returns, in guests-table order, each guest that
    has a phone row with that number, once however many such rows it has,
    with [phone_numbers] set to all its stored phones; it changes nothing in
    the store. (Every phone row with that number names a guest.) *)
Theorem search_by_phone_mem au iso N ts n now tr :
  (forall ph, In ph (filter (row_matches [FEq "phone_number" N]) (table ts "guest_phones")) ->
              dget ph "guest_id" <> None) ->
  exists s',
    Guest.search_by_phone (RT := mem_runtime au iso) N (mkSt (mkDB ts n) now tr)
    = (Ok (map (with_phones ts)
                 (filter (row_matches [FIn "id" (map (fun ph => kw ph "guest_id" JNull)
                            (filter (row_matches [FEq "phone_number" N]) (table ts "guest_phones")))])
                    (table ts "guests"))), s')
    /\ st_db s' = mkDB ts n.
Proof.
  intros Hph. unfold Guest.search_by_phone, accessor, entry, try_except.
  unfold bind at 1. unfold record at 1. cbn [st_db st_now st_trace].
  rewrite (bind_ok _ _ _ _ _ (execute_select_cols_mem au iso _ _ _ _)).
  cbn [st_db st_now st_trace tables].
  remember (filter (row_matches [FEq "phone_number" N]) (table ts "guest_phones")) as PH eqn:HPH.
  clear HPH. unfold select_rows. cbn [String.eqb Ascii.eqb Bool.eqb].
  match goal with |- context [bind (mapM ?f (map ?sel PH)) _ ?st] =>
    assert (Hmap : mapM f (map sel PH) st = (Ok (map (fun ph => kw ph "guest_id" JNull) PH), st))
  end.
  { replace (map (fun ph => kw ph "guest_id" JNull) PH)
      with (map (fun ph => kw ph "guest_id" JNull) (map (select_cols ts "guest_id") PH))
      by (rewrite map_map; reflexivity).
    apply mapM_pure. intros ph Hin. apply in_map_iff in Hin as [q [<- _]]. reflexivity. }
  rewrite (bind_ok _ _ _ _ _ Hmap). clear Hmap.
  destruct (map (fun ph => kw ph "guest_id" JNull) PH) as [|id0 ids'] eqn:HM.
  { rewrite filter_fin_nil. eexists; split; reflexivity. }
  rewrite (bind_ok _ _ _ _ _ (execute_select_mem au iso _ _ _)). cbn [st_db st_now st_trace tables].
  match goal with |- context [mapM ?f ?G ?st] =>
    destruct (mapM_db f (with_phones ts) (mkDB ts n) G) with (s := st) as [s' [E Hdb]];
    [|reflexivity|]
  end.
  - intros g s Hg Hs. apply filter_In in Hg as [_ Hg].
    unfold row_matches, forallb, filter_ok in Hg.
    unfold subscript, with_phones, kw. destruct (dget g "id") as [v|]; [|discriminate].
    unfold bind at 1, ret at 1. rewrite (bind_ok _ _ _ _ _ (execute_select_mem au iso _ _ _)).
    rewrite Hs. eexists; split; reflexivity.
  - rewrite E. eexists; split; [reflexivity | exact Hdb].
Qed.

(** With a store that runs every query, [EventTask.create_task] appends one
    row to the event_tasks table, under an id the store assigns, and returns
    it. *)
Lemma EventTask_create_mem au iso plan_id title kwargs ts n now tr :
  let row := ("id", JStr (string_of_nat n)) :: drop_none
      [("plan_id", JStr plan_id); ("title", title);
       ("description", kw kwargs "description" JNull);
       ("due_date", kw kwargs "due_date" JNull);
       ("priority", kw kwargs "priority" (JStr "medium"));
       ("assigned_to", kw kwargs "assigned_to" JNull)] in
  exists s',
    EventTask.create_task (RT := mem_runtime au iso) plan_id title kwargs
      (mkSt (mkDB ts n) now tr) = (Ok (Some row), s')
    /\ st_db s' = mkDB (set_table ts "event_tasks" (app (table ts "event_tasks") [row])) (S n).
Proof.
  intros row. unfold EventTask.create_task, accessor, entry, try_except, bind, record, execute, ret.
  cbn -[drop_none set_table table string_of_nat].
  match goal with |- context [dget (drop_none ?l) "id"] =>
    rewrite (dget_drop_none_none l "id") by reflexivity end.
  eexists; split; reflexivity.
Qed.

Lemma map_update_none (p : dict -> bool) (g : dict -> dict) l :
  filter p l = [] -> map (fun x => if p x then g x else x) l = l.
Proof.
  induction l as [|x l IH]; simpl; [reflexivity|].
  destruct (p x); [discriminate|]. intros H. rewrite (IH H). reflexivity.
Qed.

Lemma table_set_same ts name t : table (set_table ts name (table ts name)) t = table ts t.
Proof.
  destruct (String.eqb name t) eqn:E.
  - apply String.eqb_eq in E. subst t. apply table_set_table_eq.
  - apply table_set_table_neq. exact E.
Qed.

Section OwnerTasks.
Variables (au : string -> res (option user)) (iso : string -> option Z).
Variables (r : request) (tok : string) (u : user) (P : string).
Variables (ts : list (string * list dict)) (n : nat) (now : Z) (tr : list event).
Variables (p : dict) (ps : list dict).
Hypothesis H_header : hget (headers r) "Authorization" = Some ("Bearer " ++ tok).
Hypothesis H_token : split_space tok = [tok].
Hypothesis H_user : au tok = Ok (Some u).
Hypothesis H_plan : filter (row_matches [FEq "id" (JStr P)]) (table ts "plans") = p :: ps.
Hypothesis H_plan_truthy : row_truthy p = true.
Hypothesis H_owner : dget p "user_id" = Some (JStr (uid u)).

Let RT := mem_runtime au iso.
Let s0 := mkSt (mkDB ts n) now tr.

Let enter k := enter_owned au iso r tok u P ts n now tr p ps
                 H_header H_token H_user H_plan H_plan_truthy H_owner k.

(** [POST /<plan_id>/tasks] by the plan's owner with an object body that has
    a truthy [title], and either no truthy [due_date] or a non-empty
    [due_date] string that [datetime.fromisoformat] accepts once each [Z] is
    replaced by [+00:00], answers 201 with the new task and appends exactly
    that row to the event_tasks table. The row has a fresh store-assigned id,
    the plan id of the URL as [plan_id] whatever the body says, and the
    body's title. *)
Theorem create_task_stores_task d :
  body r = Json (JObj d) -> d <> [] ->
  truthy (kw d "title" JNull) = true ->
  (truthy (kw d "due_date" JNull) = false
   \/ exists es t, kw d "due_date" JNull = JStr es /\ es <> "" /\ iso (replace_Z es) = Some t) ->
  exists row s',
    create_task (RT := RT) r P s0
    = (Ok (JObj [("message", JStr "Task created successfully"); ("task", JObj row)], StInt 201), s')
    /\ st_db s' = mkDB (set_table ts "event_tasks" (app (table ts "event_tasks") [row])) (S n)
    /\ dget row "id" = Some (JStr (string_of_nat n))
    /\ dget row "plan_id" = Some (JStr P)
    /\ dget row "title" = Some (kw d "title" JNull).
Proof.
  intros Hj Hd Ht Hdue. unfold create_task. rewrite enter. unfold RT. cbv beta zeta.
  rewrite (request_json_bind _ _ _ Hj). destruct d as [|kv d]; [contradiction|]. cbn [truthy negb].
  unfold obj_get, obj_get_def. unfold kw in Ht, Hdue |- *.
  unfold bind, ret. cbv beta iota. rewrite Ht. cbn [negb].
  destruct Hdue as [Hf | [es [t [He [Hne Hiso]]]]].
  - rewrite Hf. cbv iota.
    match goal with |- context [EventTask.create_task ?a ?b ?k (mkSt (mkDB ts n) now ?tr')] =>
      destruct (EventTask_create_mem au iso a b k ts n now tr') as [s' [E Hdb]] end.
    rewrite E. cbv beta iota.
    destruct (match dget (kv :: d) "title" with Some x => x | None => JNull end) eqn:Et;
      try discriminate Ht;
      (eexists; exists s'; split; [reflexivity|]; split; [exact Hdb|];
       split; [reflexivity|]; split; reflexivity).
  - rewrite He. cbn [truthy]. apply String.eqb_neq in Hne. rewrite Hne. cbn [negb].
    cbn [rt_fromisoformat mem_runtime]. rewrite Hiso. cbv iota.
    match goal with |- context [EventTask.create_task ?a ?b ?k (mkSt (mkDB ts n) now ?tr')] =>
      destruct (EventTask_create_mem au iso a b k ts n now tr') as [s' [E Hdb]] end.
    rewrite E. cbv beta iota.
    destruct (match dget (kv :: d) "title" with Some x => x | None => JNull end) eqn:Et;
      try discriminate Ht;
      (eexists; exists s'; split; [reflexivity|]; split; [exact Hdb|];
       split; [reflexivity|]; split; reflexivity).
Qed.

(** [PUT /<plan_id>/guests/<guest_id>] by the plan's owner with a non-empty
    object body, for a guest id that no guest row has, answers
    [('Failed to update guest', 500)] and leaves every table as it was. *)
Theorem update_guest_missing G d :
  body r = Json (JObj d) -> d <> [] ->
  filter (row_matches [FEq "id" (JStr G)]) (table ts "guests") = [] ->
  exists s',
    update_guest (RT := RT) r P G s0 = (Ok (err "Failed to update guest", StInt 500), s')
    /\ (forall t, table (tables (st_db s')) t = table ts t).
Proof.
  intros Hj Hd Hf. unfold update_guest. rewrite enter. unfold RT. cbv beta zeta.
  rewrite (request_json_bind _ _ _ Hj). destruct d as [|kv d]; [contradiction|]. cbn [truthy negb].
  unfold Guest.update, accessor, entry, try_except, bind, record, execute, ret.
  cbn -[filter table set_table map]. rewrite Hf. cbn [map].
  eexists; split; [reflexivity|]. intros t. cbn [st_db tables].
  rewrite (map_update_none _ _ _ Hf). apply table_set_same.
Qed.

End OwnerTasks.

(** ** Witnesses: the properties above at concrete stores *)

(** Alice asks for the second and third of her three plans. *)
Lemma get_plans_own_page_witness :
  exists plans s',
    get_plans (RT := rt0) (mkReq [("Authorization", "Bearer tok-alice")] NoJson
                             [("limit", 2); ("offset", 1)]) st_stats
    = (Ok (JObj [("plans", JList (map JObj plans)); ("count", JInt 2);
                 ("limit", JInt 2); ("offset", JInt 1)], StCode SUCCESS), s')
    /\ plans = [app (stats_plan "s2" "2026-08-01" "completed" "alice" (JInt 2) (JInt 2))
                   [("event_categories", JObj [("name", JStr "Party"); ("icon", JStr "cake")])];
                 app (stats_plan "s1" "2026-07-01" "planned" "alice" (JInt 3) (JInt 1))
                   [("event_categories", JObj [("name", JStr "Wedding"); ("icon", JStr "ring")])]]
    /\ StronglySorted (str_key_le true "event_date") plans.
Proof.
  destruct (get_plans_own_page toy_get_user toy_fromisoformat
              (mkReq [("Authorization", "Bearer tok-alice")] NoJson [("limit", 2); ("offset", 1)])
              "tok-alice" (mkUser "alice") (tables (st_db st_stats)) 100 5 [])
    as [plans [s' [E [_ [Hp [_ [_ Hs]]]]]]];
    try reflexivity; try (unfold arg_or; simpl; lia).
  assert (Hp' : plans = [app (stats_plan "s2" "2026-08-01" "completed" "alice" (JInt 2) (JInt 2))
                   [("event_categories", JObj [("name", JStr "Party"); ("icon", JStr "cake")])];
                 app (stats_plan "s1" "2026-07-01" "planned" "alice" (JInt 3) (JInt 1))
                   [("event_categories", JObj [("name", JStr "Wedding"); ("icon", JStr "ring")])]])
    by (rewrite Hp; vm_compute; reflexivity).
  exists plans, s'. split; [rewrite Hp' in E |- *; exact E|]. split; [exact Hp'|].
  apply Hs. intros p Hin. vm_compute in Hin.
  repeat (destruct Hin as [<-|Hin]; [eexists; reflexivity|]). destruct Hin.
Defined.

(** Alice lists the guests of p1: two count as pending (g1, and g4 with no
    status), one each as confirmed, declined and maybe, and g6's
    "tentative" nowhere; g2 carries its two phones, in table order. *)
Lemma get_guests_report_witness :
  exists guests s',
    get_guests (RT := rt0) alice_get "p1" st_guests
    = (Ok (JObj [("guests", JList (map JObj guests));
                 ("count", JInt 6);
                 ("rsvp_stats", JObj [("pending", JInt 2); ("confirmed", JInt 1);
                                      ("declined", JInt 1); ("maybe", JInt 1)])],
           StCode SUCCESS), s')
    /\ map (fun g => dget g "id") guests
       = [Some (JStr "g1"); Some (JStr "g2"); Some (JStr "g3"); Some (JStr "g4");
          Some (JStr "g5"); Some (JStr "g6")]
    /\ map (fun g => dget g "phone_numbers") guests
       = [Some (JList []);
          Some (JList [JObj (phone_row "h1" "g2" "555-0101"); JObj (phone_row "h3" "g2" "555-0102")]);
          Some (JList []); Some (JList []); Some (JList []); Some (JList [])]
    /\ st_db s' = st_db st_guests.
Proof.
  destruct (get_guests_report toy_get_user toy_fromisoformat alice_get "tok-alice"
              (mkUser "alice") "p1" (tables (st_db st_guests)) 100 5 [] alice_plan [])
    as [s' [E Hdb]]; try reflexivity.
  eexists. exists s'. split; [exact E|]. split; [|split; [|exact Hdb]]; vm_compute; reflexivity.
Defined.

Lemma get_plan_owner_view_witness :
  exists s',
    get_plan (RT := rt0) alice_get "p1" st1
    = (Ok (JObj [("plan", JObj alice_plan);
                 ("guests", JList [JObj (with_phones (tables (st_db st1)) alice_guest)]);
                 ("guests_count", JInt 1)], StCode SUCCESS), s').
Proof.
  destruct (get_plan_owner_view toy_get_user toy_fromisoformat alice_get "tok-alice"
              (mkUser "alice") "p1" (tables (st_db st1)) 100 5 [] alice_plan [])
    as [s' [E _]]; try reflexivity.
  - intros g Hg. simpl in Hg. destruct Hg as [<-|[]]. discriminate.
  - exists s'. exact E.
Defined.

(** Alice adds a phone to g1 with a body that has no phone_number, then
    with the JSON body [null]. *)
Lemma add_guest_phone_requires_number_witness :
  (exists s',
    add_guest_phone (RT := rt0) (bearer "tok-alice" (JObj [("phone_type", JStr "home")]))
      "p1" "g1" st1 = (Ok (err "Phone number is required", StCode ERROR), s')
    /\ st_db s' = st_db st1)
  /\ (exists s',
    add_guest_phone (RT := rt0) (bearer "tok-alice" JNull)
      "p1" "g1" st1 = (Ok (err "Phone number is required", StCode ERROR), s')
    /\ st_db s' = st_db st1).
Proof.
  split.
  - destruct (add_guest_phone_requires_number toy_get_user toy_fromisoformat
                (bearer "tok-alice" (JObj [("phone_type", JStr "home")])) "tok-alice"
                (mkUser "alice") "p1" (tables (st_db st1)) 100 5 [] alice_plan [])
      with (G := "g1") as [s' [E Hdb]]; try reflexivity.
    + right. exists [("phone_type", JStr "home")]. split; reflexivity.
    + exists s'. split; [exact E | exact Hdb].
  - destruct (add_guest_phone_requires_number toy_get_user toy_fromisoformat
                (bearer "tok-alice" JNull) "tok-alice"
                (mkUser "alice") "p1" (tables (st_db st1)) 100 5 [] alice_plan [])
      with (G := "g1") as [s' [E Hdb]]; try reflexivity.
    + left. exists JNull. split; reflexivity.
    + exists s'. split; [exact E | exact Hdb].
Defined.

(** The categories of [st_stats], listed by name. *)
Lemma get_categories_sorted_witness :
  exists cats s',
    get_categories (RT := rt0) alice_get st_stats
    = (Ok (JObj [("categories", JList (map JObj cats))], StCode SUCCESS), s')
    /\ map (fun c => dget c "name") cats = [Some (JStr "Party"); Some (JStr "Wedding")]
    /\ StronglySorted (str_key_le false "name") cats.
Proof.
  destruct (get_categories_sorted toy_get_user toy_fromisoformat alice_get
              (tables (st_db st_stats)) 100 5 []) as [cats [s' [E [_ [Hp Hs]]]]].
  exists cats, s'. split; [exact E|]. split.
  - assert (E' : fst (get_categories (RT := mem_runtime toy_get_user toy_fromisoformat) alice_get
                         (mkSt (mkDB (tables (st_db st_stats)) 100) 5 []))
                  = Ok (JObj [("categories", JList (map JObj
                         [[("id", JInt 2); ("name", JStr "Party"); ("icon", JStr "cake")];
                          [("id", JInt 1); ("name", JStr "Wedding"); ("icon", JStr "ring")]]))],
                        StCode SUCCESS)) by reflexivity.
    rewrite E in E'. cbn [fst] in E'. injection E' as Hm.
    destruct cats as [|a [|b [|c l]]]; cbn [map] in Hm; try discriminate Hm.
    injection Hm as -> ->. reflexivity.
  - apply Hs. intros c Hc. vm_compute in Hc.
    repeat (destruct Hc as [<-|Hc]; [eexists; reflexivity|]). destruct Hc.
Defined.

Lemma create_task_bad_due_date_witness :
  exists s',
    create_task (RT := rt0)
      (bearer "tok-alice" (JObj [("title", JStr "Book venue"); ("due_date", JStr "tomorrow")]))
      "p1" st1 = (Ok (err "Invalid due_date format", StCode ERROR), s')
    /\ st_db s' = st_db st1.
Proof.
  destruct (create_task_bad_due_date toy_get_user toy_fromisoformat
              (bearer "tok-alice" (JObj [("title", JStr "Book venue"); ("due_date", JStr "tomorrow")]))
              "tok-alice" (mkUser "alice") "p1" (tables (st_db st1)) 100 5 [] alice_plan [])
    with (d := [("title", JStr "Book venue"); ("due_date", JStr "tomorrow")]) as [s' [E Hdb]]; try reflexivity; try discriminate.
  exists s'. split; [exact E | exact Hdb].
Defined.

Lemma create_plan_sets_owner_witness :
  exists row s',
    create_plan (RT := rt0)
      (bearer "tok-alice" (JObj [("title", JStr "Gala");
                                 ("event_date", JStr "2026-06-01T10:00:00+00:00");
                                 ("user_id", JStr "bob")])) st1
    = (Ok (JObj [("message", JStr "Plan created successfully"); ("plan", JObj row)], StInt 201), s')
    /\ dget row "user_id" = Some (JStr "alice").
Proof.
  destruct (create_plan_sets_owner toy_get_user toy_fromisoformat
              (bearer "tok-alice" (JObj [("title", JStr "Gala");
                                         ("event_date", JStr "2026-06-01T10:00:00+00:00");
                                         ("user_id", JStr "bob")]))
              "tok-alice" (mkUser "alice") (tables (st_db st1)) 100 5 []
              [("title", JStr "Gala"); ("event_date", JStr "2026-06-01T10:00:00+00:00");
               ("user_id", JStr "bob")]
              "2026-06-01T10:00:00+00:00" 1780308000)
    as [row [s' [E [_ [_ [Hu _]]]]]]; try reflexivity; try discriminate.
  exists row, s'. split; [exact E | exact Hu].
Defined.

Lemma Guest_create_round_trip_witness :
  exists s',
    Guest.create (RT := rt0) "p1" (JStr "Cy") [] st1
    = (Ok (Some (dset [("id", JStr "100"); ("plan_id", JStr "p1"); ("name", JStr "Cy");
                       ("rsvp_status", JStr "pending")] "phone_numbers" (JList []))), s').
Proof.
  destruct (Guest_create_round_trip toy_get_user toy_fromisoformat "p1" (JStr "Cy") []
              (tables (st_db st1)) 100 5 []) as [s' [E _]]; try reflexivity.
  exists s'. exact E.
Defined.

Lemma search_by_phone_mem_witness :
  exists s',
    Guest.search_by_phone (RT := rt0) (JStr "555") st_phone
    = (Ok [with_phones (tables (st_db st_phone)) alice_guest], s').
Proof.
  destruct (search_by_phone_mem toy_get_user toy_fromisoformat (JStr "555")
              (tables (st_db st_phone)) 100 5 []) as [s' [E _]].
  - intros ph Hph. simpl in Hph. destruct Hph as [<-|[]]. discriminate.
  - exists s'. exact E.
Defined.

Lemma create_task_stores_task_witness :
  exists row s',
    create_task (RT := rt0)
      (bearer "tok-alice" (JObj [("title", JStr "Book venue"); ("plan_id", JStr "p2")])) "p1" st1
    = (Ok (JObj [("message", JStr "Task created successfully"); ("task", JObj row)], StInt 201), s')
    /\ dget row "plan_id" = Some (JStr "p1").
Proof.
  destruct (create_task_stores_task toy_get_user toy_fromisoformat
              (bearer "tok-alice" (JObj [("title", JStr "Book venue"); ("plan_id", JStr "p2")]))
              "tok-alice" (mkUser "alice") "p1" (tables (st_db st1)) 100 5 [] alice_plan [])
    with (d := [("title", JStr "Book venue"); ("plan_id", JStr "p2")]) as [row [s' [E [_ [_ [Hp _]]]]]]; try reflexivity; try discriminate.
  - left. reflexivity.
  - exists row, s'. split; [exact E | exact Hp].
Defined.

Lemma get_categories_public_witness :
  fst (get_categories (RT := rt0) alice_get st_stats)
  = Ok (JObj [("categories", JList [JObj [("id", JInt 2); ("name", JStr "Party"); ("icon", JStr "cake")];
                                    JObj [("id", JInt 1); ("name", JStr "Wedding"); ("icon", JStr "ring")]])],
        StCode SUCCESS)
  /\ fst (get_categories (RT := down_runtime) alice_get st1)
     = Ok (JObj [("categories", JList [])], StCode SUCCESS)
  /\ exists e, fst (get_categories (RT := interrupt_runtime) alice_get st1) = Raise e.
Proof.
  split; [|split].
  - destruct (get_categories_public (RT := rt0) alice_get alice_get st_stats) as [_ [H _]].
    exact (H _ _ eq_refl).
  - destruct (get_categories_public (RT := down_runtime) alice_get alice_get st1) as [_ [_ [H _]]].
    exact (H _ _ eq_refl eq_refl eq_refl).
  - destruct (get_categories_public (RT := interrupt_runtime) alice_get alice_get st1) as [_ [_ [_ H]]].
    exact (H _ _ eq_refl (or_introl eq_refl)).
Defined.

Lemma update_guest_missing_witness :
  exists s',
    update_guest (RT := rt0) alice_edit_req "p1" "g7" st1
    = (Ok (err "Failed to update guest", StInt 500), s')
    /\ table (tables (st_db s')) "guests" = [alice_guest; bob_guest].
Proof.
  destruct (update_guest_missing toy_get_user toy_fromisoformat alice_edit_req "tok-alice"
              (mkUser "alice") "p1" (tables (st_db st1)) 100 5 [] alice_plan [])
    with (G := "g7") (d := [("name", JStr "Zoe")]) as [s' [E Ht]];
    try reflexivity; try discriminate.
  exists s'. split; [exact E | rewrite Ht; reflexivity].
Defined.

Lemma assign_ids_length n rows : length (fst (assign_ids n rows)) = length rows.
Proof.
  revert n. induction rows as [|x rows IH]; intros n; simpl; [reflexivity|].
  specialize (IH (S n)). destruct (assign_ids (S n) rows) as [rs n']. simpl in *. congruence.
Qed.

Lemma assign_ids_in n rows x :
  In x (fst (assign_ids n rows)) ->
  exists r0, In r0 rows /\ (x = r0 \/ exists v, x = ("id", v) :: r0).
Proof.
  revert n. induction rows as [|y rows IH]; intros n Hx; simpl in Hx; [contradiction|].
  specialize (IH (S n)). destruct (assign_ids (S n) rows) as [rs n'] eqn:E. simpl in Hx.
  destruct Hx as [<-|Hx].
  - exists y. split; [left; reflexivity|].
    destruct (dget y "id"); [left; reflexivity | right; eexists; reflexivity].
  - destruct (IH Hx) as [r0 [Hr Hx']]. exists r0. split; [right; exact Hr | exact Hx'].
Qed.

Lemma rows_of_payload_objs {A} (f : A -> dict) xs :
  rows_of_payload (JList (map (fun x => JObj (f x)) xs)) = Some (map f xs).
Proof.
  unfold rows_of_payload. induction xs as [|x xs IH]; simpl; [reflexivity|].
  rewrite IH. reflexivity.
Qed.

(** With a store that runs every query, [Guest.add_phone_numbers] given a list
    of phone objects appends one row per phone to the guest_phones table, in
    order, each under a store-assigned id, with the guest's id, the phone's
    [number], [type] (default [mobile]) and [is_primary] (default [false]);
    it returns those rows. *)
Theorem add_phone_numbers_mem au iso gid ps ts n now tr :
  let rows := map (fun d => [("guest_id", gid); ("phone_number", kw d "number" JNull);
                             ("phone_type", kw d "type" (JStr "mobile"));
                             ("is_primary", kw d "is_primary" (JBool false))]) ps in
  exists s',
    Guest.add_phone_numbers (RT := mem_runtime au iso) gid (JList (map JObj ps))
      (mkSt (mkDB ts n) now tr) = (Ok (fst (assign_ids n rows)), s')
    /\ st_db s' = mkDB (set_table ts "guest_phones"
                         (app (table ts "guest_phones") (fst (assign_ids n rows))))
                       (snd (assign_ids n rows))
    /\ length (fst (assign_ids n rows)) = length ps
    /\ (forall x, In x (fst (assign_ids n rows)) -> dget x "guest_id" = Some gid).
Proof.
  intros rows. unfold Guest.add_phone_numbers, accessor, entry, try_except.
  unfold bind at 1. unfold record at 1. cbn [st_db st_now st_trace].
  unfold py_iter. rewrite (bind_ok _ _ _ _ _ (eq_refl : ret (map JObj ps) _ = _)).
  match goal with |- context [bind (mapM ?f (map JObj ps)) _ ?st] =>
    assert (Hmap : mapM f (map JObj ps) st
                   = (Ok (map (fun v => match v with JObj d =>
                            JObj [("guest_id", gid); ("phone_number", kw d "number" JNull);
                                  ("phone_type", kw d "type" (JStr "mobile"));
                                  ("is_primary", kw d "is_primary" (JBool false))]
                          | _ => JNull end) (map JObj ps)), st))
  end.
  { apply mapM_pure. intros v Hv. apply in_map_iff in Hv as [d [<- _]]. reflexivity. }
  rewrite (bind_ok _ _ _ _ _ Hmap). clear Hmap.
  rewrite map_map. cbv beta iota.
  unfold execute. cbn [rt_exec mem_runtime mem_exec st_db tables next_id].
  rewrite rows_of_payload_objs.
  match goal with |- context [assign_ids n ?l] => replace l with rows by reflexivity end.
  destruct (assign_ids n rows) as [rs n'] eqn:E.
  cbn [fst snd]. eexists. split; [reflexivity|]. split; [reflexivity|]. split.
  - replace rs with (fst (assign_ids n rows)) by (rewrite E; reflexivity).
    rewrite assign_ids_length. unfold rows. apply length_map.
  - intros x Hx. replace rs with (fst (assign_ids n rows)) in Hx by (rewrite E; reflexivity).
    destruct (assign_ids_in _ _ _ Hx) as [r0 [Hr [-> | [v ->]]]];
      unfold rows in Hr; apply in_map_iff in Hr as [d [<- _]]; reflexivity.
Qed.
